(** * Scrollify web tracker: the tick-driven counter engine

    A shallow embedding of the browser extension's tracking core:

    - [classify.ts]   the domain classifier ([classifyDomain]);
    - [storage.ts]    the persisted [TrackingState] record and its
                      read-modify-write helper ([updateTrackingState]);
    - [background.ts] the domain-switch handler, the tick engine and the
                      threshold side effects;
    - [env.ts]        the normalisation of the Supabase URL;
    - [popup/Popup.tsx] the theme switch, the clock display and the button
                      that transfers the totals to the leaderboard, the
                      last in two revisions ([Module Popup], and
                      [Module PopupEarly] for the one that subtracts the
                      productive seconds).

    [background.ts] is present in two revisions.  The later one (capped
    elapsed time, transition-based resets, pausing only when idle and
    unfocused) is embedded as [Module Background]; the earlier one as
    [Module BackgroundEarly], for comparison.

    Modelling conventions.
    - Millisecond counters and timestamps are JS numbers holding integers;
      they are modelled as [Z] (no rounding of doubles beyond 2^53).
    - A JS string is a [string] holding its UTF-8 encoding, which is what
      a literal denotes; a string with an unpaired surrogate has no such
      encoding and is not represented.  Equality, [startsWith], [endsWith]
      and [includes] are the same on the bytes as on the characters.  The
      operations that depend on what a character is, [trim], the
      replacement of a character class and [length], work on the
      characters ([chars]): white space is the set that [\s] and [trim]
      use, the Unicode spaces included, and [length] counts UTF-16 code
      units.  [toLowerCase] acts on the ASCII letters, which is all a host
      name produced by the URL parser contains.
    - Every [async] function is awaited by its caller, so an operation is a
      state transformer on the [World]: the content of
      [chrome.storage.local], the module-level flags, the active tab and
      the log of requests sent to the external sinks.  Interleaving of two
      operations at an [await] is not modelled.
    - [Date.now()] is an oracle: the n-th call returns [dateNow env n].
    - A stored state has every field of the interface, with a number in
      each numeric field; the guards [x || 0] of the source are kept
      ([orZero]) although they are the identity on such values.
    - The host name of the active tab is taken as given ([activeDomain]):
      [extractDomain] is the platform's URL parser.
    - The popup's handler talks to the leaderboard table itself; the answer
      to its read and the success of its write are parameters of the
      handler, and the writes it sends are its result.  A read or a write
      that throws counts as one that fails.
    - A run of the service worker is a list of [Input]s handled one after
      the other ([runInputs]).  The timer does not wait for a tick to end
      before it starts the next one, and the popup writes to the same
      store; results that would not survive two handlers overlapping are
      therefore stated for one handler run to completion, not for runs. *)

From Stdlib Require Import ZArith Bool List String Ascii Lia DecimalString
  DecimalPos DecimalZ.
Import ListNotations.

Open Scope string_scope.
Open Scope Z_scope.

(* ================================================================== *)
(** * JavaScript string primitives used by the sources                  *)
(* ================================================================== *)

(** [c.toLowerCase()] on one ASCII character. *)
Definition lowerAscii (c : ascii) : ascii :=
  let n := nat_of_ascii c in
  if ((65 <=? n) && (n <=? 90))%nat then ascii_of_nat (n + 32) else c.

(** [s.toLowerCase()] *)
Fixpoint toLowerCase (s : string) : string :=
  match s with
  | EmptyString => EmptyString
  | String c s' => String (lowerAscii c) (toLowerCase s')
  end.

(** [s.startsWith(p)] *)
Fixpoint startsWith (s p : string) {struct p} : bool :=
  match p with
  | EmptyString => true
  | String a p' =>
      match s with
      | EmptyString => false
      | String b s' => Ascii.eqb a b && startsWith s' p'
      end
  end.

(** [s.endsWith(t)]: some suffix of [s] is [t]. *)
Fixpoint endsWith (s t : string) : bool :=
  (s =? t)%string ||
  match s with
  | EmptyString => false
  | String _ s' => endsWith s' t
  end.

(** [s.includes(t)]: [t] starts at some position of [s]. *)
Fixpoint includes (s t : string) : bool :=
  startsWith s t ||
  match s with
  | EmptyString => false
  | String _ s' => includes s' t
  end.

(** Drop the first [n] characters. *)
Fixpoint dropChars (n : nat) (s : string) : string :=
  match n, s with
  | O, _ => s
  | S _, EmptyString => EmptyString
  | S n', String _ s' => dropChars n' s'
  end.

(** [s.replace(/^www\./, '')] *)
Definition stripWww (s : string) : string :=
  if startsWith s "www." then dropChars 4 s else s.

(** ** Characters

    A [string] holds the UTF-8 encoding of the text, as a literal does.
    A character is a byte that is not a continuation byte together with
    the continuation bytes that follow it. *)

(** A continuation byte: [10xxxxxx]. *)
Definition isContinuation (c : ascii) : bool :=
  ((128 <=? N_of_ascii c) && (N_of_ascii c <=? 191))%N.

(** The string goes on with a continuation byte. *)
Definition continues (s : string) : bool :=
  match s with
  | String c _ => isContinuation c
  | EmptyString => false
  end.

(** The characters of a string, each as the bytes that encode it. *)
Fixpoint chars (s : string) : list string :=
  match s with
  | EmptyString => []
  | String c s' =>
      if continues s' then
        match chars s' with
        | g :: rest => String c g :: rest
        | [] => [String c EmptyString]
        end
      else String c EmptyString :: chars s'
  end.

(** [characters.join('')] *)
Definition joinChars (l : list string) : string :=
  fold_right append EmptyString l.

(** UTF-16 code units of one character: two outside the basic plane (a
    first byte [11110xxx]), one otherwise. *)
Definition codeUnits (g : string) : nat :=
  match g with
  | String c _ => if (240 <=? N_of_ascii c)%N then 2 else 1
  | EmptyString => 0
  end.

(** [s.length] *)
Definition jsLength (s : string) : nat := list_sum (map codeUnits (chars s)).

(** The characters that [\s] matches and [trim] removes: the white space
    and the line terminators of ECMAScript.
    U+0009 to U+000D, U+0020; U+00A0; U+1680; U+2000 to U+200A, U+2028,
    U+2029, U+202F; U+205F; U+3000; U+FEFF. *)
Definition isWhiteSpace (g : string) : bool :=
  match map N_of_ascii (list_ascii_of_string g) with
  | [a] => (9 <=? a) && (a <=? 13) || (a =? 32)
  | [a; b] => (a =? 194) && (b =? 160)
  | [a; b; c] =>
      (a =? 225) && (b =? 154) && (c =? 128)
      || (a =? 226) && (b =? 128)
         && ((128 <=? c) && (c <=? 138) || (c =? 168) || (c =? 169)
             || (c =? 175))
      || (a =? 226) && (b =? 129) && (c =? 159)
      || (a =? 227) && (b =? 128) && (c =? 128)
      || (a =? 239) && (b =? 187) && (c =? 191)
  | _ => false
  end%N.

Fixpoint dropWhile {A : Type} (p : A -> bool) (l : list A) : list A :=
  match l with
  | [] => []
  | x :: l' => if p x then dropWhile p l' else l
  end.

Fixpoint dropWhileEnd {A : Type} (p : A -> bool) (l : list A) : list A :=
  match l with
  | [] => []
  | x :: l' =>
      match dropWhileEnd p l' with
      | [] => if p x then [] else [x]
      | r => x :: r
      end
  end.

(** [s.trim()] *)
Definition trim (s : string) : string :=
  joinChars (dropWhileEnd isWhiteSpace (dropWhile isWhiteSpace (chars s))).

(** [s.replace(/[...]/g, '')] for a class [drop] of characters. *)
Definition removeChars (drop : string -> bool) (s : string) : string :=
  joinChars (filter (fun g => negb (drop g)) (chars s)).

(** JS truthiness of a [string | null]: [null] and [''] are falsy.  The
    result is the string the guard narrows to. *)
Definition truthy (o : option string) : option string :=
  match o with
  | Some EmptyString => None
  | Some s => Some s
  | None => None
  end.

(** [a === b] on [string | null]. *)
Definition strictEq (a b : option string) : bool :=
  match a, b with
  | None, None => true
  | Some x, Some y => (x =? y)%string
  | _, _ => false
  end.

(** [x || 0] on a number. *)
Definition orZero (x : Z) : Z := if x =? 0 then 0 else x.

(** [Math.floor(ms / 1000)] *)
Definition floorSeconds (ms : Z) : Z := ms / 1000.

(* ================================================================== *)
(** * classify.ts                                                       *)
(* ================================================================== *)

Inductive Classification : Type := productive | unproductive.

Definition UNPRODUCTIVE_DOMAINS : list string :=
  ["youtube.com"; "tiktok.com"; "instagram.com"].

Definition normalizeDomain (domain : string) : string :=
  stripWww (toLowerCase domain).

(** The test of the loop body, for one entry of the denylist. *)
Definition matchesDomain (normalizedDomain unproductiveDomain : string) : bool :=
  (normalizedDomain =? unproductiveDomain)%string
  || endsWith normalizedDomain ("." ++ unproductiveDomain).

(** [classifyDomain]: [None] is the source's [null]. *)
Definition classifyDomain (domain : option string) : option Classification :=
  match truthy domain with
  | None => None
  | Some d =>
      let normalizedDomain := normalizeDomain d in
      if existsb (matchesDomain normalizedDomain) UNPRODUCTIVE_DOMAINS
      then Some unproductive
      else Some productive
  end.

Definition isProductive (c : option Classification) : bool :=
  match c with Some productive => true | _ => false end.

Definition isUnproductive (c : option Classification) : bool :=
  match c with Some unproductive => true | _ => false end.

(** The spec's rule, in its words: the host is a denylisted host name, or
    a subdomain of one (the match ends at a dot). *)
Definition onDenylist (host : string) : Prop :=
  exists u, In u UNPRODUCTIVE_DOMAINS /\
            (host = u \/ exists sub, host = sub ++ "." ++ u).

(* ================================================================== *)
(** * storage.ts                                                        *)
(* ================================================================== *)

Inductive Theme : Type := light | dark.

(** The persisted record.  [lastCallTriggerTime] is read and written by
    [background.ts]; the revision of the interface that declares it is not
    among the sources, so it is taken here with the default [0] that the
    sign-out handler writes. *)
Record TrackingState : Type := mkTrackingState {
  currentDomain : option string;
  lastTick : Z;
  consecutiveProductiveMs : Z;
  unproductiveMsBuffer : Z;
  totalProductiveMs : Z;
  totalUnproductiveMs : Z;
  userId : option string;
  theme : Theme;
  lastLeaderboardUpdate : Z;
  lastCallTriggerTime : Z
}.

(** The keys of a [TrackingState]. *)
Inductive Field : Type :=
| FCurrentDomain | FLastTick | FConsecutiveProductiveMs
| FUnproductiveMsBuffer | FTotalProductiveMs | FTotalUnproductiveMs
| FUserId | FTheme | FLastLeaderboardUpdate | FLastCallTriggerTime.

Definition Field_eqb (f g : Field) : bool :=
  match f, g with
  | FCurrentDomain, FCurrentDomain
  | FLastTick, FLastTick
  | FConsecutiveProductiveMs, FConsecutiveProductiveMs
  | FUnproductiveMsBuffer, FUnproductiveMsBuffer
  | FTotalProductiveMs, FTotalProductiveMs
  | FTotalUnproductiveMs, FTotalUnproductiveMs
  | FUserId, FUserId
  | FTheme, FTheme
  | FLastLeaderboardUpdate, FLastLeaderboardUpdate
  | FLastCallTriggerTime, FLastCallTriggerTime => true
  | _, _ => false
  end.

(** The value stored under a key. *)
Inductive FieldValue : Type :=
| VString (s : option string)
| VNumber (n : Z)
| VTheme (t : Theme).

Definition getField (f : Field) (s : TrackingState) : FieldValue :=
  match f with
  | FCurrentDomain => VString (currentDomain s)
  | FLastTick => VNumber (lastTick s)
  | FConsecutiveProductiveMs => VNumber (consecutiveProductiveMs s)
  | FUnproductiveMsBuffer => VNumber (unproductiveMsBuffer s)
  | FTotalProductiveMs => VNumber (totalProductiveMs s)
  | FTotalUnproductiveMs => VNumber (totalUnproductiveMs s)
  | FUserId => VString (userId s)
  | FTheme => VTheme (theme s)
  | FLastLeaderboardUpdate => VNumber (lastLeaderboardUpdate s)
  | FLastCallTriggerTime => VNumber (lastCallTriggerTime s)
  end.

(** One [key: value] entry of an object literal of type
    [Partial<TrackingState>]. *)
Inductive Assignment : Type :=
| SetCurrentDomain (d : option string)
| SetLastTick (t : Z)
| SetConsecutiveProductiveMs (ms : Z)
| SetUnproductiveMsBuffer (ms : Z)
| SetTotalProductiveMs (ms : Z)
| SetTotalUnproductiveMs (ms : Z)
| SetUserId (u : option string)
| SetTheme (t : Theme)
| SetLastLeaderboardUpdate (t : Z)
| SetLastCallTriggerTime (t : Z).

(** [Partial<TrackingState>]: the entries of the literal, in order. *)
Definition Partial : Type := list Assignment.

Definition assignedField (a : Assignment) : Field :=
  match a with
  | SetCurrentDomain _ => FCurrentDomain
  | SetLastTick _ => FLastTick
  | SetConsecutiveProductiveMs _ => FConsecutiveProductiveMs
  | SetUnproductiveMsBuffer _ => FUnproductiveMsBuffer
  | SetTotalProductiveMs _ => FTotalProductiveMs
  | SetTotalUnproductiveMs _ => FTotalUnproductiveMs
  | SetUserId _ => FUserId
  | SetTheme _ => FTheme
  | SetLastLeaderboardUpdate _ => FLastLeaderboardUpdate
  | SetLastCallTriggerTime _ => FLastCallTriggerTime
  end.

(** The update names the key [f]. *)
Definition names (updates : Partial) (f : Field) : bool :=
  existsb (fun a => Field_eqb (assignedField a) f) updates.

Definition assign (s : TrackingState) (a : Assignment) : TrackingState :=
  match a with
  | SetCurrentDomain d =>
      mkTrackingState d (lastTick s) (consecutiveProductiveMs s)
        (unproductiveMsBuffer s) (totalProductiveMs s) (totalUnproductiveMs s)
        (userId s) (theme s) (lastLeaderboardUpdate s) (lastCallTriggerTime s)
  | SetLastTick t =>
      mkTrackingState (currentDomain s) t (consecutiveProductiveMs s)
        (unproductiveMsBuffer s) (totalProductiveMs s) (totalUnproductiveMs s)
        (userId s) (theme s) (lastLeaderboardUpdate s) (lastCallTriggerTime s)
  | SetConsecutiveProductiveMs ms =>
      mkTrackingState (currentDomain s) (lastTick s) ms
        (unproductiveMsBuffer s) (totalProductiveMs s) (totalUnproductiveMs s)
        (userId s) (theme s) (lastLeaderboardUpdate s) (lastCallTriggerTime s)
  | SetUnproductiveMsBuffer ms =>
      mkTrackingState (currentDomain s) (lastTick s) (consecutiveProductiveMs s)
        ms (totalProductiveMs s) (totalUnproductiveMs s)
        (userId s) (theme s) (lastLeaderboardUpdate s) (lastCallTriggerTime s)
  | SetTotalProductiveMs ms =>
      mkTrackingState (currentDomain s) (lastTick s) (consecutiveProductiveMs s)
        (unproductiveMsBuffer s) ms (totalUnproductiveMs s)
        (userId s) (theme s) (lastLeaderboardUpdate s) (lastCallTriggerTime s)
  | SetTotalUnproductiveMs ms =>
      mkTrackingState (currentDomain s) (lastTick s) (consecutiveProductiveMs s)
        (unproductiveMsBuffer s) (totalProductiveMs s) ms
        (userId s) (theme s) (lastLeaderboardUpdate s) (lastCallTriggerTime s)
  | SetUserId u =>
      mkTrackingState (currentDomain s) (lastTick s) (consecutiveProductiveMs s)
        (unproductiveMsBuffer s) (totalProductiveMs s) (totalUnproductiveMs s)
        u (theme s) (lastLeaderboardUpdate s) (lastCallTriggerTime s)
  | SetTheme t =>
      mkTrackingState (currentDomain s) (lastTick s) (consecutiveProductiveMs s)
        (unproductiveMsBuffer s) (totalProductiveMs s) (totalUnproductiveMs s)
        (userId s) t (lastLeaderboardUpdate s) (lastCallTriggerTime s)
  | SetLastLeaderboardUpdate t =>
      mkTrackingState (currentDomain s) (lastTick s) (consecutiveProductiveMs s)
        (unproductiveMsBuffer s) (totalProductiveMs s) (totalUnproductiveMs s)
        (userId s) (theme s) t (lastCallTriggerTime s)
  | SetLastCallTriggerTime t =>
      mkTrackingState (currentDomain s) (lastTick s) (consecutiveProductiveMs s)
        (unproductiveMsBuffer s) (totalProductiveMs s) (totalUnproductiveMs s)
        (userId s) (theme s) (lastLeaderboardUpdate s) t
  end.

(** [{ ...current, ...updates }]: the entries of [updates] overwrite the
    copy of [current], left to right. *)
Definition spread (current : TrackingState) (updates : Partial) : TrackingState :=
  fold_left assign updates current.

(* ================================================================== *)
(** * The environment and the browser-side state                        *)
(* ================================================================== *)

(** Outcome of [fetch] on the Twilio endpoint followed by
    [response.json()]. *)
Inductive FetchResult : Type :=
| ResponseOk            (* response.ok, body parsed *)
| ResponseNotOk         (* !response.ok *)
| FetchRejected         (* fetch itself threw *)
| ResponseOkJsonRejected. (* response.ok, response.json() threw *)

(** Outcome of [supabase.from('profiles').select(..).eq('user_id', id).single()]. *)
Inductive ProfileResult : Type :=
| NoProfile                               (* error, or no row *)
| ProfileRow (dads_number : option string).

(** What the extension cannot decide: the wall clock, the build-time
    constants of [env.ts] (the revision declaring the Twilio constants is
    not among the sources), and the answers of the remote services. *)
Record Env : Type := mkEnv {
  dateNow : nat -> Z;              (* the n-th result of Date.now() *)
  loadTime : Z;                    (* Date.now() when storage.ts was loaded *)
  TWILIO_ACCOUNT_SID : string;
  TWILIO_AUTH_TOKEN : string;
  TWILIO_PHONE_NUMBER : string;
  USER_PHONE_NUMBER : string;
  WEBHOOK_URL : string;
  profiles : string -> ProfileResult;
  twilio : nat -> FetchResult      (* outcome of the n-th call request *)
}.

(** Requests sent to the external sinks. *)
Inductive Effect : Type :=
| InsertProductiveTrigger (user_id domain : string) (duration_seconds : Z)
| InsertLeaderboardScore (user_id : string) (score : Z)
| UpsertLeaderboardGlobal (user_id : string) (best_score : Z)
| TwilioCall (From To Url : string).

Definition isTwilioCall (e : Effect) : bool :=
  match e with TwilioCall _ _ _ => true | _ => false end.

Record World : Type := mkWorld {
  storage : option TrackingState;  (* chrome.storage.local['trackingState'] *)
  clockReads : nat;                (* calls of Date.now() so far *)
  requests : nat;                  (* call requests sent so far *)
  effects : list Effect;           (* oldest first *)
  isIdle : bool;
  isWindowFocused : bool;
  activeDomain : option string     (* extractDomain(await getActiveTabUrl()) *)
}.

Definition withStorage (w : World) (s : option TrackingState) : World :=
  mkWorld s (clockReads w) (requests w) (effects w)
    (isIdle w) (isWindowFocused w) (activeDomain w).

Definition withIdle (w : World) (b : bool) : World :=
  mkWorld (storage w) (clockReads w) (requests w) (effects w)
    b (isWindowFocused w) (activeDomain w).

Definition withFocus (w : World) (b : bool) : World :=
  mkWorld (storage w) (clockReads w) (requests w) (effects w)
    (isIdle w) b (activeDomain w).

Definition withActiveDomain (w : World) (d : option string) : World :=
  mkWorld (storage w) (clockReads w) (requests w) (effects w)
    (isIdle w) (isWindowFocused w) d.

(** The state monad of an awaited operation. *)
Definition M (A : Type) : Type := World -> A * World.

Definition ret {A : Type} (a : A) : M A := fun w => (a, w).

Definition bind {A B : Type} (m : M A) (k : A -> M B) : M B :=
  fun w => let (a, w') := m w in k a w'.

Notation "x <- c ;; k" := (bind c (fun x => k))
  (at level 61, c at next level, right associativity).
Notation "c ;; k" := (bind c (fun _ => k))
  (at level 61, right associativity).

(** Send a request to a sink: it is appended to the log. *)
Definition emit (e : Effect) : M unit :=
  fun w => (tt, mkWorld (storage w) (clockReads w) (requests w)
                  (effects w ++ [e])
                  (isIdle w) (isWindowFocused w) (activeDomain w)).

Definition getIsIdle : M bool := fun w => (isIdle w, w).
Definition getIsWindowFocused : M bool := fun w => (isWindowFocused w, w).
Definition getActiveDomain : M (option string) := fun w => (activeDomain w, w).

Section Collaborators.
Variable env : Env.

(** [Date.now()] *)
Definition Date_now : M Z :=
  fun w => (dateNow env (clockReads w),
            mkWorld (storage w) (S (clockReads w)) (requests w) (effects w)
              (isIdle w) (isWindowFocused w) (activeDomain w)).

(** [fetch(url, ...)] on the Twilio endpoint, with the parse of the body. *)
Definition fetchTwilio (From To Url : string) : M FetchResult :=
  fun w => (twilio env (requests w),
            mkWorld (storage w) (clockReads w) (S (requests w))
              (effects w ++ [TwilioCall From To Url])
              (isIdle w) (isWindowFocused w) (activeDomain w)).

(** ** storage.ts *)

Definition DEFAULT_STATE : TrackingState :=
  {| currentDomain := None;
     lastTick := loadTime env;
     consecutiveProductiveMs := 0;
     unproductiveMsBuffer := 0;
     totalProductiveMs := 0;
     totalUnproductiveMs := 0;
     userId := None;
     theme := light;
     lastLeaderboardUpdate := 0;
     lastCallTriggerTime := 0 |}.

Definition stateOf (w : World) : TrackingState :=
  match storage w with
  | Some s => s
  | None => DEFAULT_STATE
  end.

Definition getTrackingState : M TrackingState :=
  fun w => (stateOf w, w).

Definition setTrackingState (state : TrackingState) : M unit :=
  fun w => (tt, withStorage w (Some state)).

Definition updateTrackingState (updates : Partial) : M TrackingState :=
  current <- getTrackingState ;;
  let updated := spread current updates in
  setTrackingState updated ;;
  ret updated.

Definition getUserId : M (option string) :=
  state <- getTrackingState ;;
  ret (userId state).

Definition setUserId (u : option string) : M unit :=
  updateTrackingState [SetUserId u] ;; ret tt.

(** ** Helpers of background.ts that both revisions share verbatim *)

Definition recordProductiveTrigger (domain : string) (durationMs : Z)
    (user : string) : M unit :=
  let durationSeconds := floorSeconds durationMs in
  emit (InsertProductiveTrigger user domain durationSeconds).

Definition recordUnproductiveTime (ms : Z) (user : string) : M unit :=
  let seconds := floorSeconds ms in
  emit (InsertLeaderboardScore user seconds).

Definition updateLeaderboard (user : string) (totalUnproductive : Z) : M unit :=
  match profiles env user with
  | NoProfile => ret tt
  | ProfileRow _ =>
      let unproductiveSeconds := floorSeconds totalUnproductive in
      emit (UpsertLeaderboardGlobal user unproductiveSeconds)
  end.

Definition getProfileUserId (authUserId : string) : M (option string) :=
  match profiles env authUserId with
  | NoProfile => ret None
  | ProfileRow _ => ret (truthy (Some authUserId))
  end.
End Collaborators.

Definition PRODUCTIVE_TRIGGER_MS : Z := 60000.
Definition UNPRODUCTIVE_BUFFER_MS : Z := 10000.
Definition TICK_INTERVAL_MS : Z := 1000.
Definition LEADERBOARD_UPDATE_INTERVAL_MS : Z := 60000.
Definition AI_CALL_TRIGGER_MS : Z := 120000.
Definition AI_CALL_COOLDOWN_MS : Z := 300000.

(** What the event loop delivers to the service worker. *)
Inductive Input : Type :=
| ActiveTabIs (d : option string)   (* the browser shows another page *)
| TabActivated                      (* chrome.tabs.onActivated *)
| FocusChanged (focused : bool)     (* chrome.windows.onFocusChanged *)
| IdleStateChanged (idle : bool)    (* chrome.idle.onStateChanged *)
| TickTimer                         (* setInterval(tick, TICK_INTERVAL_MS) *)
| LeaderboardTimer                  (* the one-minute timer or alarm *)
| SignedIn (authUserId : string)    (* supabase.auth: SIGNED_IN *)
| SignedOut.                        (* supabase.auth: SIGNED_OUT *)

(* ================================================================== *)
(** * background.ts, later revision                                     *)
(* ================================================================== *)

Module Background.
Section WithEnv.
Variable env : Env.

Definition updateDomain (newDomain : option string) : M unit :=
  state <- getTrackingState env ;;
  if strictEq (currentDomain state) newDomain then ret tt
  else
    let previousClassification := classifyDomain (currentDomain state) in
    let newClassification := classifyDomain newDomain in
    match truthy (currentDomain state), truthy (userId state) with
    | Some domain, Some user =>
        if isProductive previousClassification
           && (PRODUCTIVE_TRIGGER_MS <=? consecutiveProductiveMs state)
        then recordProductiveTrigger domain (consecutiveProductiveMs state) user
        else if isUnproductive previousClassification
                && (UNPRODUCTIVE_BUFFER_MS <=? unproductiveMsBuffer state)
        then recordUnproductiveTime (unproductiveMsBuffer state) user
        else ret tt
    | _, _ => ret tt
    end ;;
    let shouldResetProductive :=
      isProductive previousClassification && isUnproductive newClassification in
    let shouldResetUnproductive :=
      isUnproductive previousClassification && isProductive newClassification in
    now <- Date_now env ;;
    updateTrackingState env
      [ SetCurrentDomain newDomain;
        SetLastTick now;
        SetConsecutiveProductiveMs
          (if shouldResetProductive then 0 else consecutiveProductiveMs state);
        SetUnproductiveMsBuffer
          (if shouldResetUnproductive then 0 else unproductiveMsBuffer state) ] ;;
    ret tt.

(** The destination number, as formatted from the profile's entry. *)
Definition formatPhone (dadsNumber : string) : string :=
  let cleanedPhone :=
    removeChars (fun g => isWhiteSpace g || (g =? "-")%string
                          || (g =? "(")%string || (g =? ")")%string)
      (trim dadsNumber) in
  if startsWith cleanedPhone "+" then cleanedPhone
  else if startsWith cleanedPhone "1" && (jsLength cleanedPhone =? 11)%nat
  then "+" ++ cleanedPhone
  else "+1" ++ cleanedPhone.

Definition triggerAICall : M unit :=
  if (TWILIO_ACCOUNT_SID env =? "")%string
     || (TWILIO_AUTH_TOKEN env =? "")%string
     || (TWILIO_PHONE_NUMBER env =? "")%string
  then ret tt
  else if (WEBHOOK_URL env =? "")%string
          || includes (WEBHOOK_URL env) "your-webhook-server.com"
  then ret tt
  else
    state <- getTrackingState env ;;
    match truthy (userId state) with
    | None => ret tt
    | Some user =>
        match profiles env user with
        | NoProfile => ret tt
        | ProfileRow dads_number =>
            match truthy dads_number with
            | None => ret tt
            | Some dadsNumber =>
                if (trim dadsNumber =? "")%string then ret tt
                else
                  let toPhoneNumber := formatPhone dadsNumber in
                  response <- fetchTwilio env (TWILIO_PHONE_NUMBER env)
                                toPhoneNumber (WEBHOOK_URL env) ;;
                  match response with
                  | ResponseOk =>
                      now <- Date_now env ;;
                      updateTrackingState env
                        [ SetLastCallTriggerTime now;
                          SetConsecutiveProductiveMs 0;
                          SetTotalProductiveMs 0 ] ;;
                      ret tt
                  | _ => ret tt
                  end
            end
        end
    end.

Definition processTime (state : TrackingState) (elapsed : Z) : M unit :=
  let classification := classifyDomain (currentDomain state) in
  match truthy (userId state), truthy (currentDomain state) with
  | Some user, Some domain =>
      match classification with
      | Some productive =>
          let newConsecutive := consecutiveProductiveMs state + elapsed in
          let newTotal := orZero (totalProductiveMs state) + elapsed in
          let previousConsecutive := consecutiveProductiveMs state in
          let hasReachedThreshold := AI_CALL_TRIGGER_MS <=? newConsecutive in
          let wasBelowThreshold := previousConsecutive <? AI_CALL_TRIGGER_MS in
          (if hasReachedThreshold && wasBelowThreshold
           then triggerAICall else ret tt) ;;
          (if (PRODUCTIVE_TRIGGER_MS <=? newConsecutive)
              && (previousConsecutive <? PRODUCTIVE_TRIGGER_MS)
           then recordProductiveTrigger domain newConsecutive user
           else ret tt) ;;
          now <- Date_now env ;;
          updateTrackingState env
            [ SetConsecutiveProductiveMs newConsecutive;
              SetTotalProductiveMs newTotal;
              SetLastTick now ] ;;
          ret tt
      | Some unproductive =>
          let newBuffer := unproductiveMsBuffer state + elapsed in
          let newTotal := orZero (totalUnproductiveMs state) + elapsed in
          if UNPRODUCTIVE_BUFFER_MS <=? newBuffer then
            recordUnproductiveTime newBuffer user ;;
            now <- Date_now env ;;
            updateTrackingState env
              [ SetUnproductiveMsBuffer 0;
                SetTotalUnproductiveMs newTotal;
                SetLastTick now ] ;;
            ret tt
          else
            now <- Date_now env ;;
            updateTrackingState env
              [ SetUnproductiveMsBuffer newBuffer;
                SetTotalUnproductiveMs newTotal;
                SetLastTick now ] ;;
            ret tt
      | None =>
          now <- Date_now env ;;
          updateTrackingState env [ SetLastTick now ] ;;
          ret tt
      end
  | _, _ =>
      now <- Date_now env ;;
      updateTrackingState env [ SetLastTick now ] ;;
      ret tt
  end.

Definition maxElapsed : Z := 10000.

Definition tick : M unit :=
  state <- getTrackingState env ;;
  now <- Date_now env ;;
  let elapsed := now - lastTick state in
  let actualElapsed := if maxElapsed <? elapsed then maxElapsed else elapsed in
  if actualElapsed <=? 0 then
    updateTrackingState env [ SetLastTick now ] ;; ret tt
  else
    idle <- getIsIdle ;;
    focused <- getIsWindowFocused ;;
    let shouldPause := idle && negb focused in
    if shouldPause then
      updateTrackingState env [ SetLastTick now ] ;; ret tt
    else
      currentDomain' <- getActiveDomain ;;
      if negb (strictEq currentDomain' (currentDomain state)) then
        updateDomain currentDomain' ;;
        updatedState <- getTrackingState env ;;
        processTime updatedState actualElapsed
      else
        processTime state actualElapsed.

Definition checkAndUpdateLeaderboard : M unit :=
  state <- getTrackingState env ;;
  now <- Date_now env ;;
  match truthy (userId state) with
  | None => ret tt
  | Some user =>
      let timeSinceLastUpdate := now - orZero (lastLeaderboardUpdate state) in
      if LEADERBOARD_UPDATE_INTERVAL_MS <=? timeSinceLastUpdate then
        updateLeaderboard env user (orZero (totalUnproductiveMs state)) ;;
        updateTrackingState env [ SetLastLeaderboardUpdate now ] ;;
        ret tt
      else ret tt
  end.

(** ** Closed forms of the operations above, used to state results *)

(** What a domain switch writes. *)
Definition switchState (s : TrackingState) (newDomain : option string)
    (now : Z) : TrackingState :=
  spread s
    [ SetCurrentDomain newDomain;
      SetLastTick now;
      SetConsecutiveProductiveMs
        (if isProductive (classifyDomain (currentDomain s))
            && isUnproductive (classifyDomain newDomain)
         then 0 else consecutiveProductiveMs s);
      SetUnproductiveMsBuffer
        (if isUnproductive (classifyDomain (currentDomain s))
            && isProductive (classifyDomain newDomain)
         then 0 else unproductiveMsBuffer s) ].

(** What a domain switch sends to the discrete-event sink. *)
Definition switchEffects (s : TrackingState) : list Effect :=
  match truthy (currentDomain s), truthy (userId s) with
  | Some domain, Some user =>
      if isProductive (classifyDomain (currentDomain s))
         && (PRODUCTIVE_TRIGGER_MS <=? consecutiveProductiveMs s)
      then [InsertProductiveTrigger user domain
              (floorSeconds (consecutiveProductiveMs s))]
      else if isUnproductive (classifyDomain (currentDomain s))
              && (UNPRODUCTIVE_BUFFER_MS <=? unproductiveMsBuffer s)
      then [InsertLeaderboardScore user
              (floorSeconds (unproductiveMsBuffer s))]
      else []
  | _, _ => []
  end.

(** The number [triggerAICall] dials, when all its guards pass. *)
Definition callTarget (s : TrackingState) : option string :=
  if (TWILIO_ACCOUNT_SID env =? "")%string
     || (TWILIO_AUTH_TOKEN env =? "")%string
     || (TWILIO_PHONE_NUMBER env =? "")%string
  then None
  else if (WEBHOOK_URL env =? "")%string
          || includes (WEBHOOK_URL env) "your-webhook-server.com"
  then None
  else
    match truthy (userId s) with
    | None => None
    | Some user =>
        match profiles env user with
        | NoProfile => None
        | ProfileRow dads_number =>
            match truthy dads_number with
            | None => None
            | Some dadsNumber =>
                if (trim dadsNumber =? "")%string then None
                else Some (formatPhone dadsNumber)
            end
        end
    end.

(** The elapsed time a tick attributes: the raw gap, capped. *)
Definition attributed (elapsed : Z) : Z :=
  if maxElapsed <? elapsed then maxElapsed else elapsed.

(** The listeners registered at the end of the file. *)
Definition handle (i : Input) : M unit :=
  match i with
  | ActiveTabIs d => fun w => (tt, withActiveDomain w d)
  | TabActivated =>
      d <- getActiveDomain ;; updateDomain d
  | FocusChanged focused =>
      if focused then
        (fun w => (tt, withFocus w true)) ;;
        d <- getActiveDomain ;; updateDomain d
      else fun w => (tt, withFocus w false)
  | IdleStateChanged idle => fun w => (tt, withIdle w idle)
  | TickTimer => tick
  | LeaderboardTimer => checkAndUpdateLeaderboard
  | SignedIn authUserId =>
      profileUserId <- getProfileUserId env authUserId ;;
      match profileUserId with
      | Some u => setUserId env (Some u)
      | None => ret tt
      end
  | SignedOut =>
      setUserId env None ;;
      updateTrackingState env
        [ SetCurrentDomain None;
          SetConsecutiveProductiveMs 0;
          SetUnproductiveMsBuffer 0;
          SetTotalProductiveMs 0;
          SetTotalUnproductiveMs 0;
          SetLastLeaderboardUpdate 0;
          SetLastCallTriggerTime 0 ] ;;
      ret tt
  end.
End WithEnv.
End Background.

(* ================================================================== *)
(** * background.ts, earlier revision                                   *)
(* ================================================================== *)

Module BackgroundEarly.
Section WithEnv.
Variable env : Env.

Definition updateDomain (newDomain : option string) : M unit :=
  state <- getTrackingState env ;;
  if strictEq (currentDomain state) newDomain then ret tt
  else
    match truthy (currentDomain state), truthy (userId state) with
    | Some domain, Some user =>
        let previousClassification := classifyDomain (currentDomain state) in
        if isProductive previousClassification
           && (0 <? consecutiveProductiveMs state)
        then
          if PRODUCTIVE_TRIGGER_MS <=? consecutiveProductiveMs state
          then recordProductiveTrigger domain (consecutiveProductiveMs state) user
          else ret tt
        else if isUnproductive previousClassification
                && (0 <? unproductiveMsBuffer state)
        then recordUnproductiveTime (unproductiveMsBuffer state) user
        else ret tt
    | _, _ => ret tt
    end ;;
    let newClassification := classifyDomain newDomain in
    now <- Date_now env ;;
    updateTrackingState env
      [ SetCurrentDomain newDomain;
        SetLastTick now;
        SetConsecutiveProductiveMs
          (if isProductive newClassification then 0
           else consecutiveProductiveMs state);
        SetUnproductiveMsBuffer
          (if isUnproductive newClassification then 0
           else unproductiveMsBuffer state) ] ;;
    ret tt.

Definition triggerAICall : M unit :=
  state <- getTrackingState env ;;
  now <- Date_now env ;;
  if (0 <? lastCallTriggerTime state)
     && (now - lastCallTriggerTime state <? AI_CALL_COOLDOWN_MS)
  then ret tt
  else
    let toPhoneNumber :=
      if startsWith (USER_PHONE_NUMBER env) "+" then USER_PHONE_NUMBER env
      else "+1" ++ USER_PHONE_NUMBER env in
    let webhookUrl := WEBHOOK_URL env in
    response <- fetchTwilio env (TWILIO_PHONE_NUMBER env)
                  toPhoneNumber webhookUrl ;;
    match response with
    | ResponseOk =>
        updateTrackingState env [ SetLastCallTriggerTime now ] ;;
        ret tt
    | _ => ret tt
    end.

Definition processTime (state : TrackingState) (elapsed : Z) : M unit :=
  let classification := classifyDomain (currentDomain state) in
  match truthy (userId state), truthy (currentDomain state) with
  | Some user, Some domain =>
      match classification with
      | Some productive =>
          let newConsecutive := consecutiveProductiveMs state + elapsed in
          let newTotal := orZero (totalProductiveMs state) + elapsed in
          (if (AI_CALL_TRIGGER_MS <=? newConsecutive)
              && (newConsecutive - elapsed <? AI_CALL_TRIGGER_MS)
           then triggerAICall else ret tt) ;;
          if PRODUCTIVE_TRIGGER_MS <=? newConsecutive then
            recordProductiveTrigger domain newConsecutive user ;;
            now <- Date_now env ;;
            updateTrackingState env
              [ SetConsecutiveProductiveMs 0;
                SetTotalProductiveMs newTotal;
                SetLastTick now ] ;;
            ret tt
          else
            now <- Date_now env ;;
            updateTrackingState env
              [ SetConsecutiveProductiveMs newConsecutive;
                SetTotalProductiveMs newTotal;
                SetLastTick now ] ;;
            ret tt
      | Some unproductive =>
          let newBuffer := unproductiveMsBuffer state + elapsed in
          let newTotal := orZero (totalUnproductiveMs state) + elapsed in
          if UNPRODUCTIVE_BUFFER_MS <=? newBuffer then
            recordUnproductiveTime newBuffer user ;;
            now <- Date_now env ;;
            updateTrackingState env
              [ SetUnproductiveMsBuffer 0;
                SetTotalUnproductiveMs newTotal;
                SetLastTick now ] ;;
            ret tt
          else
            now <- Date_now env ;;
            updateTrackingState env
              [ SetUnproductiveMsBuffer newBuffer;
                SetTotalUnproductiveMs newTotal;
                SetLastTick now ] ;;
            ret tt
      | None =>
          now <- Date_now env ;;
          updateTrackingState env [ SetLastTick now ] ;;
          ret tt
      end
  | _, _ =>
      now <- Date_now env ;;
      updateTrackingState env [ SetLastTick now ] ;;
      ret tt
  end.

Definition tick : M unit :=
  idle <- getIsIdle ;;
  focused <- getIsWindowFocused ;;
  if idle || negb focused then
    _state <- getTrackingState env ;;
    now <- Date_now env ;;
    updateTrackingState env [ SetLastTick now ] ;; ret tt
  else
    state <- getTrackingState env ;;
    now <- Date_now env ;;
    let elapsed := now - lastTick state in
    if elapsed <=? 0 then
      updateTrackingState env [ SetLastTick now ] ;; ret tt
    else
      currentDomain' <- getActiveDomain ;;
      if negb (strictEq currentDomain' (currentDomain state)) then
        updateDomain currentDomain' ;;
        updatedState <- getTrackingState env ;;
        processTime updatedState elapsed
      else
        processTime state elapsed.

Definition checkAndUpdateLeaderboard : M unit :=
  state <- getTrackingState env ;;
  now <- Date_now env ;;
  match truthy (userId state) with
  | None => ret tt
  | Some user =>
      let timeSinceLastUpdate := now - orZero (lastLeaderboardUpdate state) in
      if LEADERBOARD_UPDATE_INTERVAL_MS <=? timeSinceLastUpdate then
        updateLeaderboard env user (orZero (totalUnproductiveMs state)) ;;
        updateTrackingState env [ SetLastLeaderboardUpdate now ] ;;
        ret tt
      else ret tt
  end.

Definition handle (i : Input) : M unit :=
  match i with
  | ActiveTabIs d => fun w => (tt, withActiveDomain w d)
  | TabActivated =>
      d <- getActiveDomain ;; updateDomain d
  | FocusChanged focused =>
      if focused then
        (fun w => (tt, withFocus w true)) ;;
        d <- getActiveDomain ;; updateDomain d
      else fun w => (tt, withFocus w false)
  | IdleStateChanged idle => fun w => (tt, withIdle w idle)
  | TickTimer => tick
  | LeaderboardTimer => checkAndUpdateLeaderboard
  | SignedIn authUserId =>
      profileUserId <- getProfileUserId env authUserId ;;
      match profileUserId with
      | Some u => setUserId env (Some u)
      | None => ret tt
      end
  | SignedOut =>
      setUserId env None ;;
      updateTrackingState env
        [ SetCurrentDomain None;
          SetConsecutiveProductiveMs 0;
          SetUnproductiveMsBuffer 0;
          SetTotalProductiveMs 0;
          SetTotalUnproductiveMs 0;
          SetLastLeaderboardUpdate 0;
          SetLastCallTriggerTime 0 ] ;;
      ret tt
  end.
End WithEnv.
End BackgroundEarly.

(* ================================================================== *)
(** * Concrete environments for the examples                            *)
(* ================================================================== *)

(** A configured build whose profile table knows every user, with one
    phone number; [answers] gives the outcome of each call request. *)
Definition demoEnv (clock : nat -> Z) (answers : nat -> FetchResult) : Env :=
  {| dateNow := clock;
     loadTime := 0;
     TWILIO_ACCOUNT_SID := "AC0";
     TWILIO_AUTH_TOKEN := "token";
     TWILIO_PHONE_NUMBER := "+15550000";
     USER_PHONE_NUMBER := "5551234567";
     WEBHOOK_URL := "https://hooks.example/voice";
     profiles := fun _ => ProfileRow (Some "(555) 123-4567");
     twilio := answers |}.

(** A freshly installed extension: nothing stored yet, user active,
    window focused, no page. *)
Definition freshWorld : World :=
  {| storage := None; clockReads := 0; requests := 0; effects := [];
     isIdle := false; isWindowFocused := true; activeDomain := None |}.

(** A world whose store holds [s], showing the page of host [d]. *)
Definition worldAt (s : TrackingState) (d : option string)
    (idle focused : bool) : World :=
  {| storage := Some s; clockReads := 0; requests := 0; effects := [];
     isIdle := idle; isWindowFocused := focused; activeDomain := d |}.

(** The four counters of a state. *)
Definition counters (s : TrackingState) : Z * Z * Z * Z :=
  (consecutiveProductiveMs s, unproductiveMsBuffer s,
   totalProductiveMs s, totalUnproductiveMs s).

(** A clock that shows [t] during a whole operation. *)
Definition constClock (t : Z) : nat -> Z := fun _ => t.

Definition allOk : nat -> FetchResult := fun _ => ResponseOk.
Definition allNotOk : nat -> FetchResult := fun _ => ResponseNotOk.
Definition allRejected : nat -> FetchResult := fun _ => FetchRejected.

(** A stored state on [domain] for [user], all counters and anchors 0. *)
Definition stateOn (domain user : option string) : TrackingState :=
  {| currentDomain := domain;
     lastTick := 0;
     consecutiveProductiveMs := 0;
     unproductiveMsBuffer := 0;
     totalProductiveMs := 0;
     totalUnproductiveMs := 0;
     userId := user;
     theme := light;
     lastLeaderboardUpdate := 0;
     lastCallTriggerTime := 0 |}.

(** Inputs stamped with the wall-clock time at which they are handled. *)
Fixpoint runTimed (answers : nat -> FetchResult) (inputs : list (Z * Input))
    (w : World) : World :=
  match inputs with
  | [] => w
  | (t, i) :: rest =>
      runTimed answers rest
        (snd (Background.handle (demoEnv (constClock t) answers) i w))
  end.

Fixpoint runTimedEarly (answers : nat -> FetchResult)
    (inputs : list (Z * Input)) (w : World) : World :=
  match inputs with
  | [] => w
  | (t, i) :: rest =>
      runTimedEarly answers rest
        (snd (BackgroundEarly.handle (demoEnv (constClock t) answers) i w))
  end.

(** [n] ticks, one second apart, the first one second after [from]. *)
Definition ticksEverySecond (from : Z) (n : nat) : list (Z * Input) :=
  map (fun k => (from + 1000 * Z.of_nat k, TickTimer)) (seq 1 n).

(** Sign in, open a productive page and stay two minutes. *)
Definition firstStreak : list (Z * Input) :=
  [ (0, SignedIn "u1");
    (0, ActiveTabIs (Some "github.com"));
    (0, TabActivated) ]
  ++ ticksEverySecond 0 120.

(** A glance at a denylisted page, then another productive page. *)
Definition detour : list (Z * Input) :=
  [ (125000, ActiveTabIs (Some "www.youtube.com"));
    (125000, TabActivated);
    (126000, ActiveTabIs (Some "docs.python.org"));
    (126000, TabActivated) ].

Definition secondStreak : list (Z * Input) := ticksEverySecond 126000 120.

(** Forty seconds on one productive page, thirty on another. *)
Definition twoProductivePages : list (Z * Input) :=
  [ (0, SignedIn "u1");
    (0, ActiveTabIs (Some "github.com"));
    (0, TabActivated) ]
  ++ ticksEverySecond 0 40
  ++ [ (40000, ActiveTabIs (Some "docs.python.org")) ]
  ++ ticksEverySecond 40000 30.

(** On a productive page, signed out and signed in. *)
Definition signedOutWorld : World :=
  worldAt (stateOn (Some "github.com") None) (Some "github.com") false true.

Definition signedInWorld : World :=
  worldAt (stateOn (Some "github.com") (Some "u1")) (Some "github.com")
    false true.

(** One second short of two productive minutes, no call placed so far. *)
Definition almostTwoMinutes : World :=
  worldAt (spread (stateOn (Some "github.com") (Some "u1"))
             [ SetLastTick 119000;
               SetConsecutiveProductiveMs 119000;
               SetTotalProductiveMs 119000 ])
    (Some "github.com") false true.

(** Totals waiting for the leaderboard timer. *)
Definition beforeSync : World :=
  worldAt (spread (stateOn (Some "github.com") (Some "u1"))
             [ SetLastTick 60000;
               SetTotalProductiveMs 5000;
               SetTotalUnproductiveMs 7000 ])
    (Some "github.com") false true.

(** The stored state of a world, under the demo build. *)
Definition demoState (w : World) : TrackingState :=
  stateOf (demoEnv (constClock 0) allOk) w.

(* ================================================================== *)
(** * Vocabulary for the results on the store and on runs               *)
(* ================================================================== *)

(** The value an entry of an update carries. *)
Definition assignedValue (a : Assignment) : FieldValue :=
  match a with
  | SetCurrentDomain d => VString d
  | SetLastTick t => VNumber t
  | SetConsecutiveProductiveMs ms => VNumber ms
  | SetUnproductiveMsBuffer ms => VNumber ms
  | SetTotalProductiveMs ms => VNumber ms
  | SetTotalUnproductiveMs ms => VNumber ms
  | SetUserId u => VString u
  | SetTheme t => VTheme t
  | SetLastLeaderboardUpdate t => VNumber t
  | SetLastCallTriggerTime t => VNumber t
  end.

(** The value of the last entry of [updates] that names [f], if any. *)
Definition lastAssigned (updates : Partial) (f : Field) : option FieldValue :=
  fold_left
    (fun acc a => if Field_eqb (assignedField a) f then Some (assignedValue a)
                  else acc)
    updates None.

(** The inputs of the event loop, handled one after the other. *)
Fixpoint runInputs (env : Env) (inputs : list Input) (w : World) : World :=
  match inputs with
  | [] => w
  | i :: rest => runInputs env rest (snd (Background.handle env i w))
  end.

Definition isSignedIn (i : Input) : bool :=
  match i with SignedIn _ => true | _ => false end.



(** The string with the given bytes. *)
Definition utf8 (bytes : list N) : string :=
  string_of_list_ascii (map ascii_of_N bytes).

Fixpoint allContinuation (s : string) : bool :=
  match s with
  | EmptyString => true
  | String c s' => isContinuation c && allContinuation s'
  end.

(** One character: a byte, then continuation bytes only. *)
Definition isChar (g : string) : Prop :=
  match g with
  | String _ t => allContinuation t = true
  | EmptyString => False
  end.

(** A list of characters as [chars] cuts them: after the first, none
    begins with a continuation byte. *)
Definition segmented (l : list string) : Prop :=
  Forall isChar l /\ Forall (fun g => continues g = false) (tl l).

(** The characters [formatPhone] removes: the class [[\s\-\(\)]]. *)
Definition phoneNoise (g : string) : bool :=
  isWhiteSpace g || (g =? "-")%string || (g =? "(")%string
  || (g =? ")")%string.

(** Counters in their range: none negative, the buffer below the flush
    threshold. *)
Definition countersInRange (s : TrackingState) : Prop :=
  0 <= consecutiveProductiveMs s
  /\ 0 <= unproductiveMsBuffer s < UNPRODUCTIVE_BUFFER_MS
  /\ 0 <= totalProductiveMs s
  /\ 0 <= totalUnproductiveMs s.

(** Discrete events in their range: a flushed score of 10 to 19 seconds, a
    productive session of at least 60 seconds. *)
Definition recordInRange (e : Effect) : Prop :=
  match e with
  | InsertLeaderboardScore _ score => 10 <= score <= 19
  | InsertProductiveTrigger _ _ duration_seconds => 60 <= duration_seconds
  | _ => True
  end.

(** An operation keeps the counters in range and sends records in range
    only. *)
Definition keepsRange (env : Env) (op : M unit) : Prop :=
  forall w : World,
    countersInRange (stateOf env w) ->
    countersInRange (stateOf env (snd (op w)))
    /\ exists sent : list Effect,
         effects (snd (op w)) = (effects w ++ sent)%list
         /\ Forall recordInRange sent.

Definition isProductiveTrigger (e : Effect) : bool :=
  match e with InsertProductiveTrigger _ _ _ => true | _ => false end.

(* ================================================================== *)
(** * env.ts: the Supabase URL                                          *)
(* ================================================================== *)

(** [s.replace(/\/+$/, '')] *)
Fixpoint stripTrailingSlashes (s : string) : string :=
  match s with
  | EmptyString => EmptyString
  | String c s' =>
      let r := stripTrailingSlashes s' in
      if Ascii.eqb c "/" && (r =? "")%string then EmptyString else String c r
  end.

(** [n] slashes. *)
Fixpoint slashes (n : nat) : string :=
  match n with
  | O => EmptyString
  | S n' => String "/" (slashes n')
  end.

(** [SUPABASE_URL], from the raw build-time variable. *)
Definition SUPABASE_URL (rawUrl : string) : string :=
  stripTrailingSlashes (trim rawUrl).

(* ================================================================== *)
(** * popup/Popup.tsx, later revision                                   *)
(* ================================================================== *)

(** [String(n)] on an integer. *)
Definition String_of (n : Z) : string := NilZero.string_of_int (Z.to_int n).

(** The first [n] characters of [pad] repeated; [cur] is what is left of
    the current copy. *)
Fixpoint padding (n : nat) (pad cur : string) : string :=
  match n with
  | O => EmptyString
  | S n' =>
      match cur with
      | String c cur' => String c (padding n' pad cur')
      | EmptyString =>
          match pad with
          | String c pad' => String c (padding n' pad pad')
          | EmptyString => EmptyString
          end
      end
  end.

(** [s.padStart(targetLength, pad)] *)
Definition padStart (targetLength : nat) (pad s : string) : string :=
  padding (targetLength - String.length s) pad pad ++ s.

(** Answer of [leaderboard_global.select(..).eq('user_id', id).single()]. *)
Inductive LeaderboardFetch : Type :=
| RowNotFound                      (* error code PGRST116 *)
| FetchFailed                      (* any other error, or an exception *)
| RowFound (user_id : string) (best_score productive_time : option Z).

(** What the popup writes to [leaderboard_global]. *)
Inductive LeaderboardWrite : Type :=
| InsertRow (user_id : string) (best_score productive_time : Z)
| UpdateRow (user_id : string) (best_score productive_time : Z).

(** [n || 0] on a [number | null] column. *)
Definition columnOrZero (n : option Z) : Z :=
  match n with Some x => orZero x | None => 0 end.

Module Popup.
Section WithEnv.
Variable env : Env.

Definition toggleTheme (theme : Theme) : M Theme :=
  let newTheme := match theme with light => dark | dark => light end in
  updateTrackingState env [ SetTheme newTheme ] ;;
  ret newTheme.

(** The sign-in form.  [signedIn] is the answer of
    [supabase.auth.signInWithPassword]: the id of the user, or nothing when
    it reports an error or no user.  The row read from [profiles] is the
    one whose [user_id] is that id. *)
Definition handleLogin (signedIn : option string) : M unit :=
  match signedIn with
  | None => ret tt
  | Some authUserId =>
      match profiles env authUserId with
      | NoProfile => ret tt
      | ProfileRow _ => setUserId env (Some authUserId)
      end
  end.

(** The button "Sign out": after [supabase.auth.signOut()] the store
    loses the user, and nothing else. *)
Definition handleLogout : M unit :=
  setUserId env None.

(** The button "Update Leaderboard".  [fetched] is the answer to the read
    of the user's row, [written] tells whether the insert or update that
    follows succeeds.  The value returned is the list of writes sent. *)
Definition handleTransferUnproductiveTime (fetched : LeaderboardFetch)
    (written : bool) : M (list LeaderboardWrite) :=
  state <- getTrackingState env ;;
  match truthy (userId state) with
  | None => ret []
  | Some user =>
      let unproductiveSeconds := floorSeconds (orZero (totalUnproductiveMs state)) in
      let productiveSeconds := floorSeconds (orZero (totalProductiveMs state)) in
      if (unproductiveSeconds =? 0) && (productiveSeconds =? 0) then ret []
      else
        match fetched with
        | RowNotFound =>
            let initialScore := unproductiveSeconds in
            let initialProductiveTime := productiveSeconds in
            if written then
              updateTrackingState env
                [ SetTotalUnproductiveMs 0;
                  SetTotalProductiveMs 0;
                  SetConsecutiveProductiveMs 0 ] ;;
              ret [ InsertRow user initialScore initialProductiveTime ]
            else ret [ InsertRow user initialScore initialProductiveTime ]
        | FetchFailed => ret []
        | RowFound row_user best_score productive_time =>
            if negb (row_user =? user)%string then ret []
            else
              let newScore := columnOrZero best_score + unproductiveSeconds in
              let newProductiveTime :=
                columnOrZero productive_time + productiveSeconds in
              if written then
                updateTrackingState env
                  [ SetTotalUnproductiveMs 0;
                    SetTotalProductiveMs 0;
                    SetConsecutiveProductiveMs 0 ] ;;
                ret [ UpdateRow user newScore newProductiveTime ]
              else ret [ UpdateRow user newScore newProductiveTime ]
        end
  end.

Definition formatTime (ms : Z) : string :=
  let totalSeconds := ms / 1000 in
  let hours := totalSeconds / 3600 in
  let minutes := Z.rem totalSeconds 3600 / 60 in
  let seconds := Z.rem totalSeconds 60 in
  String_of hours ++ ":" ++ padStart 2 "0" (String_of minutes)
    ++ ":" ++ padStart 2 "0" (String_of seconds).
End WithEnv.
End Popup.

(* ================================================================== *)
(** * popup/Popup.tsx, earlier revision of the transfer                 *)
(* ================================================================== *)

(** What the earlier popup writes: the score alone. *)
Inductive ScoreWrite : Type :=
| InsertScore (user_id : string) (best_score : Z)
| UpdateScore (user_id : string) (best_score : Z).

(** Answer of the read of the user's row, score column only. *)
Inductive ScoreFetch : Type :=
| ScoreNotFound
| ScoreFetchFailed
| ScoreFound (user_id : string) (best_score : option Z).

Module PopupEarly.
Section WithEnv.
Variable env : Env.

Definition handleTransferUnproductiveTime (fetched : ScoreFetch)
    (written : bool) : M (list ScoreWrite) :=
  state <- getTrackingState env ;;
  match truthy (userId state) with
  | None => ret []
  | Some user =>
      let unproductiveSeconds := floorSeconds (orZero (totalUnproductiveMs state)) in
      let productiveSeconds := floorSeconds (orZero (totalProductiveMs state)) in
      let netChange := unproductiveSeconds - productiveSeconds in
      if (unproductiveSeconds =? 0) && (productiveSeconds =? 0) then ret []
      else
        match fetched with
        | ScoreNotFound =>
            let initialScore := Z.max 0 netChange in
            if written then
              updateTrackingState env
                [ SetTotalUnproductiveMs 0; SetTotalProductiveMs 0 ] ;;
              ret [ InsertScore user initialScore ]
            else ret [ InsertScore user initialScore ]
        | ScoreFetchFailed => ret []
        | ScoreFound row_user best_score =>
            if negb (row_user =? user)%string then ret []
            else
              let newScore := Z.max 0 (columnOrZero best_score + netChange) in
              if written then
                updateTrackingState env
                  [ SetTotalUnproductiveMs 0; SetTotalProductiveMs 0 ] ;;
                ret [ UpdateScore user newScore ]
              else ret [ UpdateScore user newScore ]
        end
  end.
End WithEnv.
End PopupEarly.

(** The columns carried by a write of the popup. *)
Definition writtenBestScore (wr : LeaderboardWrite) : Z :=
  match wr with
  | InsertRow _ best_score _ | UpdateRow _ best_score _ => best_score
  end.

Definition writtenProductiveTime (wr : LeaderboardWrite) : Z :=
  match wr with
  | InsertRow _ _ productive_time | UpdateRow _ _ productive_time =>
      productive_time
  end.

Definition writtenScore (wr : ScoreWrite) : Z :=
  match wr with
  | InsertScore _ best_score | UpdateScore _ best_score => best_score
  end.

(** The columns of the row read before the write; a missing row counts as
    zeroes. *)
Definition fetchedBestScore (fetched : LeaderboardFetch) : Z :=
  match fetched with
  | RowFound _ best_score _ => columnOrZero best_score
  | _ => 0
  end.

Definition fetchedProductiveTime (fetched : LeaderboardFetch) : Z :=
  match fetched with
  | RowFound _ _ productive_time => columnOrZero productive_time
  | _ => 0
  end.

(** The entries with which the later popup clears the local counters. *)
Definition transferReset : Partial :=
  [ SetTotalUnproductiveMs 0;
    SetTotalProductiveMs 0;
    SetConsecutiveProductiveMs 0 ].

(* ================================================================== *)
(** * Strings                                                           *)
(* ================================================================== *)

Lemma lowerAscii_idem (c : ascii) : lowerAscii (lowerAscii c) = lowerAscii c.
Proof. destruct c as [[] [] [] [] [] [] [] []]; reflexivity. Qed.

Lemma toLowerCase_idem (s : string) : toLowerCase (toLowerCase s) = toLowerCase s.
Proof.
  induction s as [|c s IH]; simpl.
  - reflexivity.
  - now rewrite lowerAscii_idem, IH.
Qed.

Lemma toLowerCase_app (a b : string) :
  toLowerCase (a ++ b) = toLowerCase a ++ toLowerCase b.
Proof.
  induction a as [|c a IH]; simpl; [reflexivity | now rewrite IH].
Qed.

Lemma toLowerCase_empty (s : string) : toLowerCase s = "" <-> s = "".
Proof.
  destruct s; simpl; split; intros H; try reflexivity; discriminate.
Qed.

Lemma toLowerCase_dropChars (n : nat) (s : string) :
  toLowerCase (dropChars n s) = dropChars n (toLowerCase s).
Proof.
  revert s; induction n as [|n IH]; intros s.
  - reflexivity.
  - destruct s; simpl; [reflexivity | apply IH].
Qed.

Lemma append_assoc (a b c : string) : (a ++ b) ++ c = a ++ (b ++ c).
Proof.
  induction a as [|x a IH]; simpl; [reflexivity | now rewrite IH].
Qed.

(** [endsWith] is the suffix relation. *)
Lemma endsWith_spec (s t : string) :
  endsWith s t = true <-> exists p, s = p ++ t.
Proof.
  induction s as [|c s IH]; cbn [endsWith].
  - rewrite orb_false_r, String.eqb_eq. split.
    + intros <-. now exists "".
    + intros [p Hp]. destruct p; simpl in Hp; [assumption | discriminate].
  - rewrite orb_true_iff, String.eqb_eq, IH. split.
    + intros [<- | [p ->]].
      * now exists "".
      * now exists (String c p).
    + intros [p Hp]. destruct p as [|c' p]; simpl in Hp.
      * now left.
      * right. exists p. now inversion Hp.
Qed.

Lemma startsWith_www (x : string) :
  startsWith x "www." = true -> x = "www." ++ dropChars 4 x.
Proof.
  do 4 (destruct x as [|a x]; [discriminate|]; cbn [startsWith];
        match goal with
        | |- context [Ascii.eqb ?c a] =>
            destruct (Ascii.eqb_spec c a) as [<-|]; [|discriminate]
        end).
  reflexivity.
Qed.

Lemma truthy_some (d : string) : d <> "" -> truthy (Some d) = Some d.
Proof. destruct d; [congruence | reflexivity]. Qed.


Lemma strictEq_true (a b : option string) : strictEq a b = true <-> a = b.
Proof.
  destruct a, b; simpl; try rewrite String.eqb_eq; split;
    intros H; try discriminate; try reflexivity; congruence.
Qed.

Lemma orZero_id (x : Z) : orZero x = x.
Proof. unfold orZero. destruct (Z.eqb_spec x 0); congruence. Qed.

(* ================================================================== *)
(** * classify.ts: what the classifier decides                          *)
(* ================================================================== *)

Lemma matchesDomain_spec (n u : string) :
  matchesDomain n u = true <-> n = u \/ exists sub, n = sub ++ "." ++ u.
Proof.
  unfold matchesDomain.
  now rewrite orb_true_iff, String.eqb_eq, endsWith_spec.
Qed.

Lemma existsb_matches_spec (n : string) :
  existsb (matchesDomain n) UNPRODUCTIVE_DOMAINS = true <-> onDenylist n.
Proof.
  rewrite existsb_exists. unfold onDenylist.
  split; intros [u [Hin Hm]]; exists u; split; auto;
    now apply matchesDomain_spec.
Qed.

Lemma classifyDomain_unproductive (d : string) :
  d <> "" -> onDenylist (normalizeDomain d) ->
  classifyDomain (Some d) = Some unproductive.
Proof.
  intros Hd H. unfold classifyDomain. rewrite (truthy_some d Hd).
  apply existsb_matches_spec in H. cbv zeta. now rewrite H.
Qed.

Lemma classifyDomain_productive (d : string) :
  d <> "" -> ~ onDenylist (normalizeDomain d) ->
  classifyDomain (Some d) = Some productive.
Proof.
  intros Hd H. unfold classifyDomain. rewrite (truthy_some d Hd). cbv zeta.
  destruct (existsb (matchesDomain (normalizeDomain d)) UNPRODUCTIVE_DOMAINS)
    eqn:E; [|reflexivity].
  apply existsb_matches_spec in E. contradiction.
Qed.

Lemma classifyDomain_null (o : option string) :
  classifyDomain o = None <-> o = None \/ o = Some "".
Proof.
  unfold classifyDomain. destruct o as [[|c s]|]; simpl.
  - split; auto.
  - match goal with |- context [if ?b then _ else _] => destruct b end;
      split; intros H; try discriminate; destruct H; discriminate.
  - split; auto.
Qed.

(** A leading [www.] does not change whether an entry matches: no entry
    of the denylist begins with [w]. *)
Lemma matchesDomain_stripWww (x u : string) :
  In u UNPRODUCTIVE_DOMAINS ->
  matchesDomain (stripWww x) u = matchesDomain x u.
Proof.
  intros Hin. unfold stripWww.
  destruct (startsWith x "www.") eqn:E; [|reflexivity].
  rewrite (startsWith_www x E) at 2.
  generalize (dropChars 4 x); intros y.
  simpl in Hin.
  destruct Hin as [<- | [<- | [<- | []]]]; unfold matchesDomain; simpl;
    reflexivity.
Qed.

Lemma existsb_matches_stripWww (x : string) :
  existsb (matchesDomain (stripWww x)) UNPRODUCTIVE_DOMAINS
  = existsb (matchesDomain x) UNPRODUCTIVE_DOMAINS.
Proof.
  unfold UNPRODUCTIVE_DOMAINS. simpl existsb.
  rewrite !matchesDomain_stripWww; simpl; auto.
Qed.

Lemma classifyDomain_case_insensitive (d d' : string) :
  toLowerCase d = toLowerCase d' ->
  classifyDomain (Some d) = classifyDomain (Some d').
Proof.
  intros H. unfold classifyDomain, normalizeDomain.
  destruct d as [|c s], d' as [|c' s']; try discriminate; try reflexivity.
  simpl truthy. cbv beta iota zeta. now rewrite H.
Qed.

Lemma normalizeDomain_www (d : string) :
  normalizeDomain ("www." ++ d) = toLowerCase d.
Proof. reflexivity. Qed.

Lemma classifyDomain_www_insensitive (d : string) :
  d <> "" ->
  classifyDomain (Some ("www." ++ d)) = classifyDomain (Some d).
Proof.
  intros Hd. unfold classifyDomain.
  rewrite (truthy_some d Hd), (truthy_some ("www." ++ d)) by discriminate.
  cbv zeta. rewrite normalizeDomain_www. unfold normalizeDomain.
  now rewrite existsb_matches_stripWww.
Qed.

Lemma normalizeDomain_lower (d : string) :
  toLowerCase (normalizeDomain d) = normalizeDomain d.
Proof.
  unfold normalizeDomain, stripWww.
  destruct (startsWith (toLowerCase d) "www.").
  - now rewrite toLowerCase_dropChars, toLowerCase_idem.
  - apply toLowerCase_idem.
Qed.

(** Classifying the normalised host again gives the same verdict. *)
Lemma classifyDomain_normalized (d : string) :
  normalizeDomain d <> "" ->
  classifyDomain (Some (normalizeDomain d)) = classifyDomain (Some d).
Proof.
  intros Hn.
  assert (Hd : d <> "") by (intros ->; now apply Hn).
  unfold classifyDomain. rewrite (truthy_some _ Hn), (truthy_some _ Hd).
  cbv zeta. unfold normalizeDomain at 1. rewrite normalizeDomain_lower.
  now rewrite existsb_matches_stripWww.
Qed.

Lemma not_onDenylist_empty : ~ onDenylist "".
Proof.
  intros [u [Hin [H | [sub H]]]].
  - simpl in Hin. destruct Hin as [<- | [<- | [<- | []]]]; discriminate.
  - destruct sub; discriminate.
Qed.

(* ================================================================== *)
(** * storage.ts: the merge keeps what the update does not name         *)
(* ================================================================== *)

Lemma Field_eqb_eq (f g : Field) : Field_eqb f g = true <-> f = g.
Proof. destruct f, g; simpl; split; intros H; try reflexivity; discriminate. Qed.

Lemma assign_other (s : TrackingState) (a : Assignment) (f : Field) :
  Field_eqb (assignedField a) f = false ->
  getField f (assign s a) = getField f s.
Proof. destruct a, f; simpl; intros H; try reflexivity; discriminate. Qed.

Lemma spread_frame (s : TrackingState) (updates : Partial) (f : Field) :
  names updates f = false ->
  getField f (spread s updates) = getField f s.
Proof.
  unfold spread, names. revert s.
  induction updates as [|a updates IH]; intros s H; simpl in *.
  - reflexivity.
  - apply orb_false_iff in H as [Ha Hrest].
    rewrite (IH _ Hrest). now apply assign_other.
Qed.

Section StorageFacts.
Variable env : Env.

Lemma updateTrackingState_run (updates : Partial) (w : World) :
  updateTrackingState env updates w
  = (spread (stateOf env w) updates,
     withStorage w (Some (spread (stateOf env w) updates))).
Proof. reflexivity. Qed.

Lemma stateOf_stored (w : World) (s : TrackingState) :
  storage w = Some s -> stateOf env w = s.
Proof. unfold stateOf. now intros ->. Qed.
End StorageFacts.

(* ================================================================== *)
(** * The monad, and how each operation runs                            *)
(* ================================================================== *)

Lemma bind_run {A B : Type} (m : M A) (k : A -> M B) (w : World) :
  bind m k w = k (fst (m w)) (snd (m w)).
Proof. unfold bind. now destruct (m w). Qed.

(** Open a goal about one operation run in the world [w]: name the stored
    state, unfold the monad and the storage helpers, and project. *)
Ltac open_world env w s :=
  destruct w as [[s|] ?cr ?rq ?ef ?idle ?foc ?act];
  [|set (s := DEFAULT_STATE env)];
  unfold bind, ret, getTrackingState, updateTrackingState, setTrackingState,
    Date_now, fetchTwilio, emit, getIsIdle, getIsWindowFocused,
    getActiveDomain, recordProductiveTrigger, recordUnproductiveTime,
    updateLeaderboard, stateOf, withStorage;
  cbn [fst snd storage clockReads requests effects isIdle isWindowFocused
       activeDomain];
  try fold s.

Ltac break_if :=
  match goal with
  | |- context [if ?b then _ else _] => destruct b eqn:?
  end.

Section BackgroundRuns.
Variable env : Env.

Lemma updateDomain_run (newDomain : option string) (w : World) :
  Background.updateDomain env newDomain w =
  (tt,
   if strictEq (currentDomain (stateOf env w)) newDomain then w
   else mkWorld
          (Some (Background.switchState (stateOf env w) newDomain
                   (dateNow env (clockReads w))))
          (S (clockReads w)) (requests w)
          (effects w ++ Background.switchEffects (stateOf env w))
          (isIdle w) (isWindowFocused w) (activeDomain w)).
Proof.
  unfold Background.updateDomain, Background.switchEffects,
    Background.switchState.
  open_world env w s;
    (destruct (strictEq (currentDomain s) newDomain); [reflexivity|]);
    destruct (truthy (currentDomain s)), (truthy (userId s));
    repeat break_if; cbn; rewrite ?app_nil_r; reflexivity.
Qed.

(** [triggerAICall]: nothing happens unless every guard passes; then one
    request is sent, and the store is written only if it succeeds. *)
Lemma triggerAICall_run (w : World) :
  Background.triggerAICall env w =
  (tt,
   match Background.callTarget env (stateOf env w) with
   | None => w
   | Some to =>
       let sent := (effects w ++
                    [TwilioCall (TWILIO_PHONE_NUMBER env) to (WEBHOOK_URL env)])%list in
       match twilio env (requests w) with
       | ResponseOk =>
           mkWorld
             (Some (spread (stateOf env w)
                      [ SetLastCallTriggerTime (dateNow env (clockReads w));
                        SetConsecutiveProductiveMs 0;
                        SetTotalProductiveMs 0 ]))
             (S (clockReads w)) (S (requests w)) sent
             (isIdle w) (isWindowFocused w) (activeDomain w)
       | _ =>
           mkWorld (storage w) (clockReads w) (S (requests w)) sent
             (isIdle w) (isWindowFocused w) (activeDomain w)
       end
   end).
Proof.
  unfold Background.triggerAICall, Background.callTarget.
  destruct (_ || _ || _); [reflexivity|].
  destruct (_ || _); [reflexivity|].
  rewrite bind_run. unfold getTrackingState. cbn [fst snd].
  destruct (truthy (userId (stateOf env w))) as [user|]; [|reflexivity].
  destruct (profiles env user) as [|dads]; [reflexivity|].
  destruct (truthy dads) as [dadsNumber|]; [|reflexivity].
  destruct (trim dadsNumber =? "")%string; [reflexivity|].
  rewrite bind_run. unfold fetchTwilio. cbn [fst snd].
  destruct (twilio env (requests w)); reflexivity.
Qed.

(** [processTime] on a productive domain: the trigger may run first; the
    last write fixes the two productive counters and [lastTick]. *)
Lemma processTime_productive (state : TrackingState) (elapsed : Z)
    (w : World) (user domain : string) :
  truthy (userId state) = Some user ->
  truthy (currentDomain state) = Some domain ->
  classifyDomain (currentDomain state) = Some productive ->
  let newConsecutive := consecutiveProductiveMs state + elapsed in
  let w1 :=
    if (AI_CALL_TRIGGER_MS <=? newConsecutive)
       && (consecutiveProductiveMs state <? AI_CALL_TRIGGER_MS)
    then snd (Background.triggerAICall env w) else w in
  Background.processTime env state elapsed w =
  (tt,
   mkWorld
     (Some (spread (stateOf env w1)
              [ SetConsecutiveProductiveMs newConsecutive;
                SetTotalProductiveMs (totalProductiveMs state + elapsed);
                SetLastTick (dateNow env (clockReads w1)) ]))
     (S (clockReads w1)) (requests w1)
     (effects w1 ++
      if (PRODUCTIVE_TRIGGER_MS <=? newConsecutive)
         && (consecutiveProductiveMs state <? PRODUCTIVE_TRIGGER_MS)
      then [InsertProductiveTrigger user domain (floorSeconds newConsecutive)]
      else [])
     (isIdle w1) (isWindowFocused w1) (activeDomain w1)).
Proof.
  intros Hu Hd Hc. unfold Background.processTime.
  rewrite Hu, Hd, Hc. cbv zeta. rewrite orZero_id.
  rewrite bind_run.
  destruct ((AI_CALL_TRIGGER_MS <=? _) && _);
    [destruct (Background.triggerAICall env w) as [[] w1]|];
    cbn [fst snd ret]; rewrite bind_run;
    (destruct ((PRODUCTIVE_TRIGGER_MS <=? _) && _);
     [|rewrite app_nil_r]; reflexivity).
Qed.

Lemma processTime_unproductive (state : TrackingState) (elapsed : Z)
    (w : World) (user domain : string) :
  truthy (userId state) = Some user ->
  truthy (currentDomain state) = Some domain ->
  classifyDomain (currentDomain state) = Some unproductive ->
  let newBuffer := unproductiveMsBuffer state + elapsed in
  let flush := UNPRODUCTIVE_BUFFER_MS <=? newBuffer in
  Background.processTime env state elapsed w =
  (tt,
   mkWorld
     (Some (spread (stateOf env w)
              [ SetUnproductiveMsBuffer (if flush then 0 else newBuffer);
                SetTotalUnproductiveMs (totalUnproductiveMs state + elapsed);
                SetLastTick (dateNow env (clockReads w)) ]))
     (S (clockReads w)) (requests w)
     (effects w ++
      if flush then [InsertLeaderboardScore user (floorSeconds newBuffer)]
      else [])
     (isIdle w) (isWindowFocused w) (activeDomain w)).
Proof.
  intros Hu Hd Hc. unfold Background.processTime.
  rewrite Hu, Hd, Hc. cbv zeta. rewrite orZero_id.
  destruct (UNPRODUCTIVE_BUFFER_MS <=? _);
    [|rewrite app_nil_r]; reflexivity.
Qed.

(** [processTime] without a user or without a domain: only the anchor
    of the next tick moves. *)
Lemma processTime_untracked (state : TrackingState) (elapsed : Z) (w : World) :
  truthy (userId state) = None \/ truthy (currentDomain state) = None ->
  Background.processTime env state elapsed w =
  (tt,
   mkWorld
     (Some (spread (stateOf env w) [ SetLastTick (dateNow env (clockReads w)) ]))
     (S (clockReads w)) (requests w) (effects w)
     (isIdle w) (isWindowFocused w) (activeDomain w)).
Proof.
  unfold Background.processTime.
  intros [H | H]; rewrite H; [|destruct (truthy (userId state))]; reflexivity.
Qed.

(** The pass of [tick], once the stored state and the clock are read. *)
Lemma tick_run (w : World) :
  let state := stateOf env w in
  let now := dateNow env (clockReads w) in
  let actualElapsed := Background.attributed (now - lastTick state) in
  let w0 := mkWorld (storage w) (S (clockReads w)) (requests w) (effects w)
              (isIdle w) (isWindowFocused w) (activeDomain w) in
  Background.tick env w =
  if (actualElapsed <=? 0) || (isIdle w && negb (isWindowFocused w)) then
    (tt, withStorage w0 (Some (spread state [ SetLastTick now ])))
  else if negb (strictEq (activeDomain w) (currentDomain state)) then
    let w1 := snd (Background.updateDomain env (activeDomain w) w0) in
    Background.processTime env (stateOf env w1) actualElapsed w1
  else
    Background.processTime env state actualElapsed w0.
Proof.
  unfold Background.tick, Background.attributed.
  rewrite bind_run. unfold getTrackingState. cbn [fst snd].
  rewrite bind_run. unfold Date_now. cbn [fst snd].
  destruct (_ <=? 0); [reflexivity|]. cbn [orb].
  do 2 (rewrite bind_run; unfold getIsIdle, getIsWindowFocused;
        cbn [fst snd isIdle isWindowFocused]).
  destruct (isIdle w && negb (isWindowFocused w)); [reflexivity|].
  rewrite bind_run. unfold getActiveDomain.
  cbn [fst snd activeDomain].
  destruct (negb (strictEq (activeDomain w) (currentDomain (stateOf env w))));
    [|reflexivity].
  rewrite bind_run, bind_run. reflexivity.
Qed.
End BackgroundRuns.

(* ================================================================== *)
(** * The later revision: domain switches and ticks                     *)
(* ================================================================== *)

Lemma strictEq_sym (a b : option string) : strictEq a b = strictEq b a.
Proof. destruct a, b; simpl; try reflexivity. apply String.eqb_sym. Qed.

Lemma attributed_min (e : Z) : Background.attributed e = Z.min e 10000.
Proof.
  unfold Background.attributed, Background.maxElapsed.
  destruct (Z.ltb_spec 10000 e); lia.
Qed.

Lemma classified_truthy (o : option string) (c : Classification) :
  classifyDomain o = Some c -> exists d, truthy o = Some d.
Proof.
  unfold classifyDomain. destruct (truthy o) as [d|]; [eauto | discriminate].
Qed.

Section BackgroundFacts.
Variable env : Env.

(** What [triggerAICall] never touches. *)
Lemma triggerAICall_preserves (w : World) :
  let s := stateOf env w in
  let w' := snd (Background.triggerAICall env w) in
  let s' := stateOf env w' in
  currentDomain s' = currentDomain s
  /\ unproductiveMsBuffer s' = unproductiveMsBuffer s
  /\ totalUnproductiveMs s' = totalUnproductiveMs s
  /\ userId s' = userId s
  /\ (clockReads w <= clockReads w')%nat.
Proof.
  rewrite triggerAICall_run. cbn [snd].
  destruct (Background.callTarget env (stateOf env w)); cbv zeta;
    [destruct (twilio env (requests w))|];
    cbn; repeat split; auto.
Qed.

(** One domain switch, read off the store. *)
Lemma updateDomain_state (newDomain : option string) (w : World) :
  let s := stateOf env w in
  let w' := snd (Background.updateDomain env newDomain w) in
  stateOf env w' =
    (if strictEq (currentDomain s) newDomain then s
     else Background.switchState s newDomain (dateNow env (clockReads w)))
  /\ isIdle w' = isIdle w
  /\ isWindowFocused w' = isWindowFocused w
  /\ activeDomain w' = activeDomain w
  /\ requests w' = requests w.
Proof.
  rewrite updateDomain_run. cbn [snd].
  destruct (strictEq _ newDomain); repeat split; reflexivity.
Qed.

Lemma processTime_productive_state (w : World) (user : string) (a : Z) :
  let s := stateOf env w in
  truthy (userId s) = Some user ->
  classifyDomain (currentDomain s) = Some productive ->
  let w' := snd (Background.processTime env s a w) in
  let s' := stateOf env w' in
  consecutiveProductiveMs s' = consecutiveProductiveMs s + a
  /\ totalProductiveMs s' = totalProductiveMs s + a
  /\ unproductiveMsBuffer s' = unproductiveMsBuffer s
  /\ totalUnproductiveMs s' = totalUnproductiveMs s
  /\ currentDomain s' = currentDomain s
  /\ lastTick s' = dateNow env (pred (clockReads w'))
  /\ (clockReads w < clockReads w')%nat.
Proof.
  intros s Hu Hc.
  destruct (classified_truthy _ _ Hc) as [d Hd].
  rewrite (processTime_productive env s a w user d Hu Hd Hc).
  cbv zeta. cbn [snd].
  destruct (triggerAICall_preserves w) as (P1 & P2 & P3 & P4 & P5).
  cbv zeta in P1, P2, P3, P4, P5. fold s in P1, P2, P3, P4.
  destruct ((AI_CALL_TRIGGER_MS <=? _) && _); cbn;
    repeat split; auto; lia.
Qed.

Lemma processTime_unproductive_state (w : World) (user : string) (a : Z) :
  let s := stateOf env w in
  truthy (userId s) = Some user ->
  classifyDomain (currentDomain s) = Some unproductive ->
  let w' := snd (Background.processTime env s a w) in
  let s' := stateOf env w' in
  let newBuffer := unproductiveMsBuffer s + a in
  totalUnproductiveMs s' = totalUnproductiveMs s + a
  /\ unproductiveMsBuffer s' =
       (if UNPRODUCTIVE_BUFFER_MS <=? newBuffer then 0 else newBuffer)
  /\ effects w' =
       (effects w ++
        if UNPRODUCTIVE_BUFFER_MS <=? newBuffer
        then [InsertLeaderboardScore user (floorSeconds newBuffer)]
        else [])%list
  /\ consecutiveProductiveMs s' = consecutiveProductiveMs s
  /\ totalProductiveMs s' = totalProductiveMs s
  /\ currentDomain s' = currentDomain s
  /\ lastTick s' = dateNow env (pred (clockReads w'))
  /\ (clockReads w < clockReads w')%nat.
Proof.
  intros s Hu Hc.
  destruct (classified_truthy _ _ Hc) as [d Hd].
  rewrite (processTime_unproductive env s a w user d Hu Hd Hc).
  cbv zeta. cbn. repeat split; auto.
Qed.

Lemma processTime_untracked_state (w : World) (a : Z) :
  let s := stateOf env w in
  truthy (userId s) = None \/ truthy (currentDomain s) = None ->
  let w' := snd (Background.processTime env s a w) in
  stateOf env w' = spread s [ SetLastTick (dateNow env (clockReads w)) ]
  /\ effects w' = effects w
  /\ requests w' = requests w
  /\ clockReads w' = S (clockReads w).
Proof.
  intros s H. rewrite (processTime_untracked env s a w H).
  cbn. repeat split; reflexivity.
Qed.

(** A tick that is neither stale nor paused hands the capped elapsed
    time to [processTime], after the domain switch if the active tab
    changed.  [w1] is the world [processTime] starts from. *)
Lemma tick_reaches_processTime (w : World) :
  let s := stateOf env w in
  let e := dateNow env (clockReads w) - lastTick s in
  0 < e ->
  isIdle w && negb (isWindowFocused w) = false ->
  exists w1 : World,
    Background.tick env w
      = Background.processTime env (stateOf env w1) (Background.attributed e) w1
    /\ currentDomain (stateOf env w1) = activeDomain w
    /\ userId (stateOf env w1) = userId s
    /\ consecutiveProductiveMs (stateOf env w1) =
         (if isProductive (classifyDomain (currentDomain s))
             && isUnproductive (classifyDomain (activeDomain w))
          then 0 else consecutiveProductiveMs s)
    /\ unproductiveMsBuffer (stateOf env w1) =
         (if isUnproductive (classifyDomain (currentDomain s))
             && isProductive (classifyDomain (activeDomain w))
          then 0 else unproductiveMsBuffer s)
    /\ totalProductiveMs (stateOf env w1) = totalProductiveMs s
    /\ totalUnproductiveMs (stateOf env w1) = totalUnproductiveMs s
    /\ (strictEq (activeDomain w) (currentDomain s) = true ->
        stateOf env w1 = s /\ effects w1 = effects w)
    /\ effects w1 =
         (effects w ++
          if strictEq (activeDomain w) (currentDomain s) then []
          else Background.switchEffects s)%list
    /\ requests w1 = requests w
    /\ (clockReads w < clockReads w1)%nat.
Proof.
  intros s e He Hp. rewrite tick_run. cbv zeta. fold s. fold e.
  assert (Ha : (Background.attributed e <=? 0) = false).
  { rewrite attributed_min. apply Z.leb_gt. lia. }
  rewrite Ha, Hp. cbn [orb].
  destruct (strictEq (activeDomain w) (currentDomain s)) eqn:E; cbn [negb].
  - apply strictEq_true in E.
    exists (mkWorld (storage w) (S (clockReads w)) (requests w)
              (effects w) (isIdle w) (isWindowFocused w) (activeDomain w)).
    split; [reflexivity|].
    change (stateOf env (mkWorld (storage w) (S (clockReads w)) (requests w)
              (effects w) (isIdle w) (isWindowFocused w) (activeDomain w)))
      with s.
    cbn [effects requests clockReads]. rewrite E, app_nil_r.
    repeat split; auto.
    + destruct (classifyDomain (currentDomain s)) as [[]|]; reflexivity.
    + destruct (classifyDomain (currentDomain s)) as [[]|]; reflexivity.
  - exists (snd (Background.updateDomain env (activeDomain w)
                   (mkWorld (storage w) (S (clockReads w)) (requests w)
                      (effects w) (isIdle w) (isWindowFocused w)
                      (activeDomain w)))).
    split; [reflexivity|].
    rewrite updateDomain_run. cbn [snd].
    change (stateOf env (mkWorld (storage w) (S (clockReads w)) (requests w)
              (effects w) (isIdle w) (isWindowFocused w) (activeDomain w)))
      with s.
    rewrite strictEq_sym, E. cbn.
    repeat split; auto; discriminate.
Qed.
End BackgroundFacts.

(* ================================================================== *)
(** * Results                                                           *)
(* ================================================================== *)

(** ** The classifier *)

(** The hosts whose normalised form is empty: the empty host, and [www.]
    in any letter case. *)
Lemma normalizeDomain_empty (d : string) :
  normalizeDomain d = "" <-> d = "" \/ toLowerCase d = "www.".
Proof.
  unfold normalizeDomain, stripWww. split.
  - destruct (startsWith (toLowerCase d) "www.") eqn:E.
    + intros H. right. rewrite (startsWith_www _ E), H. reflexivity.
    + intros H. left. now apply toLowerCase_empty.
  - intros [-> | ->]; reflexivity.
Qed.

(** C9, as the code has it.  [classifyDomain] answers [null] for [null]
    and also for the empty host name (the guard is [!domain]).  For every
    non-empty host it answers [unproductive] exactly when the normalised
    host (lower-cased, one leading [www.] removed) is a denylisted name
    or ends with a dot followed by one, and [productive] otherwise.  The
    answer does not depend on letter case, nor on a leading [www.] in
    front of a non-empty host; a name that merely ends with the letters of
    a denylisted one ([notyoutube.com]) is productive; and classifying
    the normalised host once more gives the same answer for every host
    but one: [www.] (in any letter case) is productive, while its
    normalised form, the empty host, is unclassified. *)
Theorem classifyDomain_characterised :
  classifyDomain None = None
  /\ classifyDomain (Some "") = None
  /\ (forall d : string, d <> "" ->
        (classifyDomain (Some d) = Some unproductive
           <-> onDenylist (normalizeDomain d))
        /\ (classifyDomain (Some d) = Some productive
           <-> ~ onDenylist (normalizeDomain d))
        /\ classifyDomain (Some ("www." ++ d)) = classifyDomain (Some d))
  /\ (forall d d' : string,
        toLowerCase d = toLowerCase d' ->
        classifyDomain (Some d) = classifyDomain (Some d'))
  /\ (forall u : string, In u UNPRODUCTIVE_DOMAINS ->
        classifyDomain (Some ("a.b." ++ u)) = Some unproductive
        /\ classifyDomain (Some ("not" ++ u)) = Some productive)
  /\ (forall d : string,
        classifyDomain (Some (normalizeDomain d)) = classifyDomain (Some d)
        <-> toLowerCase d <> "www.")
  /\ classifyDomain (Some "www.Example.COM") = classifyDomain (Some "example.com").
Proof.
  split; [reflexivity|]. split; [reflexivity|].
  split; [|split; [|split; [|split; [|reflexivity]]]].
  4: {
    intros d. split.
    - intros H Hw.
      assert (Hn : normalizeDomain d = "")
        by (apply normalizeDomain_empty; now right).
      assert (Hd : d <> "") by (intros ->; discriminate).
      rewrite Hn in H.
      rewrite (classifyDomain_productive d Hd) in H; [discriminate|].
      rewrite Hn. exact not_onDenylist_empty.
    - intros Hw.
      destruct (String.eqb_spec (normalizeDomain d) "") as [Hn|Hn];
        [|now apply classifyDomain_normalized].
      apply normalizeDomain_empty in Hn. destruct Hn as [-> | Hn];
        [reflexivity | contradiction]. }
  - intros d Hd. split; [|split].
    + split.
      * intros H. apply existsb_matches_spec.
        unfold classifyDomain in H. rewrite (truthy_some d Hd) in H.
        cbv zeta in H.
        destruct (existsb _ _); [reflexivity | discriminate].
      * now apply classifyDomain_unproductive.
    + split.
      * intros H Hon.
        rewrite (classifyDomain_unproductive d Hd Hon) in H. discriminate.
      * now apply classifyDomain_productive.
    + now apply classifyDomain_www_insensitive.
  - apply classifyDomain_case_insensitive.
  - intros u Hin. simpl in Hin.
    destruct Hin as [<- | [<- | [<- | []]]]; split; reflexivity.
Qed.

Lemma classifyDomain_characterised_witness :
  "YouTube.com" <> ""
  /\ classifyDomain (Some "www.YouTube.com") = classifyDomain (Some "YouTube.com").
Proof.
  split; [discriminate|].
  destruct classifyDomain_characterised as (_ & _ & H & _).
  apply (H "YouTube.com"). discriminate.
Defined.

(** C9 as stated fails on the empty host name: it is not [null], it is
    not on the denylist, and it is not classified productive. *)
Lemma classifyDomain_empty_host_unclassified :
  ~ (forall d : string,
       ~ onDenylist (normalizeDomain d) ->
       classifyDomain (Some d) = Some productive).
Proof.
  intros H. specialize (H "" not_onDenylist_empty). discriminate.
Qed.

(** A leading [www.] matters in front of the empty host. *)
Example classifyDomain_bare_www :
  classifyDomain (Some "www.") = Some productive
  /\ classifyDomain (Some "") = None.
Proof. split; reflexivity. Qed.

(** ** The store *)

(** C10.  [updateTrackingState] writes back the stored state with the
    entries of the update laid over it: every key the update does not
    name (theme, userId, any counter) has, in the returned state and in
    the store, the value the store held before the call. *)
Theorem updateTrackingState_keeps_unnamed_fields
    (env : Env) (updates : Partial) (w : World) (s : TrackingState) (f : Field) :
  storage w = Some s ->
  names updates f = false ->
  let updated := fst (updateTrackingState env updates w) in
  let w' := snd (updateTrackingState env updates w) in
  storage w' = Some updated
  /\ getField f updated = getField f s
  /\ effects w' = effects w.
Proof.
  intros Hs Hf. rewrite updateTrackingState_run. cbn.
  rewrite (stateOf_stored env w s Hs).
  repeat split. now apply spread_frame.
Qed.

Lemma updateTrackingState_keeps_unnamed_fields_witness :
  getField FTheme
    (fst (updateTrackingState (demoEnv (constClock 0) allOk)
            [SetLastTick 5; SetConsecutiveProductiveMs 7]
            (worldAt (assign (stateOn None (Some "u1")) (SetTheme dark))
               None false true)))
  = VTheme dark.
Proof.
  apply (updateTrackingState_keeps_unnamed_fields
           (demoEnv (constClock 0) allOk)
           [SetLastTick 5; SetConsecutiveProductiveMs 7]
           (worldAt (assign (stateOn None (Some "u1")) (SetTheme dark))
              None false true)
           (assign (stateOn None (Some "u1")) (SetTheme dark)) FTheme);
    reflexivity.
Defined.

(** With an empty store the merge is laid over [DEFAULT_STATE]. *)
Lemma updateTrackingState_on_empty_store
    (env : Env) (updates : Partial) (w : World) :
  storage w = None ->
  fst (updateTrackingState env updates w) = spread (DEFAULT_STATE env) updates.
Proof.
  intros H. rewrite updateTrackingState_run. cbn. unfold stateOf. now rewrite H.
Qed.

(** ** The domain-switch handler *)

(** C1.  When the outgoing and the incoming domain both classify as
    productive, [updateDomain] leaves [consecutiveProductiveMs] as it was
    (and records the incoming domain). *)
Theorem updateDomain_keeps_streak_across_productive_domains
    (env : Env) (newDomain : option string) (w : World) :
  let s := stateOf env w in
  let s' := stateOf env (snd (Background.updateDomain env newDomain w)) in
  classifyDomain (currentDomain s) = Some productive ->
  classifyDomain newDomain = Some productive ->
  consecutiveProductiveMs s' = consecutiveProductiveMs s
  /\ currentDomain s' = newDomain.
Proof.
  intros s s' Hold Hnew.
  destruct (updateDomain_state env newDomain w) as (Hs & _).
  cbv zeta in Hs. fold s s' in Hs. rewrite Hs.
  destruct (strictEq (currentDomain s) newDomain) eqn:E.
  - apply strictEq_true in E. now split.
  - unfold Background.switchState. rewrite Hold, Hnew. now cbn.
Qed.

Lemma updateDomain_keeps_streak_across_productive_domains_witness :
  consecutiveProductiveMs
    (demoState
       (snd (Background.updateDomain (demoEnv (constClock 40000) allOk)
               (Some "docs.python.org")
               (worldAt (assign (stateOn (Some "github.com") (Some "u1"))
                           (SetConsecutiveProductiveMs 40000))
                  (Some "docs.python.org") false true))))
  = 40000.
Proof.
  apply (updateDomain_keeps_streak_across_productive_domains
           (demoEnv (constClock 40000) allOk)
           (Some "docs.python.org")
           (worldAt (assign (stateOn (Some "github.com") (Some "u1"))
                       (SetConsecutiveProductiveMs 40000))
              (Some "docs.python.org") false true));
    reflexivity.
Defined.

(** The spec's scenario: forty seconds on one productive page, then thirty
    on another, give seventy seconds of consecutive productive time. *)
Example forty_then_thirty_is_seventy :
  consecutiveProductiveMs
    (demoState (runTimed allOk twoProductivePages freshWorld)) = 70000.
Proof. vm_compute. reflexivity. Qed.

(** C2.  On a productive-to-unproductive switch [updateDomain] writes 0
    to [consecutiveProductiveMs] and leaves [unproductiveMsBuffer]; on an
    unproductive-to-productive switch it writes 0 to
    [unproductiveMsBuffer] and leaves [consecutiveProductiveMs]. *)
Theorem updateDomain_resets_on_category_change
    (env : Env) (newDomain : option string) (w : World) :
  let s := stateOf env w in
  let s' := stateOf env (snd (Background.updateDomain env newDomain w)) in
  (classifyDomain (currentDomain s) = Some productive ->
   classifyDomain newDomain = Some unproductive ->
   consecutiveProductiveMs s' = 0
   /\ unproductiveMsBuffer s' = unproductiveMsBuffer s)
  /\ (classifyDomain (currentDomain s) = Some unproductive ->
      classifyDomain newDomain = Some productive ->
      unproductiveMsBuffer s' = 0
      /\ consecutiveProductiveMs s' = consecutiveProductiveMs s).
Proof.
  intros s s'.
  destruct (updateDomain_state env newDomain w) as (Hs & _).
  cbv zeta in Hs. fold s s' in Hs. rewrite Hs.
  split; intros Hold Hnew;
    (destruct (strictEq (currentDomain s) newDomain) eqn:E;
     [apply strictEq_true in E; rewrite E, Hnew in Hold; discriminate|]);
    unfold Background.switchState; rewrite Hold, Hnew; now cbn.
Qed.

Lemma updateDomain_resets_on_category_change_witness :
  consecutiveProductiveMs
    (demoState
       (snd (Background.updateDomain (demoEnv (constClock 40000) allOk)
               (Some "m.youtube.com")
               (worldAt (spread (stateOn (Some "github.com") (Some "u1"))
                           [SetConsecutiveProductiveMs 40000;
                            SetUnproductiveMsBuffer 3000])
                  (Some "m.youtube.com") false true))))
  = 0
  /\ unproductiveMsBuffer
       (demoState
          (snd (Background.updateDomain (demoEnv (constClock 40000) allOk)
                  (Some "m.youtube.com")
                  (worldAt (spread (stateOn (Some "github.com") (Some "u1"))
                              [SetConsecutiveProductiveMs 40000;
                               SetUnproductiveMsBuffer 3000])
                     (Some "m.youtube.com") false true))))
     = 3000.
Proof.
  apply (updateDomain_resets_on_category_change
           (demoEnv (constClock 40000) allOk)
           (Some "m.youtube.com")
           (worldAt (spread (stateOn (Some "github.com") (Some "u1"))
                       [SetConsecutiveProductiveMs 40000;
                        SetUnproductiveMsBuffer 3000])
              (Some "m.youtube.com") false true));
    reflexivity.
Defined.

(** ** The tick engine *)

(** A signed-in, unpaused tick with positive elapsed time on a classified
    domain moves the total of that domain's category. *)
Lemma tick_moves_a_total (env : Env) (w : World) (user : string)
    (c : Classification) :
  let s := stateOf env w in
  let e := dateNow env (clockReads w) - lastTick s in
  let s' := stateOf env (snd (Background.tick env w)) in
  0 < e ->
  isIdle w && negb (isWindowFocused w) = false ->
  truthy (userId s) = Some user ->
  classifyDomain (activeDomain w) = Some c ->
  counters s' <> counters s.
Proof.
  intros s e s' He Hp Hu Hc.
  destruct (tick_reaches_processTime env w He Hp)
    as (w1 & Hrun & Hdom & Huser & _ & _ & Htp & Htu & _).
  fold s in Hrun, Hdom, Huser, Htp, Htu. fold e in Hrun.
  assert (Ha : 0 < Background.attributed e) by (rewrite attributed_min; lia).
  assert (Hu1 : truthy (userId (stateOf env w1)) = Some user)
    by now rewrite Huser.
  assert (Hc1 : classifyDomain (currentDomain (stateOf env w1)) = Some c)
    by now rewrite Hdom.
  unfold s'. rewrite Hrun. unfold counters. destruct c.
  - destruct (processTime_productive_state env w1 user
                (Background.attributed e) Hu1 Hc1) as (_ & Q & _).
    cbv zeta in Q. intros Heq. inversion Heq. lia.
  - destruct (processTime_unproductive_state env w1 user
                (Background.attributed e) Hu1 Hc1) as (Q & _).
    cbv zeta in Q. intros Heq. inversion Heq. lia.
Qed.

(** C3.  A tick of a signed-in, unpaused session whose raw elapsed time
    [e = now - lastTick] is positive attributes [e] when [e <= 10000] and
    exactly [10000] when [e > 10000].  On a productive active domain the
    amount is added to [consecutiveProductiveMs] and to
    [totalProductiveMs]; on an unproductive one it is added to
    [totalUnproductiveMs] and to [unproductiveMsBuffer], which is flushed
    to the event sink and zeroed when the sum reaches the flush threshold.
    Nothing is carried over: [lastTick] becomes the last reading of the
    clock taken during the tick, so the next tick measures from there. *)
Theorem tick_attributes_capped_elapsed (env : Env) (w : World) (user : string) :
  let s := stateOf env w in
  let e := dateNow env (clockReads w) - lastTick s in
  let w' := snd (Background.tick env w) in
  let s' := stateOf env w' in
  let added := if e <=? 10000 then e else 10000 in
  0 < e ->
  isIdle w && negb (isWindowFocused w) = false ->
  truthy (userId s) = Some user ->
  (classifyDomain (activeDomain w) = Some productive ->
     consecutiveProductiveMs s' = consecutiveProductiveMs s + added
     /\ totalProductiveMs s' = totalProductiveMs s + added
     /\ totalUnproductiveMs s' = totalUnproductiveMs s)
  /\ (classifyDomain (activeDomain w) = Some unproductive ->
      totalUnproductiveMs s' = totalUnproductiveMs s + added
      /\ unproductiveMsBuffer s' =
           (if 10000 <=? unproductiveMsBuffer s + added then 0
            else unproductiveMsBuffer s + added)
      /\ (10000 <= unproductiveMsBuffer s + added ->
          In (InsertLeaderboardScore user
                ((unproductiveMsBuffer s + added) / 1000))
             (effects w'))
      /\ totalProductiveMs s' = totalProductiveMs s)
  /\ (forall c, classifyDomain (activeDomain w) = Some c ->
      lastTick s' = dateNow env (pred (clockReads w'))
      /\ (clockReads w < clockReads w')%nat).
Proof.
  intros s e w' s' added He Hp Hu.
  destruct (tick_reaches_processTime env w He Hp)
    as (w1 & Hrun & Hdom & Huser & Hcons & Hbuf & Htp & Htu & _ & _ & _ & Hclk).
  fold s in Hrun, Hdom, Huser, Hcons, Hbuf, Htp, Htu. fold e in Hrun.
  assert (Hadd : Background.attributed e = added).
  { unfold added. rewrite attributed_min.
    destruct (Z.leb_spec e 10000); lia. }
  rewrite Hadd in Hrun.
  assert (Hu1 : truthy (userId (stateOf env w1)) = Some user)
    by now rewrite Huser.
  assert (Hprod : classifyDomain (activeDomain w) = Some productive ->
                  consecutiveProductiveMs s' = consecutiveProductiveMs s + added
                  /\ totalProductiveMs s' = totalProductiveMs s + added
                  /\ totalUnproductiveMs s' = totalUnproductiveMs s
                  /\ lastTick s' = dateNow env (pred (clockReads w'))
                  /\ (clockReads w < clockReads w')%nat).
  { intros Hc.
    assert (Hc1 : classifyDomain (currentDomain (stateOf env w1)) = Some productive)
      by now rewrite Hdom.
    destruct (processTime_productive_state env w1 user added Hu1 Hc1)
      as (Q1 & Q2 & _ & Q4 & _ & Q6 & Q7).
    cbv zeta in Q1, Q2, Q4, Q6, Q7.
    rewrite <- Hrun in Q1, Q2, Q4, Q6, Q7. fold w' in Q1, Q2, Q4, Q6, Q7.
    fold s' in Q1, Q2, Q4, Q6.
    rewrite Hc, andb_false_r in Hcons.
    repeat split; try congruence; lia. }
  assert (Hunp : classifyDomain (activeDomain w) = Some unproductive ->
                 totalUnproductiveMs s' = totalUnproductiveMs s + added
                 /\ unproductiveMsBuffer s' =
                      (if 10000 <=? unproductiveMsBuffer s + added then 0
                       else unproductiveMsBuffer s + added)
                 /\ (10000 <= unproductiveMsBuffer s + added ->
                     In (InsertLeaderboardScore user
                           ((unproductiveMsBuffer s + added) / 1000))
                        (effects w'))
                 /\ totalProductiveMs s' = totalProductiveMs s
                 /\ lastTick s' = dateNow env (pred (clockReads w'))
                 /\ (clockReads w < clockReads w')%nat).
  { intros Hc.
    assert (Hc1 : classifyDomain (currentDomain (stateOf env w1)) = Some unproductive)
      by now rewrite Hdom.
    destruct (processTime_unproductive_state env w1 user added Hu1 Hc1)
      as (Q1 & Q2 & Q3 & _ & Q5 & _ & Q7 & Q8).
    cbv zeta in Q1, Q2, Q3, Q5, Q7, Q8.
    rewrite <- Hrun in Q1, Q2, Q3, Q5, Q7, Q8.
    fold w' in Q1, Q2, Q3, Q5, Q7, Q8. fold s' in Q1, Q2, Q5, Q7.
    rewrite Hc, andb_false_r in Hbuf. rewrite Hbuf in Q2, Q3.
    unfold UNPRODUCTIVE_BUFFER_MS in Q2, Q3.
    repeat split; try congruence; try lia.
    intros Hge. rewrite Q3. apply in_or_app. right.
    apply Z.leb_le in Hge. rewrite Hge. now left. }
  split; [|split].
  - intros Hc. destruct (Hprod Hc) as (? & ? & ? & _). auto.
  - intros Hc. destruct (Hunp Hc) as (? & ? & ? & ? & _). auto.
  - intros [|] Hc.
    + destruct (Hprod Hc) as (_ & _ & _ & ? & ?). auto.
    + destruct (Hunp Hc) as (_ & _ & _ & _ & ? & ?). auto.
Qed.


Lemma tick_attributes_capped_elapsed_witness :
  consecutiveProductiveMs
    (demoState
       (snd (Background.tick (demoEnv (constClock 25000) allOk)
               (worldAt (stateOn (Some "github.com") (Some "u1"))
                  (Some "github.com") false true))))
  = 0 + 10000.
Proof.
  exact (proj1 (proj1 (tick_attributes_capped_elapsed
                         (demoEnv (constClock 25000) allOk)
                         (worldAt (stateOn (Some "github.com") (Some "u1"))
                            (Some "github.com") false true)
                         "u1" eq_refl eq_refl eq_refl)
                  eq_refl)).
Defined.

(** Twenty-five seconds of suspension count for ten; the tick that follows
    one second later adds one second, not the sixteen that were dropped. *)
Example capped_remainder_is_dropped :
  totalProductiveMs
    (demoState
       (runTimed allOk [ (25000, TickTimer); (26000, TickTimer) ]
          (worldAt (stateOn (Some "github.com") (Some "u1"))
             (Some "github.com") false true)))
  = 11000.
Proof. vm_compute. reflexivity. Qed.

(** C4.  For a tick that has time to attribute (positive elapsed time, a
    signed-in user, a classified active domain): the tick only moves
    [lastTick], changing no counter and sending nothing, exactly when the
    user is idle or locked and the window is unfocused, both at once.  If
    only one of the two holds the counters change. *)
Theorem tick_pauses_iff_idle_and_unfocused
    (env : Env) (w : World) (user : string) (c : Classification) :
  let s := stateOf env w in
  let now := dateNow env (clockReads w) in
  let w' := snd (Background.tick env w) in
  let s' := stateOf env w' in
  0 < now - lastTick s ->
  truthy (userId s) = Some user ->
  classifyDomain (activeDomain w) = Some c ->
  (counters s' = counters s <-> isIdle w = true /\ isWindowFocused w = false)
  /\ (s' = spread s [SetLastTick now]
      <-> isIdle w = true /\ isWindowFocused w = false)
  /\ (isIdle w = true /\ isWindowFocused w = false -> effects w' = effects w).
Proof.
  intros s now w' s' He Hu Hc.
  assert (Hpaused : isIdle w = true /\ isWindowFocused w = false ->
                    s' = spread s [SetLastTick now] /\ effects w' = effects w).
  { intros [Hi Hf]. unfold s', w'. rewrite tick_run. cbv zeta.
    rewrite Hi, Hf. cbn [negb andb]. rewrite orb_true_r. cbn. now split. }
  assert (Hmoving : isIdle w && negb (isWindowFocused w) = false ->
                    counters s' <> counters s).
  { intros Hp. exact (tick_moves_a_total env w user c He Hp Hu Hc). }
  assert (Hdec : isIdle w && negb (isWindowFocused w) = true
                 <-> isIdle w = true /\ isWindowFocused w = false).
  { destruct (isIdle w), (isWindowFocused w); cbn; intuition congruence. }
  split; [|split].
  - split.
    + intros Heq. apply Hdec.
      destruct (isIdle w && negb (isWindowFocused w)) eqn:E; [reflexivity|].
      now destruct (Hmoving eq_refl).
    + intros H. destruct (Hpaused H) as [-> _]. reflexivity.
  - split.
    + intros Heq. apply Hdec.
      destruct (isIdle w && negb (isWindowFocused w)) eqn:E; [reflexivity|].
      destruct (Hmoving eq_refl). now rewrite Heq.
    + intros H. now destruct (Hpaused H).
  - intros H. now destruct (Hpaused H).
Qed.

Lemma tick_pauses_iff_idle_and_unfocused_witness :
  counters
    (demoState
       (snd (Background.tick (demoEnv (constClock 1000) allOk)
               (worldAt (stateOn (Some "github.com") (Some "u1"))
                  (Some "github.com") true false))))
  = counters (stateOn (Some "github.com") (Some "u1")).
Proof.
  exact (proj2 (proj1 (tick_pauses_iff_idle_and_unfocused
                         (demoEnv (constClock 1000) allOk)
                         (worldAt (stateOn (Some "github.com") (Some "u1"))
                            (Some "github.com") true false)
                         "u1" productive eq_refl eq_refl eq_refl))
               (conj eq_refl eq_refl)).
Defined.

(** Idle with the window focused, or active with the window unfocused:
    the tick still attributes the elapsed second. *)
Example one_condition_does_not_pause :
  totalProductiveMs
    (demoState
       (snd (Background.tick (demoEnv (constClock 1000) allOk)
               (worldAt (stateOn (Some "github.com") (Some "u1"))
                  (Some "github.com") true true)))) = 1000
  /\ totalProductiveMs
       (demoState
          (snd (Background.tick (demoEnv (constClock 1000) allOk)
                  (worldAt (stateOn (Some "github.com") (Some "u1"))
                     (Some "github.com") false false)))) = 1000.
Proof. split; reflexivity. Qed.

(** C8, as the code has it.  With no user signed in a tick adds no elapsed
    time to any counter: both totals keep their stored values, the two
    running counters keep theirs unless the domain switch zeroes them, all
    four are untouched when the active domain did not change, and nothing
    is sent to any sink. *)
Theorem tick_without_user_attributes_nothing (env : Env) (w : World) :
  let s := stateOf env w in
  let w' := snd (Background.tick env w) in
  let s' := stateOf env w' in
  truthy (userId s) = None ->
  totalProductiveMs s' = totalProductiveMs s
  /\ totalUnproductiveMs s' = totalUnproductiveMs s
  /\ (consecutiveProductiveMs s' = consecutiveProductiveMs s
      \/ consecutiveProductiveMs s' = 0)
  /\ (unproductiveMsBuffer s' = unproductiveMsBuffer s
      \/ unproductiveMsBuffer s' = 0)
  /\ (strictEq (activeDomain w) (currentDomain s) = true ->
      counters s' = counters s)
  /\ effects w' = effects w
  /\ requests w' = requests w.
Proof.
  intros s w' s' Hu.
  set (e := dateNow env (clockReads w) - lastTick s).
  destruct ((Background.attributed e <=? 0)
            || (isIdle w && negb (isWindowFocused w))) eqn:C.
  - unfold s', w'. rewrite tick_run. cbv zeta. fold s. fold e. rewrite C.
    cbn. repeat split; auto.
  - apply orb_false_iff in C as [Ca Hp].
    assert (He : 0 < e).
    { apply Z.leb_gt in Ca. rewrite attributed_min in Ca. lia. }
    destruct (tick_reaches_processTime env w He Hp)
      as (w1 & Hrun & _ & Huser & Hcons & Hbuf & Htp & Htu & _ & Heff
          & Hreq & _).
    fold s in Hrun, Huser, Hcons, Hbuf, Htp, Htu, Heff. fold e in Hrun.
    assert (Hu1 : truthy (userId (stateOf env w1)) = None
                  \/ truthy (currentDomain (stateOf env w1)) = None)
      by (left; now rewrite Huser).
    destruct (processTime_untracked_state env w1 (Background.attributed e) Hu1)
      as (Q1 & Q2 & Q3 & _).
    cbv zeta in Q1, Q2, Q3. rewrite <- Hrun in Q1, Q2, Q3.
    fold w' in Q1, Q2, Q3. fold s' in Q1.
    assert (Hnone : Background.switchEffects s = []).
    { unfold Background.switchEffects. rewrite Hu.
      now destruct (truthy (currentDomain s)). }
    rewrite Hnone in Heff.
    rewrite Q1. cbn. rewrite Htp, Htu, Hcons, Hbuf.
    split; [reflexivity|]. split; [reflexivity|].
    split; [break_if; auto|].
    split; [break_if; auto|].
    split; [|split].
    + intros E. apply strictEq_true in E. rewrite E.
      unfold counters. cbn.
      destruct (classifyDomain (currentDomain s)) as [[]|]; reflexivity.
    + rewrite Q2, Heff. destruct (strictEq _ _); now rewrite app_nil_r.
    + congruence.
Qed.

Lemma tick_without_user_attributes_nothing_witness :
  totalProductiveMs
    (demoState
       (snd (Background.tick (demoEnv (constClock 1000) allOk) signedOutWorld)))
  = 0.
Proof.
  exact (proj1 (tick_without_user_attributes_nothing
                  (demoEnv (constClock 1000) allOk) signedOutWorld eq_refl)).
Defined.

(** C8 as stated fails: the same second on the same productive page is
    counted for a signed-in user and is not counted without one. *)
Lemma signed_out_tick_accumulates_nothing :
  counters
    (demoState
       (snd (Background.tick (demoEnv (constClock 1000) allOk) signedOutWorld)))
  = (0, 0, 0, 0)
  /\ counters
       (demoState
          (snd (Background.tick (demoEnv (constClock 1000) allOk) signedInWorld)))
     = (1000, 0, 1000, 0)
  /\ counters
       (demoState
          (snd (Background.tick (demoEnv (constClock 1000) allOk) signedOutWorld)))
     <> counters
          (demoState
             (snd (Background.tick (demoEnv (constClock 1000) allOk)
                     signedInWorld))).
Proof. repeat split; try reflexivity. discriminate. Qed.

(** ** The leaderboard timer *)

(** C7, as the code has it.  A due sync of a signed-in session sends one
    upsert carrying the unproductive total only, in whole seconds (none
    if the profile is missing), and writes [lastLeaderboardUpdate]; the
    store is otherwise untouched, so both totals keep running. *)
Theorem checkAndUpdateLeaderboard_upserts_unproductive_only
    (env : Env) (w : World) (user : string) :
  let s := stateOf env w in
  let now := dateNow env (clockReads w) in
  let w' := snd (Background.checkAndUpdateLeaderboard env w) in
  let s' := stateOf env w' in
  truthy (userId s) = Some user ->
  LEADERBOARD_UPDATE_INTERVAL_MS <= now - lastLeaderboardUpdate s ->
  s' = spread s [SetLastLeaderboardUpdate now]
  /\ totalProductiveMs s' = totalProductiveMs s
  /\ totalUnproductiveMs s' = totalUnproductiveMs s
  /\ effects w' =
       (effects w ++
        match profiles env user with
        | ProfileRow _ =>
            [UpsertLeaderboardGlobal user (totalUnproductiveMs s / 1000)]
        | NoProfile => []
        end)%list.
Proof.
  intros s now w' s' Hu Hdue. unfold s', w'.
  unfold Background.checkAndUpdateLeaderboard.
  rewrite bind_run. unfold getTrackingState. cbn [fst snd].
  rewrite bind_run. unfold Date_now. cbn [fst snd].
  fold s. rewrite Hu, !orZero_id. fold now.
  apply Z.leb_le in Hdue. rewrite Hdue.
  unfold updateLeaderboard.
  destruct (profiles env user); cbn; rewrite ?app_nil_r; repeat split.
Qed.

Lemma checkAndUpdateLeaderboard_upserts_unproductive_only_witness :
  effects
    (snd (Background.checkAndUpdateLeaderboard
            (demoEnv (constClock 120000) allOk) beforeSync))
  = [UpsertLeaderboardGlobal "u1" 7].
Proof.
  refine (proj2 (proj2 (proj2
            (checkAndUpdateLeaderboard_upserts_unproductive_only
               (demoEnv (constClock 120000) allOk) beforeSync "u1" _ _))));
    [reflexivity | vm_compute; discriminate].
Defined.

(** C7 as stated fails: after a due sync both totals are what they were,
    not 0, and the only request carries the unproductive seconds. *)
Lemma leaderboard_sync_keeps_totals :
  totalProductiveMs
    (demoState
       (snd (Background.checkAndUpdateLeaderboard
               (demoEnv (constClock 120000) allOk) beforeSync)))
  = 5000
  /\ totalUnproductiveMs
       (demoState
          (snd (Background.checkAndUpdateLeaderboard
                  (demoEnv (constClock 120000) allOk) beforeSync)))
     = 7000
  /\ effects
       (snd (Background.checkAndUpdateLeaderboard
               (demoEnv (constClock 120000) allOk) beforeSync))
     = [UpsertLeaderboardGlobal "u1" 7].
Proof. repeat split; reflexivity. Qed.

(** The earlier revision has the same timer, word for word. *)
Lemma early_checkAndUpdateLeaderboard_same (env : Env) :
  BackgroundEarly.checkAndUpdateLeaderboard env
  = Background.checkAndUpdateLeaderboard env.
Proof. reflexivity. Qed.

(** ** The outbound call *)

(** C6, as the code has it.  When the call request fails (a non-ok
    response, or an exception from [fetch] or from reading the body),
    [triggerAICall] leaves the store exactly as it was: the cooldown anchor
    is not set and no counter is reset.  Only a successful request writes
    [lastCallTriggerTime = now] and 0 to [consecutiveProductiveMs] and
    [totalProductiveMs].  The request itself is sent in both cases. *)
Theorem triggerAICall_writes_only_on_success
    (env : Env) (w : World) (to : string) :
  let s := stateOf env w in
  let w' := snd (Background.triggerAICall env w) in
  let s' := stateOf env w' in
  Background.callTarget env s = Some to ->
  effects w' =
    (effects w ++ [TwilioCall (TWILIO_PHONE_NUMBER env) to (WEBHOOK_URL env)])%list
  /\ (twilio env (requests w) <> ResponseOk -> storage w' = storage w)
  /\ (twilio env (requests w) = ResponseOk ->
      lastCallTriggerTime s' = dateNow env (clockReads w)
      /\ consecutiveProductiveMs s' = 0
      /\ totalProductiveMs s' = 0).
Proof.
  intros s w' s' Ht. unfold s', w'. rewrite triggerAICall_run.
  fold s. rewrite Ht. cbv zeta. cbn [snd].
  destruct (twilio env (requests w)); cbn;
    (split; [reflexivity|]); split; intros H;
    try reflexivity; try discriminate; try now destruct H.
Qed.

Lemma triggerAICall_writes_only_on_success_witness :
  storage
    (snd (Background.triggerAICall (demoEnv (constClock 120000) allNotOk)
            almostTwoMinutes))
  = storage almostTwoMinutes.
Proof.
  refine (proj1 (proj2 (triggerAICall_writes_only_on_success
                          (demoEnv (constClock 120000) allNotOk)
                          almostTwoMinutes "+15551234567" _)) _);
    [reflexivity | discriminate].
Defined.

(** C6 as stated fails: a refused request, or one that throws, is sent but
    neither sets the cooldown anchor nor resets the counters; an accepted
    one does both. *)
Lemma failed_call_consumes_nothing :
  lastCallTriggerTime
    (demoState
       (snd (Background.triggerAICall (demoEnv (constClock 120000) allNotOk)
               almostTwoMinutes)))
  = 0
  /\ consecutiveProductiveMs
       (demoState
          (snd (Background.triggerAICall (demoEnv (constClock 120000) allNotOk)
                  almostTwoMinutes)))
     = 119000
  /\ lastCallTriggerTime
       (demoState
          (snd (Background.triggerAICall (demoEnv (constClock 120000) allRejected)
                  almostTwoMinutes)))
     = 0
  /\ effects
       (snd (Background.triggerAICall (demoEnv (constClock 120000) allNotOk)
               almostTwoMinutes))
     = [TwilioCall "+15550000" "+15551234567" "https://hooks.example/voice"]
  /\ lastCallTriggerTime
       (demoState
          (snd (Background.triggerAICall (demoEnv (constClock 120000) allOk)
                  almostTwoMinutes)))
     = 120000
  /\ consecutiveProductiveMs
       (demoState
          (snd (Background.triggerAICall (demoEnv (constClock 120000) allOk)
                  almostTwoMinutes)))
     = 0.
Proof. repeat split; reflexivity. Qed.

(** The later [triggerAICall] never reads [lastCallTriggerTime]: whenever
    its guards pass, a request is sent, whatever the time of the last
    call. *)
Lemma triggerAICall_ignores_cooldown (env : Env) (w : World) (to : string) :
  Background.callTarget env (stateOf env w) = Some to ->
  requests (snd (Background.triggerAICall env w)) = S (requests w).
Proof.
  intros Ht. rewrite triggerAICall_run, Ht. cbv zeta. cbn [snd].
  now destruct (twilio env (requests w)).
Qed.

(** A request is sent by [processTime] only on the tick where the
    productive counter crosses the trigger threshold upward. *)
Lemma processTime_calls_only_at_crossing
    (env : Env) (state : TrackingState) (elapsed : Z) (w : World) :
  requests (snd (Background.processTime env state elapsed w)) <> requests w ->
  consecutiveProductiveMs state < AI_CALL_TRIGGER_MS
    <= consecutiveProductiveMs state + elapsed.
Proof.
  intros H.
  destruct (truthy (userId state)) as [user|] eqn:Hu;
    [destruct (truthy (currentDomain state)) as [domain|] eqn:Hd|].
  - destruct (classifyDomain (currentDomain state)) as [[]|] eqn:Hc.
    + rewrite (processTime_productive env state elapsed w user domain Hu Hd Hc)
        in H.
      cbv zeta in H. cbn [snd requests] in H.
      destruct (Z.leb_spec AI_CALL_TRIGGER_MS
                  (consecutiveProductiveMs state + elapsed));
        destruct (Z.ltb_spec (consecutiveProductiveMs state) AI_CALL_TRIGGER_MS);
        cbn [andb] in H; try (now destruct H). lia.
    + rewrite (processTime_unproductive env state elapsed w user domain Hu Hd Hc)
        in H.
      now destruct H.
    + unfold classifyDomain in Hc. rewrite Hd in Hc. cbv zeta in Hc.
      destruct (existsb _ _); discriminate.
  - rewrite (processTime_untracked env state elapsed w (or_intror Hd)) in H.
    now destruct H.
  - rewrite (processTime_untracked env state elapsed w (or_introl Hu)) in H.
    now destruct H.
Qed.

(** C5: the later revision places a second call inside the cooldown
    window.  Two productive minutes place a call at 120 s; a glance at a
    denylisted page zeroes the streak; two more productive minutes place
    the next call at 246 s, 126 s after the first one, with
    [AI_CALL_COOLDOWN_MS] at 300 s. *)
Theorem second_call_inside_cooldown :
  lastCallTriggerTime (demoState (runTimed allOk firstStreak freshWorld))
  = 120000
  /\ lastCallTriggerTime
       (demoState
          (runTimed allOk (firstStreak ++ detour ++ secondStreak) freshWorld))
     = 246000
  /\ filter isTwilioCall
       (effects
          (runTimed allOk (firstStreak ++ detour ++ secondStreak) freshWorld))
     = [ TwilioCall "+15550000" "+15551234567" "https://hooks.example/voice";
         TwilioCall "+15550000" "+15551234567" "https://hooks.example/voice" ]
  /\ 246000 - 120000 < AI_CALL_COOLDOWN_MS.
Proof. vm_compute. repeat split; reflexivity. Qed.

(** After the first call the reset written by [triggerAICall] is gone: the
    write that ends [processTime] puts the pre-call sums back. *)
Example call_reset_is_overwritten :
  consecutiveProductiveMs (demoState (runTimed allOk firstStreak freshWorld))
  = 120000
  /\ totalProductiveMs (demoState (runTimed allOk firstStreak freshWorld))
     = 120000.
Proof. vm_compute. split; reflexivity. Qed.

(* ================================================================== *)
(** * The earlier revision, for comparison                              *)
(* ================================================================== *)

Section EarlyFacts.
Variable env : Env.

(** X16.  The earlier [triggerAICall] honours the cooldown: within
    [AI_CALL_COOLDOWN_MS] of the last successful call it sends nothing
    and writes nothing. *)
Lemma early_triggerAICall_respects_cooldown (w : World) :
  let s := stateOf env w in
  let now := dateNow env (clockReads w) in
  let w' := snd (BackgroundEarly.triggerAICall env w) in
  0 < lastCallTriggerTime s ->
  now - lastCallTriggerTime s < AI_CALL_COOLDOWN_MS ->
  effects w' = effects w /\ requests w' = requests w
  /\ storage w' = storage w.
Proof.
  intros s now w' H0 Hc. unfold w', BackgroundEarly.triggerAICall.
  rewrite bind_run. unfold getTrackingState. cbn [fst snd].
  rewrite bind_run. unfold Date_now. cbn [fst snd].
  fold s. fold now.
  apply Z.ltb_lt in H0, Hc. rewrite H0, Hc. cbn. repeat split.
Qed.


(** X18.  The earlier [updateDomain] resets by destination alone: the
    counter of the incoming category is zeroed, the other one is kept. *)
Lemma early_updateDomain_resets_incoming (newDomain : option string) (w : World) :
  let s := stateOf env w in
  let s' := stateOf env (snd (BackgroundEarly.updateDomain env newDomain w)) in
  strictEq (currentDomain s) newDomain = false ->
  consecutiveProductiveMs s' =
    (if isProductive (classifyDomain newDomain) then 0
     else consecutiveProductiveMs s)
  /\ unproductiveMsBuffer s' =
       (if isUnproductive (classifyDomain newDomain) then 0
        else unproductiveMsBuffer s).
Proof.
  intros s s' E. unfold s', BackgroundEarly.updateDomain.
  rewrite bind_run. unfold getTrackingState. cbn [fst snd].
  fold s. rewrite E. rewrite bind_run.
  set (flushed := snd (_ w)).
  assert (Hst : stateOf env flushed = s).
  { unfold flushed.
    destruct (truthy (currentDomain s)), (truthy (userId s));
      repeat break_if; reflexivity. }
  rewrite bind_run. unfold Date_now. cbn [fst snd].
  rewrite bind_run, updateTrackingState_run. cbn [fst snd ret].
  change (stateOf env (mkWorld (storage flushed) (S (clockReads flushed))
            (requests flushed) (effects flushed) (isIdle flushed)
            (isWindowFocused flushed) (activeDomain flushed)))
    with (stateOf env flushed).
  rewrite Hst. cbn. split; reflexivity.
Qed.
End EarlyFacts.

(** In the earlier revision the streak restarts on the second productive
    page, a long gap is counted in full, and an unfocused window alone
    pauses the tick. *)
Example early_forty_then_thirty_is_thirty :
  consecutiveProductiveMs
    (demoState (runTimedEarly allOk twoProductivePages freshWorld)) = 30000.
Proof. vm_compute. reflexivity. Qed.

Example early_tick_is_not_capped :
  totalProductiveMs
    (demoState
       (snd (BackgroundEarly.tick (demoEnv (constClock 25000) allOk)
               signedInWorld))) = 25000.
Proof. reflexivity. Qed.

Example early_tick_pauses_when_unfocused :
  totalProductiveMs
    (demoState
       (snd (BackgroundEarly.tick (demoEnv (constClock 1000) allOk)
               (worldAt (stateOn (Some "github.com") (Some "u1"))
                  (Some "github.com") false false)))) = 0.
Proof. reflexivity. Qed.

(* ================================================================== *)
(** * Further results: the store                                        *)
(* ================================================================== *)

Lemma assign_read (s : TrackingState) (a : Assignment) (f : Field) :
  getField f (assign s a)
  = if Field_eqb (assignedField a) f then assignedValue a else getField f s.
Proof. destruct a, f; reflexivity. Qed.

Lemma spread_snoc (s : TrackingState) (updates : Partial) (a : Assignment) :
  spread s (updates ++ [a])%list = assign (spread s updates) a.
Proof. unfold spread. now rewrite fold_left_app. Qed.

Lemma lastAssigned_snoc (updates : Partial) (a : Assignment) (f : Field) :
  lastAssigned (updates ++ [a])%list f
  = if Field_eqb (assignedField a) f then Some (assignedValue a)
    else lastAssigned updates f.
Proof. unfold lastAssigned. now rewrite fold_left_app. Qed.

Lemma spread_read (s : TrackingState) (updates : Partial) (f : Field) :
  getField f (spread s updates)
  = match lastAssigned updates f with
    | Some v => v
    | None => getField f s
    end.
Proof.
  induction updates as [|a updates IH] using rev_ind.
  - reflexivity.
  - rewrite spread_snoc, lastAssigned_snoc, assign_read.
    destruct (Field_eqb (assignedField a) f); [reflexivity | exact IH].
Qed.

(** X1.  What is read back after [updateTrackingState]: the state the call
    returned; in it a key named by the update holds the value of the last
    entry naming it, and every other key holds what was stored before. *)
Theorem updateTrackingState_then_get
    (env : Env) (updates : Partial) (w : World) (f : Field) :
  let updated := fst (updateTrackingState env updates w) in
  let w' := snd (updateTrackingState env updates w) in
  fst (getTrackingState env w') = updated
  /\ getField f updated
     = match lastAssigned updates f with
       | Some v => v
       | None => getField f (stateOf env w)
       end.
Proof.
  rewrite updateTrackingState_run. cbn. split; [reflexivity|].
  apply spread_read.
Qed.

(** X2.  Two updates in a row amount to one update with the entries of the
    first followed by those of the second: where both name a key, the
    second one wins. *)
Theorem updateTrackingState_twice
    (env : Env) (first second : Partial) (w : World) :
  updateTrackingState env second (snd (updateTrackingState env first w))
  = updateTrackingState env (first ++ second)%list w.
Proof.
  rewrite !updateTrackingState_run. cbn.
  unfold spread. now rewrite fold_left_app.
Qed.

(** X3.  [getUserId] after [setUserId u] answers [u], also for [null], and
    [setUserId] changes no other key of the stored state. *)
Theorem setUserId_then_getUserId
    (env : Env) (u : option string) (w : World) (f : Field) :
  let w' := snd (setUserId env u w) in
  fst (getUserId env w') = u
  /\ (f <> FUserId -> getField f (stateOf env w') = getField f (stateOf env w)).
Proof.
  unfold setUserId, getUserId. rewrite !bind_run, updateTrackingState_run.
  cbn. split; [reflexivity|].
  intros Hf. destruct f; try reflexivity. now destruct Hf.
Qed.

Lemma setUserId_then_getUserId_witness :
  getField FTheme
    (demoState (snd (setUserId (demoEnv (constClock 0) allOk) None signedInWorld)))
  = getField FTheme (demoState signedInWorld).
Proof.
  refine (proj2 (setUserId_then_getUserId (demoEnv (constClock 0) allOk)
                   None signedInWorld FTheme) _).
  discriminate.
Defined.

(* ================================================================== *)
(** * Further results: env.ts                                           *)
(* ================================================================== *)

Lemma stripTrailingSlashes_no_slash (s : string) :
  endsWith (stripTrailingSlashes s) "/" = false.
Proof.
  induction s as [|c s IH]; [reflexivity|].
  cbn [stripTrailingSlashes].
  destruct (Ascii.eqb_spec c "/") as [->|Hc];
    destruct (String.eqb_spec (stripTrailingSlashes s) "") as [E|E];
    cbn [andb]; try reflexivity;
    cbn [endsWith]; rewrite IH, orb_false_r;
    apply String.eqb_neq; intros H; inversion H; contradiction.
Qed.

Lemma stripTrailingSlashes_idem (s : string) :
  stripTrailingSlashes (stripTrailingSlashes s) = stripTrailingSlashes s.
Proof.
  induction s as [|c s IH]; [reflexivity|].
  cbn [stripTrailingSlashes].
  destruct (Ascii.eqb c "/" && (stripTrailingSlashes s =? "")%string) eqn:E;
    [reflexivity|].
  cbn [stripTrailingSlashes]. now rewrite IH, E.
Qed.

Lemma stripTrailingSlashes_suffix (s : string) :
  exists n, s = stripTrailingSlashes s ++ slashes n.
Proof.
  induction s as [|c s [n IH]]; [now exists O|].
  cbn [stripTrailingSlashes].
  destruct (Ascii.eqb_spec c "/") as [->|Hc]; cbn [andb].
  - destruct (String.eqb_spec (stripTrailingSlashes s) "") as [E|E].
    + exists (S n). rewrite E in IH. cbn in *. now rewrite <- IH.
    + exists n. cbn. now rewrite <- IH.
  - exists n. cbn. now rewrite <- IH.
Qed.

(** X4.  [SUPABASE_URL] never ends with a slash; it is the trimmed raw
    value with nothing but trailing slashes removed; and removing trailing
    slashes from it once more changes nothing. *)
Theorem SUPABASE_URL_has_no_trailing_slash (rawUrl : string) :
  endsWith (SUPABASE_URL rawUrl) "/" = false
  /\ (exists n, trim rawUrl = SUPABASE_URL rawUrl ++ slashes n)
  /\ stripTrailingSlashes (SUPABASE_URL rawUrl) = SUPABASE_URL rawUrl.
Proof.
  unfold SUPABASE_URL. split; [apply stripTrailingSlashes_no_slash|].
  split; [apply stripTrailingSlashes_suffix | apply stripTrailingSlashes_idem].
Qed.

(* ================================================================== *)
(** * Further results: the dialled number                               *)
(* ================================================================== *)

Lemma joinChars_chars (s : string) : joinChars (chars s) = s.
Proof.
  induction s as [|c s IH]; [reflexivity|].
  cbn [chars]. destruct (continues s) eqn:E.
  - destruct (chars s) as [|g rest].
    + cbn in IH. subst s. discriminate.
    + unfold joinChars in *. cbn [fold_right] in *.
      change (String c g ++ fold_right append "" rest)
        with (String c (g ++ fold_right append "" rest)).
      now rewrite IH.
  - unfold joinChars in *. cbn [fold_right]. now rewrite IH.
Qed.

Lemma chars_head (s : string) :
  match chars s with
  | g :: _ => continues g = continues s
  | [] => s = ""
  end.
Proof.
  destruct s as [|c s]; [reflexivity|].
  cbn [chars]. destruct (continues s); [|reflexivity].
  now destruct (chars s).
Qed.

Lemma chars_segmented (s : string) : segmented (chars s).
Proof.
  unfold segmented. induction s as [|c s [IH1 IH2]]; [split; constructor|].
  cbn [chars]. pose proof (chars_head s) as Hh.
  destruct (continues s) eqn:E.
  - destruct (chars s) as [|g rest].
    + split; repeat constructor.
    + inversion IH1 as [|? ? Hg Hrest]; subst. cbn [tl] in *. split; [|exact IH2].
      constructor; [|exact Hrest].
      destruct g as [|d t]; [destruct Hg|]. cbn in *. now rewrite Hh, Hg.
  - split; [constructor; [reflexivity | exact IH1]|].
    cbn [tl]. destruct (chars s) as [|g rest]; [constructor|].
    constructor; [exact Hh | exact IH2].
Qed.

Lemma chars_char_app (c : ascii) (t s : string) :
  allContinuation t = true -> continues s = false ->
  chars (String c (t ++ s)) = String c t :: chars s.
Proof.
  revert c. induction t as [|d t IH]; intros c Ht Hs.
  - cbn. now rewrite Hs.
  - cbn in Ht. apply andb_prop in Ht as [Hd Ht].
    change (String c (String d t ++ s)) with (String c (String d (t ++ s))).
    cbn [chars continues]. rewrite Hd.
    change (if continues (t ++ s) then _ else _) with (chars (String d (t ++ s))).
    now rewrite (IH d Ht Hs).
Qed.

Lemma chars_joinChars_lead (l : list string) :
  Forall isChar l -> Forall (fun g => continues g = false) l ->
  chars (joinChars l) = l /\ continues (joinChars l) = false.
Proof.
  induction l as [|g l IH]; intros Hc Hl; [now split|].
  inversion Hc as [|? ? Hg Hc']; inversion Hl as [|? ? Hg' Hl']; subst.
  destruct (IH Hc' Hl') as [IH1 IH2].
  destruct g as [|c t]; [destruct Hg|]. cbn in Hg.
  cbn [joinChars fold_right]. fold (joinChars l).
  change (String c t ++ joinChars l) with (String c (t ++ joinChars l)).
  split; [|exact Hg'].
  now rewrite (chars_char_app c t _ Hg IH2), IH1.
Qed.

Lemma chars_joinChars (l : list string) :
  segmented l -> chars (joinChars l) = l.
Proof.
  intros [Hc Hl]. destruct l as [|g l]; [reflexivity|].
  inversion Hc as [|? ? Hg Hc']; subst. cbn [tl] in Hl.
  destruct (chars_joinChars_lead l Hc' Hl) as [E1 E2].
  destruct g as [|c t]; [destruct Hg|]. cbn in Hg.
  cbn [joinChars fold_right]. fold (joinChars l).
  change (String c t ++ joinChars l) with (String c (t ++ joinChars l)).
  now rewrite (chars_char_app c t _ Hg E2), E1.
Qed.

Lemma Forall_tl {A : Type} (P : A -> Prop) (l : list A) :
  Forall P l -> Forall P (tl l).
Proof. intros H. destruct H; [constructor | assumption]. Qed.

Lemma segmented_filter (p : string -> bool) (l : list string) :
  segmented l -> segmented (filter p l).
Proof.
  intros [Hc Hl]. split.
  - apply Forall_forall. intros g Hg. apply filter_In in Hg as [Hg _].
    revert g Hg. now apply Forall_forall.
  - destruct l as [|g l]; [constructor|]. cbn [tl] in Hl. cbn [filter].
    assert (H : Forall (fun g => continues g = false) (filter p l)).
    { apply Forall_forall. intros x Hx. apply filter_In in Hx as [Hx _].
      revert x Hx. now apply Forall_forall. }
    destruct (p g); [exact H | now apply Forall_tl].
Qed.

Lemma segmented_tail (g : string) (l : list string) :
  segmented (g :: l) ->
  Forall isChar l /\ Forall (fun g => continues g = false) l.
Proof. intros [Hc Hl]. inversion Hc; subst. now split. Qed.

Lemma segmented_leads (l : list string) :
  Forall isChar l -> Forall (fun g => continues g = false) l -> segmented l.
Proof. intros Hc Hl. split; [exact Hc | now apply Forall_tl]. Qed.

Lemma segmented_dropWhile (p : string -> bool) (l : list string) :
  segmented l -> segmented (dropWhile p l).
Proof.
  intros H. destruct l as [|g l]; [exact H|].
  cbn [dropWhile]. destruct (p g); [|exact H].
  destruct (segmented_tail g l H) as [Hc Hl]. clear H.
  induction l as [|x l IH]; [split; constructor|].
  cbn [dropWhile]. destruct (p x); [|now apply segmented_leads].
  inversion Hc; inversion Hl; subst. now apply IH.
Qed.

Lemma dropWhileEnd_leads {A : Type} (P : A -> Prop) (p : A -> bool)
    (l : list A) :
  Forall P l -> Forall P (dropWhileEnd p l).
Proof.
  induction l as [|x l IH]; intros H; [constructor|].
  inversion H; subst. cbn [dropWhileEnd].
  destruct (dropWhileEnd p l) as [|y r] eqn:E.
  - destruct (p x); repeat constructor; assumption.
  - constructor; [assumption | now apply IH].
Qed.

Lemma segmented_dropWhileEnd (p : string -> bool) (l : list string) :
  segmented l -> segmented (dropWhileEnd p l).
Proof.
  intros H. destruct l as [|g l]; [exact H|].
  destruct (segmented_tail g l H) as [Hc Hl]. destruct H as [Hg _].
  inversion Hg; subst. cbn [dropWhileEnd].
  pose proof (dropWhileEnd_leads _ p l Hc) as Hc'.
  pose proof (dropWhileEnd_leads _ p l Hl) as Hl'.
  destruct (dropWhileEnd p l) as [|y r].
  - destruct (p g); split; repeat constructor; assumption.
  - split; [constructor; assumption | exact Hl'].
Qed.

Lemma filter_dropWhile {A : Type} (p q : A -> bool) (l : list A) :
  (forall x, p x = true -> q x = false) ->
  filter q (dropWhile p l) = filter q l.
Proof.
  intros H. induction l as [|x l IH]; [reflexivity|].
  cbn [dropWhile]. destruct (p x) eqn:E; [|reflexivity].
  cbn [filter]. now rewrite (H x E).
Qed.

Lemma filter_dropWhileEnd {A : Type} (p q : A -> bool) (l : list A) :
  (forall x, p x = true -> q x = false) ->
  filter q (dropWhileEnd p l) = filter q l.
Proof.
  intros H. induction l as [|x l IH]; [reflexivity|].
  cbn [dropWhileEnd]. destruct (dropWhileEnd p l) as [|y r].
  - cbn [filter] in *. rewrite <- IH.
    destruct (p x) eqn:E; [now rewrite (H x E) | reflexivity].
  - cbn [filter] in *. now rewrite IH.
Qed.

Lemma dropWhile_clean {A : Type} (p : A -> bool) (l : list A) :
  Forall (fun x => p x = false) l -> dropWhile p l = l.
Proof. intros H. destruct H as [|x l Hx _]; cbn; [|rewrite Hx]; reflexivity. Qed.

Lemma dropWhileEnd_clean {A : Type} (p : A -> bool) (l : list A) :
  Forall (fun x => p x = false) l -> dropWhileEnd p l = l.
Proof.
  induction 1 as [|x l Hx _ IH]; [reflexivity|].
  cbn [dropWhileEnd]. rewrite IH. destruct l; [now rewrite Hx | reflexivity].
Qed.

Lemma removeChars_trim (drop : string -> bool) (s : string) :
  (forall g, isWhiteSpace g = true -> drop g = true) ->
  removeChars drop (trim s) = removeChars drop s.
Proof.
  intros Hd. unfold removeChars, trim.
  rewrite chars_joinChars
    by (apply segmented_dropWhileEnd, segmented_dropWhile, chars_segmented).
  assert (H : forall g, isWhiteSpace g = true -> negb (drop g) = false)
    by (intros g Hg; now rewrite (Hd g Hg)).
  now rewrite (filter_dropWhileEnd _ _ _ H), (filter_dropWhile _ _ _ H).
Qed.

Lemma chars_removeChars (drop : string -> bool) (s : string) :
  chars (removeChars drop s) = filter (fun g => negb (drop g)) (chars s).
Proof.
  unfold removeChars. apply chars_joinChars, segmented_filter, chars_segmented.
Qed.

Lemma removeChars_clean (drop : string -> bool) (s : string) :
  Forall (fun g => drop g = false) (chars (removeChars drop s)).
Proof.
  rewrite chars_removeChars. apply Forall_forall. intros g Hg.
  apply filter_In in Hg as [_ Hg]. now apply negb_true_iff.
Qed.

Lemma removeChars_of_clean (drop : string -> bool) (s : string) :
  Forall (fun g => drop g = false) (chars s) -> removeChars drop s = s.
Proof.
  intros H. unfold removeChars.
  rewrite <- (joinChars_chars s) at 2. f_equal.
  induction (chars s) as [|g l IH]; [reflexivity|].
  inversion H as [|? ? Hg Hl]; subst. cbn [filter]. rewrite Hg. cbn [negb].
  now rewrite (IH Hl).
Qed.

Lemma phoneNoise_space (g : string) :
  isWhiteSpace g = true -> phoneNoise g = true.
Proof. unfold phoneNoise. now intros ->. Qed.

(** A character that begins with [+] or [1] is not in the class. *)
Lemma phoneNoise_plain (c : ascii) (t : string) :
  (c = "+" \/ c = "1")%char -> phoneNoise (String c t) = false.
Proof.
  intros [-> | ->]; destruct t as [|a [|b [|d t]]]; reflexivity.
Qed.

Lemma chars_cons_clean (c : ascii) (s : string) :
  (c = "+" \/ c = "1")%char ->
  Forall (fun g => phoneNoise g = false) (chars s) ->
  Forall (fun g => phoneNoise g = false) (chars (String c s)).
Proof.
  intros Hc H. cbn [chars]. destruct (continues s).
  - destruct (chars s) as [|g rest].
    + constructor; [now apply phoneNoise_plain | constructor].
    + inversion H; subst. constructor; [now apply phoneNoise_plain | assumption].
  - constructor; [now apply phoneNoise_plain | exact H].
Qed.

Lemma formatPhone_clean (dadsNumber : string) :
  Forall (fun g => phoneNoise g = false) (chars (Background.formatPhone dadsNumber)).
Proof.
  unfold Background.formatPhone.
  change (fun g : string => isWhiteSpace g || (g =? "-")%string
                            || (g =? "(")%string || (g =? ")")%string)
    with phoneNoise.
  cbv zeta. set (cleaned := removeChars phoneNoise (trim dadsNumber)).
  assert (Hc : Forall (fun g => phoneNoise g = false) (chars cleaned))
    by apply removeChars_clean.
  destruct (startsWith cleaned "+"); [exact Hc|].
  destruct (_ && _).
  - apply chars_cons_clean; [now left | exact Hc].
  - apply chars_cons_clean; [now left|].
    apply chars_cons_clean; [now right | exact Hc].
Qed.

Lemma formatPhone_plus (dadsNumber : string) :
  startsWith (Background.formatPhone dadsNumber) "+" = true.
Proof.
  unfold Background.formatPhone. cbv zeta.
  set (cleaned := removeChars _ (trim dadsNumber)).
  destruct (startsWith cleaned "+") eqn:E; [exact E|].
  now destruct (_ && _).
Qed.

(** X5.  The number [triggerAICall] dials always starts with [+]; none of
    its characters is white space (any character that [\s] matches, the
    no-break space and the other Unicode spaces included), a dash or a
    parenthesis; trimming it changes nothing; and it is a fixed point of
    the formatting: formatting it again gives the same number. *)
Theorem formatPhone_normal_form (dadsNumber : string) :
  startsWith (Background.formatPhone dadsNumber) "+" = true
  /\ Forall (fun g => phoneNoise g = false) (chars (Background.formatPhone dadsNumber))
  /\ trim (Background.formatPhone dadsNumber) = Background.formatPhone dadsNumber
  /\ Background.formatPhone (Background.formatPhone dadsNumber) = Background.formatPhone dadsNumber.
Proof.
  split; [apply formatPhone_plus|]. split; [apply formatPhone_clean|].
  set (r := Background.formatPhone dadsNumber).
  assert (Hclean : Forall (fun g => phoneNoise g = false) (chars r))
    by apply formatPhone_clean.
  assert (Ht : trim r = r).
  { unfold trim. rewrite <- (joinChars_chars r) at 2. f_equal.
    assert (Hws : Forall (fun g => isWhiteSpace g = false) (chars r)).
    { eapply Forall_impl; [|exact Hclean]. intros g Hg. cbv beta in Hg.
      unfold phoneNoise in Hg. now destruct (isWhiteSpace g). }
    now rewrite dropWhile_clean, dropWhileEnd_clean. }
  split; [exact Ht|].
  assert (Hr : removeChars phoneNoise (trim r) = r).
  { rewrite Ht. now apply removeChars_of_clean. }
  unfold Background.formatPhone at 1.
  change (fun g : string => isWhiteSpace g || (g =? "-")%string
                            || (g =? "(")%string || (g =? ")")%string)
    with phoneNoise.
  cbv zeta. rewrite Hr. unfold r. now rewrite formatPhone_plus.
Qed.

(** X6.  The dialled number depends only on the characters of the
    profile's entry that are not white space, dashes or parentheses: two
    entries that agree on those are dialled alike. *)
Theorem formatPhone_ignores_punctuation (a b : string) :
  removeChars phoneNoise a = removeChars phoneNoise b ->
  Background.formatPhone a = Background.formatPhone b.
Proof.
  intros H. unfold Background.formatPhone.
  change (fun g : string => isWhiteSpace g || (g =? "-")%string
                            || (g =? "(")%string || (g =? ")")%string)
    with phoneNoise.
  cbv zeta.
  rewrite !removeChars_trim by apply phoneNoise_space. now rewrite H.
Qed.

Lemma formatPhone_ignores_punctuation_witness :
  Background.formatPhone "(555) 123-4567"
  = Background.formatPhone ("555" ++ utf8 [194; 160]%N ++ "123"
                            ++ utf8 [226; 128; 175]%N ++ "4567").
Proof.
  apply (formatPhone_ignores_punctuation "(555) 123-4567"
           ("555" ++ utf8 [194; 160]%N ++ "123"
            ++ utf8 [226; 128; 175]%N ++ "4567")).
  reflexivity.
Defined.

(** A number typed with no-break spaces (U+00A0, U+202F) and one typed
    with a byte-order mark and an ideographic space around it. *)
Example formatPhone_unicode_spaces :
  Background.formatPhone ("555" ++ utf8 [194; 160]%N ++ "123"
                          ++ utf8 [226; 128; 175]%N ++ "4567")
  = "+15551234567"
  /\ Background.formatPhone (utf8 [239; 187; 191]%N ++ "+44 20 7946 0958"
                             ++ utf8 [227; 128; 128]%N)
     = "+442079460958".
Proof. split; reflexivity. Qed.

Lemma strictEq_refl (a : option string) : strictEq a a = true.
Proof. now apply strictEq_true. Qed.

Lemma classified_iff_truthy (o : option string) :
  classifyDomain o = None <-> truthy o = None.
Proof.
  unfold classifyDomain. destruct (truthy o); [|tauto].
  cbv zeta. destruct (existsb _ _); split; discriminate.
Qed.


(** X8.  [updateDomain] with the domain already recorded does nothing, so
    reporting the same domain twice is the same as reporting it once. *)
Theorem updateDomain_twice (env : Env) (d : option string) (w : World) :
  Background.updateDomain env d (snd (Background.updateDomain env d w))
  = Background.updateDomain env d w.
Proof.
  rewrite (updateDomain_run env d w). cbn [snd].
  destruct (strictEq (currentDomain (stateOf env w)) d) eqn:E.
  - rewrite updateDomain_run, E. reflexivity.
  - rewrite updateDomain_run. cbn. now rewrite strictEq_refl.
Qed.

Lemma processTime_lastTick (env : Env) (state : TrackingState) (a : Z) (w : World) :
  let w' := snd (Background.processTime env state a w) in
  lastTick (stateOf env w') = dateNow env (pred (clockReads w'))
  /\ (clockReads w < clockReads w')%nat.
Proof.
  destruct (truthy (userId state)) as [user|] eqn:Hu;
    [destruct (truthy (currentDomain state)) as [domain|] eqn:Hd|].
  - destruct (classifyDomain (currentDomain state)) as [[]|] eqn:Hc.
    + rewrite (processTime_productive env state a w user domain Hu Hd Hc).
      cbv zeta. cbn [snd].
      destruct (triggerAICall_preserves env w) as (_ & _ & _ & _ & Hclk).
      cbv zeta in Hclk.
      destruct ((AI_CALL_TRIGGER_MS <=? _) && _); cbn; split;
        try reflexivity; lia.
    + rewrite (processTime_unproductive env state a w user domain Hu Hd Hc).
      cbn. split; [reflexivity | lia].
    + apply classified_iff_truthy in Hc. congruence.
  - rewrite (processTime_untracked env state a w (or_intror Hd)).
    cbn. split; [reflexivity | lia].
  - rewrite (processTime_untracked env state a w (or_introl Hu)).
    cbn. split; [reflexivity | lia].
Qed.

(** X9.  Every tick ends by storing a fresh clock reading in [lastTick],
    the last one it took: also when the elapsed time is zero or negative,
    when tracking is paused, when nobody is signed in and when the page
    has no domain. *)
Theorem tick_always_moves_lastTick (env : Env) (w : World) :
  let w' := snd (Background.tick env w) in
  lastTick (stateOf env w') = dateNow env (pred (clockReads w'))
  /\ (clockReads w < clockReads w')%nat.
Proof.
  rewrite tick_run. cbv zeta.
  destruct (_ || _).
  - cbn. split; [reflexivity | lia].
  - destruct (negb _).
    + set (w1 := snd (Background.updateDomain env (activeDomain w) _)).
      destruct (processTime_lastTick env (stateOf env w1)
                  (Background.attributed
                     (dateNow env (clockReads w) - lastTick (stateOf env w))) w1)
        as [H1 H2].
      cbv zeta in H1, H2. split; [exact H1|].
      assert (clockReads w < clockReads w1)%nat; [|lia].
      unfold w1. rewrite updateDomain_run. cbn [snd].
      destruct (strictEq _ _); cbn; lia.
    + set (w0 := mkWorld _ _ _ _ _ _ _).
      destruct (processTime_lastTick env (stateOf env w)
                  (Background.attributed
                     (dateNow env (clockReads w) - lastTick (stateOf env w))) w0)
        as [H1 H2].
      cbv zeta in H1, H2. split; [exact H1|].
      assert (clockReads w0 = S (clockReads w)) by reflexivity. lia.
Qed.

(** The leaderboard timer, once the state and the clock are read. *)
Lemma checkAndUpdateLeaderboard_run (env : Env) (w : World) :
  let s := stateOf env w in
  let now := dateNow env (clockReads w) in
  Background.checkAndUpdateLeaderboard env w =
  (tt,
   match truthy (userId s) with
   | Some user =>
       if LEADERBOARD_UPDATE_INTERVAL_MS <=? now - lastLeaderboardUpdate s then
         mkWorld (Some (spread s [SetLastLeaderboardUpdate now]))
           (S (clockReads w)) (requests w)
           (effects w ++
            match profiles env user with
            | ProfileRow _ =>
                [UpsertLeaderboardGlobal user (totalUnproductiveMs s / 1000)]
            | NoProfile => []
            end)
           (isIdle w) (isWindowFocused w) (activeDomain w)
       else
         mkWorld (storage w) (S (clockReads w)) (requests w) (effects w)
           (isIdle w) (isWindowFocused w) (activeDomain w)
   | None =>
       mkWorld (storage w) (S (clockReads w)) (requests w) (effects w)
         (isIdle w) (isWindowFocused w) (activeDomain w)
   end).
Proof.
  intros s now. unfold Background.checkAndUpdateLeaderboard.
  rewrite bind_run. unfold getTrackingState. cbn [fst snd].
  rewrite bind_run. unfold Date_now. cbn [fst snd].
  fold s. fold now. rewrite !orZero_id.
  destruct (truthy (userId s)) as [user|]; [|reflexivity].
  destruct (LEADERBOARD_UPDATE_INTERVAL_MS <=? _); [|reflexivity].
  unfold updateLeaderboard.
  destruct (profiles env user); cbn; rewrite ?app_nil_r; reflexivity.
Qed.

Section RangeFacts.
Variable env : Env.

Lemma switchEffects_in_range (s : TrackingState) :
  countersInRange s -> Forall recordInRange (Background.switchEffects s).
Proof.
  intros (_ & [_ Hb] & _). unfold Background.switchEffects.
  destruct (truthy (currentDomain s)); [|constructor].
  destruct (truthy (userId s)); [|constructor].
  destruct (isProductive _ && (PRODUCTIVE_TRIGGER_MS <=? _)) eqn:E1.
  - apply andb_prop in E1 as [_ E1]. apply Z.leb_le in E1.
    constructor; [|constructor]. cbn. unfold floorSeconds.
    apply Z.div_le_lower_bound; unfold PRODUCTIVE_TRIGGER_MS in E1; lia.
  - destruct (isUnproductive _ && (UNPRODUCTIVE_BUFFER_MS <=? _)) eqn:E2;
      [|constructor].
    apply andb_prop in E2 as [_ E2]. apply Z.leb_le in E2. lia.
Qed.

Lemma updateDomain_keepsRange (d : option string) :
  keepsRange env (Background.updateDomain env d).
Proof.
  intros w Hr. rewrite updateDomain_run. cbn [snd].
  destruct (strictEq _ d).
  - split; [exact Hr|]. exists []. now rewrite app_nil_r.
  - split.
    + destruct Hr as (H1 & H2 & H3 & H4).
      unfold countersInRange, UNPRODUCTIVE_BUFFER_MS in *. cbn.
      repeat split; try (destruct (_ && _); lia); lia.
    + exists (Background.switchEffects (stateOf env w)).
      split; [reflexivity | now apply switchEffects_in_range].
Qed.

Lemma triggerAICall_sends (w : World) :
  exists sent : list Effect,
    effects (snd (Background.triggerAICall env w)) = (effects w ++ sent)%list
    /\ Forall recordInRange sent.
Proof.
  rewrite triggerAICall_run. cbn [snd].
  destruct (Background.callTarget env (stateOf env w)) as [to|].
  - exists [TwilioCall (TWILIO_PHONE_NUMBER env) to (WEBHOOK_URL env)].
    split; [|repeat constructor].
    cbv zeta. now destruct (twilio env (requests w)).
  - exists []. now rewrite app_nil_r.
Qed.

Lemma processTime_keepsRange (a : Z) (w : World) :
  0 < a <= 10000 ->
  countersInRange (stateOf env w) ->
  let w' := snd (Background.processTime env (stateOf env w) a w) in
  countersInRange (stateOf env w')
  /\ exists sent : list Effect,
       effects w' = (effects w ++ sent)%list /\ Forall recordInRange sent.
Proof.
  intros Ha Hr. set (s := stateOf env w) in *.
  destruct Hr as (H1 & H2 & H3 & H4).
  unfold UNPRODUCTIVE_BUFFER_MS in H2.
  destruct (truthy (userId s)) as [user|] eqn:Hu.
  - destruct (classifyDomain (currentDomain s)) as [[]|] eqn:Hc.
    + destruct (processTime_productive_state env w user a Hu Hc)
        as (Q1 & Q2 & Q3 & Q4 & _).
      cbv zeta in Q1, Q2, Q3, Q4. fold s in Q1, Q2, Q3, Q4.
      cbv zeta. split.
      * unfold countersInRange, UNPRODUCTIVE_BUFFER_MS.
        rewrite Q1, Q2, Q3, Q4. lia.
      * destruct (classified_truthy _ _ Hc) as [d Hd].
        rewrite (processTime_productive env s a w user d Hu Hd Hc).
        cbv zeta. cbn [snd effects].
        set (trigger := if (PRODUCTIVE_TRIGGER_MS <=? _) && _ then _ else _).
        assert (Ht : Forall recordInRange trigger).
        { unfold trigger.
          destruct (Z.leb_spec PRODUCTIVE_TRIGGER_MS
                      (consecutiveProductiveMs s + a)) as [Hle|];
            [|constructor].
          destruct (_ <? _); [|constructor].
          constructor; [|constructor]. cbn. unfold floorSeconds.
          apply Z.div_le_lower_bound; unfold PRODUCTIVE_TRIGGER_MS in Hle; lia. }
        destruct ((AI_CALL_TRIGGER_MS <=? _) && _).
        -- destruct (triggerAICall_sends w) as (sent & Hs & Hf).
           exists (sent ++ trigger)%list. rewrite Hs, app_assoc.
           split; [reflexivity | now apply Forall_app].
        -- now exists trigger.
    + destruct (processTime_unproductive_state env w user a Hu Hc)
        as (Q1 & Q2 & Q3 & Q4 & Q5 & _).
      cbv zeta in Q1, Q2, Q3, Q4, Q5. fold s in Q1, Q2, Q3, Q4, Q5.
      cbv zeta. unfold UNPRODUCTIVE_BUFFER_MS in Q2, Q3. split.
      * unfold countersInRange, UNPRODUCTIVE_BUFFER_MS.
        rewrite Q1, Q2, Q4, Q5.
        destruct (Z.leb_spec 10000 (unproductiveMsBuffer s + a)); lia.
      * eexists. split; [exact Q3|].
        destruct (Z.leb_spec 10000 (unproductiveMsBuffer s + a));
          [|constructor].
        constructor; [|constructor]. cbn. unfold floorSeconds. split.
        -- apply Z.div_le_lower_bound; lia.
        -- apply Z.lt_succ_r. apply Z.div_lt_upper_bound; lia.
    + apply classified_iff_truthy in Hc.
      destruct (processTime_untracked_state env w a (or_intror Hc))
        as (Q1 & Q2 & _).
      cbv zeta in Q1, Q2. fold s in Q1. cbv zeta. split.
      * rewrite Q1. unfold countersInRange, UNPRODUCTIVE_BUFFER_MS. cbn. lia.
      * exists []. rewrite app_nil_r. split; [exact Q2 | constructor].
  - destruct (processTime_untracked_state env w a (or_introl Hu))
      as (Q1 & Q2 & _).
    cbv zeta in Q1, Q2. fold s in Q1. cbv zeta. split.
    + rewrite Q1. unfold countersInRange, UNPRODUCTIVE_BUFFER_MS. cbn. lia.
    + exists []. rewrite app_nil_r. split; [exact Q2 | constructor].
Qed.

Lemma tick_keepsRange : keepsRange env (Background.tick env).
Proof.
  intros w Hr. rewrite tick_run. cbv zeta.
  set (a := Background.attributed _).
  destruct (a <=? 0) eqn:Ea; cbn [orb].
  - cbn. split; [exact Hr|]. exists []. now rewrite app_nil_r.
  - destruct (isIdle w && negb (isWindowFocused w)).
    + cbn. split; [exact Hr|]. exists []. now rewrite app_nil_r.
    + assert (Ha : 0 < a <= 10000).
      { apply Z.leb_gt in Ea. unfold a in *. rewrite attributed_min in *. lia. }
      set (w0 := mkWorld (storage w) (S (clockReads w)) (requests w)
                   (effects w) (isIdle w) (isWindowFocused w) (activeDomain w)).
      destruct (negb _).
      * destruct (updateDomain_keepsRange (activeDomain w) w0 Hr)
          as (Hr1 & sent1 & Hs1 & Hf1).
        set (w1 := snd (Background.updateDomain env (activeDomain w) w0)) in *.
        destruct (processTime_keepsRange a w1 Ha Hr1)
          as (Hr2 & sent2 & Hs2 & Hf2).
        cbv zeta in Hr2, Hs2. split; [exact Hr2|].
        exists (sent1 ++ sent2)%list. rewrite Hs2, Hs1, app_assoc.
        split; [reflexivity | now apply Forall_app].
      * exact (processTime_keepsRange a w0 Ha Hr).
Qed.

Lemma checkAndUpdateLeaderboard_keepsRange :
  keepsRange env (Background.checkAndUpdateLeaderboard env).
Proof.
  intros w Hr. rewrite checkAndUpdateLeaderboard_run. cbv zeta. cbn [snd].
  destruct (truthy (userId (stateOf env w))) as [user|].
  - destruct (LEADERBOARD_UPDATE_INTERVAL_MS <=? _).
    + split; [exact Hr|]. eexists. split; [reflexivity|].
      destruct (profiles env user); repeat constructor.
    + split; [exact Hr|]. exists []. cbn. now rewrite app_nil_r.
  - split; [exact Hr|]. exists []. cbn. now rewrite app_nil_r.
Qed.

Lemma handle_keepsRange (i : Input) : keepsRange env (Background.handle env i).
Proof.
  destruct i as [d| |focused|idle| | |authUserId|]; cbn [Background.handle].
  - intros w Hr. split; [exact Hr|]. exists []. cbn. now rewrite app_nil_r.
  - intros w Hr. rewrite bind_run. unfold getActiveDomain. cbn [fst snd].
    now apply updateDomain_keepsRange.
  - destruct focused.
    + intros w Hr. rewrite bind_run. cbn [fst snd].
      rewrite bind_run. unfold getActiveDomain. cbn [fst snd].
      exact (updateDomain_keepsRange _ (withFocus w true) Hr).
    + intros w Hr. split; [exact Hr|]. exists []. cbn. now rewrite app_nil_r.
  - intros w Hr. split; [exact Hr|]. exists []. cbn. now rewrite app_nil_r.
  - apply tick_keepsRange.
  - apply checkAndUpdateLeaderboard_keepsRange.
  - intros w Hr. rewrite bind_run. unfold getProfileUserId.
    destruct (profiles env authUserId); cbn [fst snd ret].
    + split; [exact Hr|]. exists []. now rewrite app_nil_r.
    + destruct (truthy (Some authUserId)).
      * unfold setUserId. rewrite bind_run, updateTrackingState_run. cbn.
        split; [exact Hr|]. exists []. now rewrite app_nil_r.
      * split; [exact Hr|]. exists []. now rewrite app_nil_r.
  - intros w Hr. unfold setUserId.
    rewrite !bind_run, !updateTrackingState_run. cbn.
    split; [|exists []; now rewrite app_nil_r].
    unfold countersInRange, UNPRODUCTIVE_BUFFER_MS. cbn. lia.
Qed.

Lemma runInputs_keepsRange (inputs : list Input) (w : World) :
  countersInRange (stateOf env w) ->
  countersInRange (stateOf env (runInputs env inputs w))
  /\ exists sent : list Effect,
       effects (runInputs env inputs w) = (effects w ++ sent)%list
       /\ Forall recordInRange sent.
Proof.
  revert w. induction inputs as [|i rest IH]; intros w Hr.
  - split; [exact Hr|]. exists []. cbn. now rewrite app_nil_r.
  - cbn [runInputs].
    destruct (handle_keepsRange i w Hr) as (Hr1 & sent1 & Hs1 & Hf1).
    destruct (IH _ Hr1) as (Hr2 & sent2 & Hs2 & Hf2).
    split; [exact Hr2|].
    exists (sent1 ++ sent2)%list. rewrite Hs2, Hs1, app_assoc.
    split; [reflexivity | now apply Forall_app].
Qed.
End RangeFacts.

(** X10.  Whatever the event loop delivers, in whatever order and with
    whatever clock, the four counters never become negative and the stored
    unproductive buffer stays below the flush threshold, provided they
    start that way (as they do on a fresh install). *)
Theorem counters_stay_in_range (env : Env) (inputs : list Input) (w : World) :
  countersInRange (stateOf env w) ->
  countersInRange (stateOf env (runInputs env inputs w)).
Proof. intros Hr. now destruct (runInputs_keepsRange env inputs w Hr). Qed.

Lemma counters_stay_in_range_witness :
  countersInRange
    (stateOf (demoEnv (constClock 7000) allOk)
       (runInputs (demoEnv (constClock 7000) allOk)
          [ SignedIn "u1"; ActiveTabIs (Some "youtube.com"); TickTimer ]
          freshWorld)).
Proof.
  apply (counters_stay_in_range (demoEnv (constClock 7000) allOk)
           [ SignedIn "u1"; ActiveTabIs (Some "youtube.com"); TickTimer ]
           freshWorld).
  unfold countersInRange, UNPRODUCTIVE_BUFFER_MS. cbn. lia.
Defined.

(** X11.  In any run that starts with counters in range, every
    unproductive-time record sent carries between 10 and 19 seconds, and
    every productive-session record at least 60 seconds. *)
Theorem records_stay_in_range (env : Env) (inputs : list Input) (w : World) :
  countersInRange (stateOf env w) ->
  exists sent : list Effect,
    effects (runInputs env inputs w) = (effects w ++ sent)%list
    /\ forall e, In e sent ->
         match e with
         | InsertLeaderboardScore _ score => 10 <= score <= 19
         | InsertProductiveTrigger _ _ duration_seconds => 60 <= duration_seconds
         | _ => True
         end.
Proof.
  intros Hr.
  destruct (runInputs_keepsRange env inputs w Hr) as (_ & sent & Hs & Hf).
  exists sent. split; [exact Hs|].
  intros e He. rewrite Forall_forall in Hf. exact (Hf e He).
Qed.

Lemma records_stay_in_range_witness :
  exists sent : list Effect,
    effects (runInputs (demoEnv (constClock 12000) allOk)
               [ SignedIn "u1"; ActiveTabIs (Some "youtube.com"); TickTimer ]
               freshWorld)
    = ([] ++ sent)%list
    /\ forall e, In e sent ->
         match e with
         | InsertLeaderboardScore _ score => 10 <= score <= 19
         | InsertProductiveTrigger _ _ duration_seconds => 60 <= duration_seconds
         | _ => True
         end.
Proof.
  apply (records_stay_in_range (demoEnv (constClock 12000) allOk)
           [ SignedIn "u1"; ActiveTabIs (Some "youtube.com"); TickTimer ]
           freshWorld).
  unfold countersInRange, UNPRODUCTIVE_BUFFER_MS. cbn. lia.
Defined.

Section SignedOutFacts.
Variable env : Env.

Lemma switchEffects_signed_out (s : TrackingState) :
  truthy (userId s) = None -> Background.switchEffects s = [].
Proof.
  intros H. unfold Background.switchEffects. rewrite H.
  now destruct (truthy (currentDomain s)).
Qed.

Lemma updateDomain_signed_out (d : option string) (w : World) :
  truthy (userId (stateOf env w)) = None ->
  let w' := snd (Background.updateDomain env d w) in
  effects w' = effects w /\ requests w' = requests w
  /\ truthy (userId (stateOf env w')) = None.
Proof.
  intros H. rewrite updateDomain_run. cbn [snd].
  destruct (strictEq _ d); [auto|].
  cbn. rewrite (switchEffects_signed_out _ H), app_nil_r. auto.
Qed.

Lemma processTime_signed_out (a : Z) (w : World) :
  truthy (userId (stateOf env w)) = None ->
  let w' := snd (Background.processTime env (stateOf env w) a w) in
  effects w' = effects w /\ requests w' = requests w
  /\ truthy (userId (stateOf env w')) = None.
Proof.
  intros H.
  destruct (processTime_untracked_state env w a (or_introl H))
    as (Q1 & Q2 & Q3 & _).
  cbv zeta in *. rewrite Q1. cbn. auto.
Qed.

Lemma handle_signed_out (i : Input) (w : World) :
  isSignedIn i = false ->
  truthy (userId (stateOf env w)) = None ->
  let w' := snd (Background.handle env i w) in
  effects w' = effects w /\ requests w' = requests w
  /\ truthy (userId (stateOf env w')) = None.
Proof.
  intros Hi H.
  destruct i as [d| |focused|idle| | |authUserId|]; cbn [Background.handle];
    try discriminate.
  - cbn. auto.
  - rewrite bind_run. unfold getActiveDomain. cbn [fst snd].
    now apply updateDomain_signed_out.
  - destruct focused; [|cbn; auto].
    rewrite bind_run. cbn [fst snd].
    rewrite bind_run. unfold getActiveDomain. cbn [fst snd].
    exact (updateDomain_signed_out _ (withFocus w true) H).
  - cbn. auto.
  - rewrite tick_run. cbv zeta.
    destruct (_ || _); [cbn; auto|].
    set (w0 := mkWorld (storage w) (S (clockReads w)) (requests w)
                 (effects w) (isIdle w) (isWindowFocused w) (activeDomain w)).
    destruct (negb _).
    + destruct (updateDomain_signed_out (activeDomain w) w0 H)
        as (E1 & E2 & E3).
      cbv zeta in E1, E2, E3.
      set (w1 := snd (Background.updateDomain env (activeDomain w) w0)) in *.
      destruct (processTime_signed_out
                  (Background.attributed
                     (dateNow env (clockReads w) - lastTick (stateOf env w)))
                  w1 E3) as (F1 & F2 & F3).
      cbv zeta in F1, F2, F3. rewrite F1, F2, E1, E2. auto.
    + exact (processTime_signed_out _ w0 H).
  - rewrite checkAndUpdateLeaderboard_run. cbv zeta. rewrite H. cbn. auto.
  - unfold setUserId. rewrite !bind_run, !updateTrackingState_run. cbn. auto.
Qed.
End SignedOutFacts.

(** X12.  While nobody is signed in, the service worker sends nothing: no
    discrete event, no leaderboard upsert, no call request, whatever
    inputs arrive, until a sign-in event comes. *)
Theorem signed_out_session_sends_nothing
    (env : Env) (inputs : list Input) (w : World) :
  truthy (userId (stateOf env w)) = None ->
  forallb (fun i => negb (isSignedIn i)) inputs = true ->
  let w' := runInputs env inputs w in
  effects w' = effects w /\ requests w' = requests w
  /\ truthy (userId (stateOf env w')) = None.
Proof.
  revert w. induction inputs as [|i rest IH]; intros w H Hin.
  - cbn. auto.
  - cbn [forallb] in Hin. apply andb_prop in Hin as [Hi Hrest].
    apply negb_true_iff in Hi.
    destruct (handle_signed_out env i w Hi H) as (E1 & E2 & E3).
    cbv zeta in E1, E2, E3.
    destruct (IH _ E3 Hrest) as (F1 & F2 & F3).
    cbn [runInputs]. cbv zeta in *. rewrite F1, F2, E1, E2. auto.
Qed.

Lemma signed_out_session_sends_nothing_witness :
  effects
    (runInputs (demoEnv (constClock 30000) allOk)
       [ ActiveTabIs (Some "youtube.com"); TabActivated; TickTimer;
         LeaderboardTimer; SignedOut; TickTimer ]
       freshWorld)
  = [].
Proof.
  refine (proj1 (signed_out_session_sends_nothing
                   (demoEnv (constClock 30000) allOk)
                   [ ActiveTabIs (Some "youtube.com"); TabActivated; TickTimer;
                     LeaderboardTimer; SignedOut; TickTimer ]
                   freshWorld _ _)); reflexivity.
Defined.

(** X13.  The leaderboard timer is rate-limited by what it stored: after a
    sync, a second run whose clock reading is less than a minute later
    sends nothing and leaves the store as the first run left it. *)
Theorem leaderboard_sync_is_rate_limited
    (env : Env) (w : World) (user : string) :
  let s := stateOf env w in
  let now := dateNow env (clockReads w) in
  let next := dateNow env (S (clockReads w)) in
  let w1 := snd (Background.checkAndUpdateLeaderboard env w) in
  let w2 := snd (Background.checkAndUpdateLeaderboard env w1) in
  truthy (userId s) = Some user ->
  LEADERBOARD_UPDATE_INTERVAL_MS <= now - lastLeaderboardUpdate s ->
  next - now < LEADERBOARD_UPDATE_INTERVAL_MS ->
  effects w2 = effects w1 /\ storage w2 = storage w1
  /\ lastLeaderboardUpdate (stateOf env w2) = now.
Proof.
  intros s now next w1 w2 Hu Hdue Hsoon.
  assert (H1 : w1 = mkWorld (Some (spread s [SetLastLeaderboardUpdate now]))
                 (S (clockReads w)) (requests w)
                 (effects w ++
                  match profiles env user with
                  | ProfileRow _ =>
                      [UpsertLeaderboardGlobal user (totalUnproductiveMs s / 1000)]
                  | NoProfile => []
                  end)
                 (isIdle w) (isWindowFocused w) (activeDomain w)).
  { unfold w1. rewrite checkAndUpdateLeaderboard_run. cbv zeta.
    fold s. fold now. rewrite Hu.
    apply Z.leb_le in Hdue. now rewrite Hdue. }
  unfold w2. rewrite checkAndUpdateLeaderboard_run. cbv zeta.
  rewrite H1. cbn. fold s. rewrite Hu.
  fold next.
  apply Z.leb_gt in Hsoon. rewrite Hsoon. cbn. auto.
Qed.

Lemma leaderboard_sync_is_rate_limited_witness :
  effects
    (snd (Background.checkAndUpdateLeaderboard (demoEnv (constClock 120000) allOk)
            (snd (Background.checkAndUpdateLeaderboard
                    (demoEnv (constClock 120000) allOk) beforeSync))))
  = effects
      (snd (Background.checkAndUpdateLeaderboard
              (demoEnv (constClock 120000) allOk) beforeSync)).
Proof.
  refine (proj1 (leaderboard_sync_is_rate_limited
                   (demoEnv (constClock 120000) allOk) beforeSync "u1" _ _ _));
    [reflexivity | vm_compute; discriminate | reflexivity].
Defined.



Lemma triggerAICall_keeps_triggers (env : Env) (w : World) :
  filter isProductiveTrigger (effects (snd (Background.triggerAICall env w)))
  = filter isProductiveTrigger (effects w).
Proof.
  rewrite triggerAICall_run. cbn [snd].
  destruct (Background.callTarget env (stateOf env w)); [|reflexivity].
  cbv zeta.
  destruct (twilio env (requests w)); cbn [effects];
    rewrite filter_app; cbn; now rewrite app_nil_r.
Qed.

(** X15.  For a signed-in user on a productive domain, [processTime]
    records a productive session on the tick where the streak crosses 60
    seconds upward, with the streak in whole seconds, and on no other
    tick: staying above 60 seconds records nothing more. *)
Theorem productive_session_recorded_at_crossing
    (env : Env) (w : World) (user domain : string) (a : Z) :
  let s := stateOf env w in
  let w' := snd (Background.processTime env s a w) in
  truthy (userId s) = Some user ->
  truthy (currentDomain s) = Some domain ->
  classifyDomain (currentDomain s) = Some productive ->
  filter isProductiveTrigger (effects w')
  = (filter isProductiveTrigger (effects w) ++
     if (PRODUCTIVE_TRIGGER_MS <=? consecutiveProductiveMs s + a)
        && (consecutiveProductiveMs s <? PRODUCTIVE_TRIGGER_MS)
     then [InsertProductiveTrigger user domain
             ((consecutiveProductiveMs s + a) / 1000)]
     else [])%list.
Proof.
  intros s w' Hu Hd Hc. unfold w'.
  rewrite (processTime_productive env s a w user domain Hu Hd Hc). cbv zeta.
  cbn [snd effects]. rewrite filter_app. f_equal.
  - destruct (_ && _); [apply triggerAICall_keeps_triggers | reflexivity].
  - destruct (_ && _); reflexivity.
Qed.

Lemma productive_session_recorded_at_crossing_witness :
  filter isProductiveTrigger
    (effects
       (snd (Background.processTime (demoEnv (constClock 120000) allOk)
               (demoState almostTwoMinutes) 1000 almostTwoMinutes)))
  = [].
Proof.
  exact (productive_session_recorded_at_crossing
           (demoEnv (constClock 120000) allOk) almostTwoMinutes
           "u1" "github.com" 1000 eq_refl eq_refl eq_refl).
Defined.

(* ================================================================== *)
(** * Further results: the earlier background revision                  *)
(* ================================================================== *)

Lemma early_triggerAICall_respects_cooldown_witness :
  effects
    (snd (BackgroundEarly.triggerAICall (demoEnv (constClock 200000) allOk)
            (worldAt (assign (stateOn (Some "github.com") (Some "u1"))
                        (SetLastCallTriggerTime 120000))
               (Some "github.com") false true)))
  = [].
Proof.
  refine (proj1 (early_triggerAICall_respects_cooldown
                   (demoEnv (constClock 200000) allOk)
                   (worldAt (assign (stateOn (Some "github.com") (Some "u1"))
                               (SetLastCallTriggerTime 120000))
                      (Some "github.com") false true) _ _));
    reflexivity.
Defined.


Lemma early_updateDomain_resets_incoming_witness :
  consecutiveProductiveMs
    (demoState
       (snd (BackgroundEarly.updateDomain (demoEnv (constClock 40000) allOk)
               (Some "docs.python.org")
               (worldAt (assign (stateOn (Some "github.com") (Some "u1"))
                           (SetConsecutiveProductiveMs 40000))
                  (Some "docs.python.org") false true))))
  = 0.
Proof.
  refine (proj1 (early_updateDomain_resets_incoming
                   (demoEnv (constClock 40000) allOk)
                   (Some "docs.python.org")
                   (worldAt (assign (stateOn (Some "github.com") (Some "u1"))
                               (SetConsecutiveProductiveMs 40000))
                      (Some "docs.python.org") false true) _)).
  reflexivity.
Defined.

Section EarlyStreak.
Variable env : Env.

Lemma early_triggerAICall_frame (w : World) :
  let w' := snd (BackgroundEarly.triggerAICall env w) in
  (requests w <= requests w')%nat.
Proof.
  unfold BackgroundEarly.triggerAICall.
  rewrite bind_run. unfold getTrackingState. cbn [fst snd].
  rewrite bind_run. unfold Date_now. cbn [fst snd].
  destruct (_ && _); [cbn; lia|].
  rewrite bind_run. unfold fetchTwilio. cbn [fst snd].
  destruct (twilio env _); cbn; lia.
Qed.

(** The earlier [processTime] on a productive domain. *)
Lemma early_processTime_productive (state : TrackingState) (elapsed : Z)
    (w : World) (user domain : string) :
  truthy (userId state) = Some user ->
  truthy (currentDomain state) = Some domain ->
  classifyDomain (currentDomain state) = Some productive ->
  let newConsecutive := consecutiveProductiveMs state + elapsed in
  let w1 :=
    if (AI_CALL_TRIGGER_MS <=? newConsecutive)
       && (newConsecutive - elapsed <? AI_CALL_TRIGGER_MS)
    then snd (BackgroundEarly.triggerAICall env w) else w in
  BackgroundEarly.processTime env state elapsed w =
  (tt,
   mkWorld
     (Some (spread (stateOf env w1)
              [ SetConsecutiveProductiveMs
                  (if PRODUCTIVE_TRIGGER_MS <=? newConsecutive then 0
                   else newConsecutive);
                SetTotalProductiveMs (totalProductiveMs state + elapsed);
                SetLastTick (dateNow env (clockReads w1)) ]))
     (S (clockReads w1)) (requests w1)
     (effects w1 ++
      if PRODUCTIVE_TRIGGER_MS <=? newConsecutive
      then [InsertProductiveTrigger user domain (floorSeconds newConsecutive)]
      else [])
     (isIdle w1) (isWindowFocused w1) (activeDomain w1)).
Proof.
  intros Hu Hd Hc. unfold BackgroundEarly.processTime.
  rewrite Hu, Hd, Hc. cbv zeta. rewrite orZero_id.
  rewrite bind_run.
  destruct ((AI_CALL_TRIGGER_MS <=? _) && _);
    [destruct (BackgroundEarly.triggerAICall env w) as [[] w1]|];
    cbn [fst snd ret];
    (destruct (PRODUCTIVE_TRIGGER_MS <=? _);
     [|rewrite app_nil_r]; reflexivity).
Qed.
End EarlyStreak.

(** X19.  In the earlier revision a signed-in tick on a productive domain
    always leaves the streak below 60 seconds, because reaching 60 seconds
    records the session and zeroes it.  Hence, from a streak below 60
    seconds, the two-minute call trigger is reached only by a single tick
    whose elapsed time exceeds 60 seconds. *)
Theorem early_streak_stays_below_a_minute
    (env : Env) (state : TrackingState) (elapsed : Z) (w : World)
    (user : string) :
  let w' := snd (BackgroundEarly.processTime env state elapsed w) in
  truthy (userId state) = Some user ->
  classifyDomain (currentDomain state) = Some productive ->
  consecutiveProductiveMs (stateOf env w') < PRODUCTIVE_TRIGGER_MS
  /\ (consecutiveProductiveMs state < PRODUCTIVE_TRIGGER_MS ->
      requests w' <> requests w ->
      60000 < elapsed).
Proof.
  intros w' Hu Hc. destruct (classified_truthy _ _ Hc) as [d Hd].
  unfold w'.
  rewrite (early_processTime_productive env state elapsed w user d Hu Hd Hc).
  cbv zeta. cbn [snd]. split.
  - cbn. unfold PRODUCTIVE_TRIGGER_MS.
    destruct (Z.leb_spec 60000 (consecutiveProductiveMs state + elapsed)); lia.
  - cbn [requests]. unfold PRODUCTIVE_TRIGGER_MS, AI_CALL_TRIGGER_MS.
    intros Hlt Hreq.
    destruct (Z.leb_spec 120000 (consecutiveProductiveMs state + elapsed));
      cbn [andb] in Hreq; [lia | now destruct Hreq].
Qed.

Lemma early_streak_stays_below_a_minute_witness :
  consecutiveProductiveMs
    (demoState
       (snd (BackgroundEarly.processTime (demoEnv (constClock 60000) allOk)
               (spread (stateOn (Some "github.com") (Some "u1"))
                  [SetConsecutiveProductiveMs 59000])
               1000
               (worldAt (spread (stateOn (Some "github.com") (Some "u1"))
                           [SetConsecutiveProductiveMs 59000])
                  (Some "github.com") false true))))
  < PRODUCTIVE_TRIGGER_MS.
Proof.
  exact (proj1 (early_streak_stays_below_a_minute
                  (demoEnv (constClock 60000) allOk)
                  (spread (stateOn (Some "github.com") (Some "u1"))
                     [SetConsecutiveProductiveMs 59000])
                  1000
                  (worldAt (spread (stateOn (Some "github.com") (Some "u1"))
                              [SetConsecutiveProductiveMs 59000])
                     (Some "github.com") false true)
                  "u1" eq_refl eq_refl)).
Defined.

(* ================================================================== *)
(** * Further results: the popup                                        *)
(* ================================================================== *)

Lemma length_append (a b : string) :
  String.length (a ++ b) = (String.length a + String.length b)%nat.
Proof. induction a as [|c a IH]; cbn; [reflexivity | now rewrite IH]. Qed.

(** A string is split in one way only into a head and a tail of given
    length. *)
Lemma append_tail_inj (a b x y : string) :
  String.length x = String.length y ->
  a ++ x = b ++ y -> a = b /\ x = y.
Proof.
  intros Hl. revert b. induction a as [|c a IH]; intros [|d b] H; cbn in H.
  - now split.
  - exfalso. apply (f_equal String.length) in H. cbn in H.
    rewrite length_append in H. lia.
  - exfalso. apply (f_equal String.length) in H. cbn in H.
    rewrite length_append in H. lia.
  - injection H as -> H. destruct (IH _ H) as [-> ->]. now split.
Qed.

(** [String(n)] can be read back. *)
Lemma String_of_read (n : Z) :
  option_map Z.of_int (NilZero.int_of_string (String_of n)) = Some n.
Proof.
  unfold String_of. rewrite NilZero.isi.
  - cbn. now rewrite DecimalZ.of_to.
  - destruct n; cbn; try discriminate.
    intros [= H]. now apply Unsigned.to_uint_nonnil in H.
  - destruct n; cbn; try discriminate.
    intros [= H]. now apply Unsigned.to_uint_nonnil in H.
Qed.

Lemma String_of_inj (a b : Z) : String_of a = String_of b -> a = b.
Proof.
  intros H. pose proof (String_of_read a) as Ha. rewrite H in Ha.
  rewrite String_of_read in Ha. now injection Ha.
Qed.

(** A field of the clock: [String(n).padStart(2, '0')]. *)
Lemma clock_field (n : Z) :
  0 <= n < 60 ->
  String.length (padStart 2 "0" (String_of n)) = 2%nat
  /\ option_map Z.of_int
       (NilZero.int_of_string (padStart 2 "0" (String_of n))) = Some n.
Proof.
  intros H.
  assert (Hall :
    forallb (fun k =>
      let s := padStart 2 "0" (String_of (Z.of_nat k)) in
      Nat.eqb (String.length s) 2
      && match option_map Z.of_int (NilZero.int_of_string s) with
         | Some m => m =? Z.of_nat k
         | None => false
         end) (seq 0 60) = true) by (vm_compute; reflexivity).
  rewrite forallb_forall in Hall.
  specialize (Hall (Z.to_nat n)).
  rewrite Z2Nat.id in Hall by lia.
  assert (Hin : In (Z.to_nat n) (seq 0 60)) by (apply in_seq; lia).
  apply Hall in Hin. cbv zeta in Hin.
  apply andb_true_iff in Hin. destruct Hin as [Hl Hv].
  apply Nat.eqb_eq in Hl. split; [exact Hl|].
  destruct (option_map _ _) as [m|]; [|discriminate].
  apply Z.eqb_eq in Hv. now subst.
Qed.

Lemma clock_field_inj (a b : Z) :
  0 <= a < 60 -> 0 <= b < 60 ->
  padStart 2 "0" (String_of a) = padStart 2 "0" (String_of b) -> a = b.
Proof.
  intros Ha Hb H.
  destruct (clock_field a Ha) as [_ Ra], (clock_field b Hb) as [_ Rb].
  rewrite H in Ra. rewrite Rb in Ra. now injection Ra.
Qed.

(** X20.  [formatTime] shows whole seconds and nothing else: for
    non-negative durations two displays are the same exactly when the
    durations agree in whole seconds, and the display is the hours followed
    by six characters, [:MM:SS]. *)
Theorem formatTime_shows_whole_seconds (a b : Z) :
  0 <= a -> 0 <= b ->
  (Popup.formatTime a = Popup.formatTime b <-> a / 1000 = b / 1000)
  /\ String.length (Popup.formatTime a)
     = (String.length (String_of (a / 3600000)) + 6)%nat.
Proof.
  intros Ha Hb.
  assert (Hfield : forall t, 0 <= t ->
            0 <= Z.rem t 3600 / 60 < 60 /\ 0 <= Z.rem t 60 < 60
            /\ t = 3600 * (t / 3600) + 60 * (Z.rem t 3600 / 60) + Z.rem t 60).
  { intros t Ht. rewrite !Z.rem_mod_nonneg by lia.
    assert (E : t mod 60 = (t mod 3600) mod 60).
    { symmetry. apply Z.mod_mod_divide. exists 60. reflexivity. }
    rewrite E.
    pose proof (Z.div_mod t 3600 ltac:(lia)).
    pose proof (Z.mod_pos_bound t 3600 ltac:(lia)).
    pose proof (Z.div_mod (t mod 3600) 60 ltac:(lia)).
    pose proof (Z.mod_pos_bound (t mod 3600) 60 ltac:(lia)).
    assert (0 <= (t mod 3600) / 60 < 60)
      by (split; [apply Z.div_pos; lia | apply Z.div_lt_upper_bound; lia]).
    lia. }
  assert (H0a : 0 <= a / 1000) by (apply Z.div_pos; lia).
  assert (H0b : 0 <= b / 1000) by (apply Z.div_pos; lia).
  destruct (Hfield _ H0a) as (Hma & Hsa & Hta).
  destruct (Hfield _ H0b) as (Hmb & Hsb & Htb).
  destruct (clock_field _ Hma) as [Lma _], (clock_field _ Hsa) as [Lsa _].
  destruct (clock_field _ Hmb) as [Lmb _], (clock_field _ Hsb) as [Lsb _].
  split; [split|].
  - unfold Popup.formatTime. cbv zeta. intros H.
    apply append_tail_inj in H;
      [|rewrite !length_append, Lma, Lsa, Lmb, Lsb; reflexivity].
    destruct H as [Hh H]. apply String_of_inj in Hh.
    change (":" ++ ?x) with (String ":" x) in H. injection H as H.
    apply append_tail_inj in H;
      [|cbn [String.length]; rewrite Lsa, Lsb; reflexivity].
    destruct H as [Hm H]. injection H as Hs.
    apply clock_field_inj in Hm; [|assumption..].
    apply clock_field_inj in Hs; [|assumption..].
    lia.
  - intros H. unfold Popup.formatTime. now rewrite H.
  - unfold Popup.formatTime. cbv zeta.
    rewrite !length_append, Lma, Lsa.
    rewrite Z.div_div by lia. reflexivity.
Qed.

Lemma formatTime_shows_whole_seconds_witness :
  Popup.formatTime 3725999 = Popup.formatTime 3725000.
Proof.
  refine (proj2 (proj1 (formatTime_shows_whole_seconds 3725999 3725000 _ _))
            _); [lia | lia | reflexivity].
Defined.

(** How the later transfer runs: what is sent, and the world after. *)
Lemma handleTransferUnproductiveTime_run
    (env : Env) (fetched : LeaderboardFetch) (written : bool) (w : World) :
  let s := stateOf env w in
  let u := floorSeconds (totalUnproductiveMs s) in
  let p := floorSeconds (totalProductiveMs s) in
  Popup.handleTransferUnproductiveTime env fetched written w =
  match truthy (userId s) with
  | None => ([], w)
  | Some user =>
      if (u =? 0) && (p =? 0) then ([], w)
      else
        match fetched with
        | RowNotFound =>
            ([InsertRow user u p],
             if written then withStorage w (Some (spread s transferReset))
             else w)
        | FetchFailed => ([], w)
        | RowFound row_user best_score productive_time =>
            if (row_user =? user)%string then
              ([UpdateRow user (columnOrZero best_score + u)
                  (columnOrZero productive_time + p)],
               if written then withStorage w (Some (spread s transferReset))
               else w)
            else ([], w)
        end
  end.
Proof.
  intros s u p. unfold Popup.handleTransferUnproductiveTime.
  rewrite bind_run. unfold getTrackingState. cbn [fst snd]. fold s.
  rewrite !orZero_id. fold u. fold p.
  destruct (truthy (userId s)) as [user|]; [|reflexivity].
  destruct ((u =? 0) && (p =? 0)); [reflexivity|].
  destruct fetched as [| |row_user best_score productive_time].
  - destruct written; reflexivity.
  - reflexivity.
  - destruct (row_user =? user)%string; [|reflexivity].
    destruct written; reflexivity.
Qed.

(** X21.  The button "Update Leaderboard" clears the local counters only
    after a write that succeeded.  Each press sends at most one write;
    either that write succeeded, and the stored state is the old one with
    the two totals and the streak at zero, or nothing was sent or the write
    failed, and the press has changed nothing at all. *)
Theorem transfer_clears_only_after_successful_write
    (env : Env) (fetched : LeaderboardFetch) (written : bool) (w : World) :
  let sent := fst (Popup.handleTransferUnproductiveTime env fetched written w) in
  let w' := snd (Popup.handleTransferUnproductiveTime env fetched written w) in
  (List.length sent <= 1)%nat
  /\ ((written = true /\ sent <> []
       /\ w' = withStorage w (Some (spread (stateOf env w) transferReset))
       /\ stateOf env w' <> stateOf env w)
      \/ ((written = false \/ sent = []) /\ w' = w)).
Proof.
  intros sent w'. unfold sent, w'.
  rewrite handleTransferUnproductiveTime_run. cbv zeta.
  set (s := stateOf env w).
  destruct (truthy (userId s)) as [user|];
    [|split; [cbn; lia | right; split; [now right | reflexivity]]].
  destruct ((floorSeconds (totalUnproductiveMs s) =? 0)
            && (floorSeconds (totalProductiveMs s) =? 0)) eqn:Ez;
    [split; [cbn; lia | right; split; [now right | reflexivity]]|].
  assert (Hne : stateOf env (withStorage w (Some (spread s transferReset)))
                <> s).
  { cbn. intros H. apply andb_false_iff in Ez.
    destruct Ez as [Ez | Ez]; apply Z.eqb_neq in Ez; apply Ez.
    - apply (f_equal totalUnproductiveMs) in H. cbn in H. now rewrite <- H.
    - apply (f_equal totalProductiveMs) in H. cbn in H. now rewrite <- H. }
  destruct fetched as [| |row_user best_score productive_time].
  - split; [cbn; lia|]. destruct written; cbn [fst snd].
    + left. repeat split; [discriminate | exact Hne].
    + right. split; [now left | reflexivity].
  - split; [cbn; lia | right; split; [now right | reflexivity]].
  - destruct (row_user =? user)%string;
      [|split; [cbn; lia | right; split; [now right | reflexivity]]].
    split; [cbn; lia|]. destruct written; cbn [fst snd].
    + left. repeat split; [discriminate | exact Hne].
    + right. split; [now left | reflexivity].
Qed.

(** X22.  A transfer that went through cannot be repeated: pressing the
    button again, whatever the remote side answers, sends nothing and
    changes nothing, because the totals it would send are zero. *)
Theorem transfer_is_not_repeated
    (env : Env) (fetched fetched' : LeaderboardFetch) (written' : bool)
    (w : World) :
  let first := Popup.handleTransferUnproductiveTime env fetched true w in
  fst first <> [] ->
  Popup.handleTransferUnproductiveTime env fetched' written' (snd first)
  = ([], snd first).
Proof.
  intros first Hsent.
  assert (Hw : snd first
               = withStorage w (Some (spread (stateOf env w) transferReset))).
  { unfold first in *. rewrite handleTransferUnproductiveTime_run in *.
    cbv zeta in *.
    destruct (truthy (userId (stateOf env w))); [|now destruct Hsent].
    destruct (_ && _); [now destruct Hsent|].
    destruct fetched; [reflexivity | now destruct Hsent |].
    destruct (_ =? _)%string; [reflexivity | now destruct Hsent]. }
  rewrite Hw. rewrite handleTransferUnproductiveTime_run. cbv zeta.
  change (stateOf env (withStorage w
            (Some (spread (stateOf env w) transferReset))))
    with (spread (stateOf env w) transferReset).
  destruct (truthy (userId (spread (stateOf env w) transferReset)));
    reflexivity.
Qed.

Lemma transfer_is_not_repeated_witness :
  fst (Popup.handleTransferUnproductiveTime (demoEnv (constClock 0) allOk)
         (RowFound "u1" (Some 40) None) true
         (snd (Popup.handleTransferUnproductiveTime
                 (demoEnv (constClock 0) allOk) RowNotFound true
                 almostTwoMinutes)))
  = [].
Proof.
  refine (f_equal fst
            (transfer_is_not_repeated (demoEnv (constClock 0) allOk)
               RowNotFound (RowFound "u1" (Some 40) None) true
               almostTwoMinutes _)).
  vm_compute. discriminate.
Defined.

(** X23.  The later transfer only adds: with local totals that are not
    negative, the row written carries at least what the row read held, in
    both columns, and exactly the whole seconds of the local totals more;
    what is below a second is lost with the reset. *)
Theorem transfer_only_adds
    (env : Env) (fetched : LeaderboardFetch) (written : bool) (w : World) :
  let s := stateOf env w in
  let sent := fst (Popup.handleTransferUnproductiveTime env fetched written w) in
  0 <= totalUnproductiveMs s ->
  0 <= totalProductiveMs s ->
  Forall (fun wr =>
            fetchedBestScore fetched <= writtenBestScore wr
            /\ fetchedProductiveTime fetched <= writtenProductiveTime wr
            /\ 0 <= totalUnproductiveMs s
                    - 1000 * (writtenBestScore wr - fetchedBestScore fetched)
                 < 1000
            /\ 0 <= totalProductiveMs s
                    - 1000 * (writtenProductiveTime wr
                              - fetchedProductiveTime fetched)
                 < 1000)
         sent.
Proof.
  intros s sent Hu Hp. unfold sent.
  rewrite handleTransferUnproductiveTime_run. cbv zeta. fold s.
  unfold floorSeconds.
  pose proof (Z.div_mod (totalUnproductiveMs s) 1000 ltac:(lia)).
  pose proof (Z.mod_pos_bound (totalUnproductiveMs s) 1000 ltac:(lia)).
  pose proof (Z.div_mod (totalProductiveMs s) 1000 ltac:(lia)).
  pose proof (Z.mod_pos_bound (totalProductiveMs s) 1000 ltac:(lia)).
  assert (0 <= totalUnproductiveMs s / 1000) by (apply Z.div_pos; lia).
  assert (0 <= totalProductiveMs s / 1000) by (apply Z.div_pos; lia).
  destruct (truthy (userId s)); [|constructor].
  destruct (_ && _); [constructor|].
  destruct fetched as [| |row_user best_score productive_time];
    [|constructor|].
  - constructor; [|constructor].
    cbn [writtenBestScore writtenProductiveTime fetchedBestScore
         fetchedProductiveTime]. lia.
  - destruct (_ =? _)%string; [|constructor].
    constructor; [|constructor].
    cbn [writtenBestScore writtenProductiveTime fetchedBestScore
         fetchedProductiveTime]. lia.
Qed.

Lemma transfer_only_adds_witness :
  Forall (fun wr => 40 <= writtenBestScore wr)
    (fst (Popup.handleTransferUnproductiveTime (demoEnv (constClock 0) allOk)
            (RowFound "u1" (Some 40) None) true almostTwoMinutes)).
Proof.
  refine (Forall_impl _ _
            (transfer_only_adds (demoEnv (constClock 0) allOk)
               (RowFound "u1" (Some 40) None) true almostTwoMinutes _ _)).
  - intros wr H. exact (proj1 H).
  - vm_compute. discriminate.
  - vm_compute. discriminate.
Defined.

(** How the earlier transfer runs. *)
Lemma early_handleTransferUnproductiveTime_run
    (env : Env) (fetched : ScoreFetch) (written : bool) (w : World) :
  let s := stateOf env w in
  let u := floorSeconds (totalUnproductiveMs s) in
  let p := floorSeconds (totalProductiveMs s) in
  fst (PopupEarly.handleTransferUnproductiveTime env fetched written w) =
  match truthy (userId s) with
  | None => []
  | Some user =>
      if (u =? 0) && (p =? 0) then []
      else
        match fetched with
        | ScoreNotFound => [InsertScore user (Z.max 0 (u - p))]
        | ScoreFetchFailed => []
        | ScoreFound row_user best_score =>
            if (row_user =? user)%string
            then [UpdateScore user (Z.max 0 (columnOrZero best_score + (u - p)))]
            else []
        end
  end.
Proof.
  intros s u p. unfold PopupEarly.handleTransferUnproductiveTime.
  rewrite bind_run. unfold getTrackingState. cbn [fst snd]. fold s.
  rewrite !orZero_id. fold u. fold p.
  destruct (truthy (userId s)) as [user|]; [|reflexivity].
  destruct ((u =? 0) && (p =? 0)); [reflexivity|].
  destruct fetched as [| |row_user best_score].
  - destruct written; reflexivity.
  - reflexivity.
  - destruct (row_user =? user)%string; [|reflexivity].
    destruct written; reflexivity.
Qed.

(** X24.  The earlier transfer subtracts the productive seconds from the
    score but never sends a negative score, whatever the stored totals and
    the row read; and unlike the later one it can lower the score: with
    more productive than unproductive seconds the score written is below
    the one read, unless that was zero already. *)
Theorem early_transfer_score_is_clamped
    (env : Env) (fetched : ScoreFetch) (written : bool) (w : World) :
  let s := stateOf env w in
  let sent := fst (PopupEarly.handleTransferUnproductiveTime env fetched written w) in
  Forall (fun wr => 0 <= writtenScore wr) sent
  /\ forall row_user best_score,
       fetched = ScoreFound row_user (Some best_score) ->
       0 < best_score ->
       floorSeconds (totalUnproductiveMs s) < floorSeconds (totalProductiveMs s) ->
       Forall (fun wr => writtenScore wr < best_score) sent.
Proof.
  intros s sent. unfold sent.
  rewrite early_handleTransferUnproductiveTime_run. cbv zeta. fold s.
  split.
  - destruct (truthy (userId s)); [|constructor].
    destruct (_ && _); [constructor|].
    destruct fetched as [| |row_user best_score]; [|constructor|].
    + constructor; [cbn [writtenScore]; lia | constructor].
    + destruct (_ =? _)%string; [|constructor].
      constructor; [cbn [writtenScore]; lia | constructor].
  - intros row_user best_score -> Hpos Hlt.
    destruct (truthy (userId s)); [|constructor].
    destruct (_ && _); [constructor|].
    destruct (_ =? _)%string; [|constructor].
    constructor; [|constructor].
    cbn [writtenScore columnOrZero]. rewrite orZero_id.
    unfold floorSeconds in *. lia.
Qed.

Lemma early_transfer_score_is_clamped_witness :
  Forall (fun wr => writtenScore wr < 500)
    (fst (PopupEarly.handleTransferUnproductiveTime
            (demoEnv (constClock 0) allOk)
            (ScoreFound "u1" (Some 500)) true almostTwoMinutes)).
Proof.
  refine (proj2 (early_transfer_score_is_clamped
                   (demoEnv (constClock 0) allOk)
                   (ScoreFound "u1" (Some 500)) true almostTwoMinutes)
            "u1" 500 eq_refl _ _).
  - lia.
  - vm_compute. reflexivity.
Defined.

(** X25.  [toggleTheme] is an involution on the store: two presses give
    back the theme shown at first and a stored state in which every field,
    apart from the theme, is the one stored before. *)
Theorem toggleTheme_twice (env : Env) (theme : Theme) (w : World) :
  let once := Popup.toggleTheme env theme w in
  let twice := Popup.toggleTheme env (fst once) (snd once) in
  fst once <> theme
  /\ fst twice = theme
  /\ stateOf env (snd twice) = spread (stateOf env w) [SetTheme theme].
Proof.
  intros once twice. unfold twice, once, Popup.toggleTheme.
  rewrite !bind_run, !updateTrackingState_run. cbn [fst snd ret].
  destruct theme; cbn; repeat split; try discriminate;
    destruct (stateOf env w); reflexivity.
Qed.


(* ================================================================== *)
(** * Further results: the two ways out                                 *)
(* ================================================================== *)

(** X26.  The two sign-outs differ.  The popup's button "Sign out" clears
    the user and nothing else: the four counters and both anchors stay in
    the store, and the user who signs in next through the popup takes them
    over.  Only the service worker's handler of the [SIGNED_OUT] event
    zeroes them, so that the next user starts at zero. *)
Theorem popup_logout_keeps_the_counters
    (env : Env) (w : World) (authUserId : string) (dads : option string) :
  let s := stateOf env w in
  let out := snd (Popup.handleLogout env w) in
  let next := snd (Popup.handleLogin env (Some authUserId) out) in
  let cleared := snd (Background.handle env SignedOut w) in
  let fresh := snd (Popup.handleLogin env (Some authUserId) cleared) in
  profiles env authUserId = ProfileRow dads ->
  stateOf env out = spread s [SetUserId None]
  /\ stateOf env next = spread s [SetUserId (Some authUserId)]
  /\ counters (stateOf env next) = counters s
  /\ userId (stateOf env fresh) = Some authUserId
  /\ counters (stateOf env fresh) = (0, 0, 0, 0)
  /\ lastCallTriggerTime (stateOf env fresh) = 0
  /\ lastLeaderboardUpdate (stateOf env fresh) = 0.
Proof.
  intros s out next cleared fresh Hp.
  unfold fresh, cleared, next, out, Popup.handleLogin, Popup.handleLogout.
  rewrite Hp. unfold Background.handle, setUserId.
  rewrite !bind_run, !updateTrackingState_run. cbn [fst snd ret].
  fold s. destruct s. cbn. repeat split.
Qed.

Lemma popup_logout_keeps_the_counters_witness :
  counters
    (demoState
       (snd (Popup.handleLogin (demoEnv (constClock 0) allOk) (Some "u1")
               (snd (Popup.handleLogout (demoEnv (constClock 0) allOk)
                       almostTwoMinutes)))))
  = counters (demoState almostTwoMinutes).
Proof.
  refine (proj1 (proj2 (proj2
            (popup_logout_keeps_the_counters (demoEnv (constClock 0) allOk)
               almostTwoMinutes "u1" (Some "(555) 123-4567") _)))).
  reflexivity.
Defined.

(* ================================================================== *)
(** * Further results: the totals                                       *)
(* ================================================================== *)

Section TotalsFacts.
Variable env : Env.





End TotalsFacts.



(* ================================================================== *)
(** * Further results: who requests a call                              *)
(* ================================================================== *)

Section CallFacts.
Variable env : Env.

(** What [processTime] does to the number of call requests. *)
Lemma processTime_requests (a : Z) (w : World) :
  let s := stateOf env w in
  let w' := snd (Background.processTime env s a w) in
  requests w' = requests w
  \/ (requests w' = S (requests w)
      /\ classifyDomain (currentDomain s) = Some productive
      /\ consecutiveProductiveMs s < AI_CALL_TRIGGER_MS
           <= consecutiveProductiveMs (stateOf env w')).
Proof.
  intros s w'. unfold w'.
  destruct (truthy (userId s)) as [user|] eqn:Hu;
    [destruct (truthy (currentDomain s)) as [domain|] eqn:Hd|].
  - destruct (classifyDomain (currentDomain s)) as [[]|] eqn:Hc.
    + destruct (processTime_productive_state env w user a Hu Hc)
        as (Q1 & _).
      cbv zeta in Q1. fold s in Q1. rewrite Q1.
      rewrite (processTime_productive env s a w user domain Hu Hd Hc).
      cbv zeta. cbn [snd requests].
      destruct (Z.leb_spec AI_CALL_TRIGGER_MS (consecutiveProductiveMs s + a));
        destruct (Z.ltb_spec (consecutiveProductiveMs s) AI_CALL_TRIGGER_MS);
        cbn [andb]; try (now left).
      rewrite triggerAICall_run. cbn [snd].
      destruct (Background.callTarget env (stateOf env w)); [|now left].
      right. cbv zeta.
      destruct (twilio env (requests w)); cbn [requests];
        (split; [reflexivity | split; [reflexivity | lia]]).
    + rewrite (processTime_unproductive env s a w user domain Hu Hd Hc).
      now left.
    + apply classified_iff_truthy in Hc. congruence.
  - rewrite (processTime_untracked env s a w (or_intror Hd)). now left.
  - rewrite (processTime_untracked env s a w (or_introl Hu)). now left.
Qed.
End CallFacts.

(** X28.  Who requests a call.  A handler of the service worker, run to
    completion on its own from any state, sends at most one call request,
    and sends one only if it is the tick, the streak was below two minutes
    when the tick started and is at or above two minutes when it ends.  No
    tab, focus, idle, leaderboard or sign-in event requests a call, and a
    tick that starts with the streak at or above two minutes requests
    none. *)
Theorem call_only_by_a_tick_at_the_crossing
    (env : Env) (i : Input) (w : World) :
  let s := stateOf env w in
  let w' := snd (Background.handle env i w) in
  requests w' = requests w
  \/ (i = TickTimer
      /\ requests w' = S (requests w)
      /\ consecutiveProductiveMs s < AI_CALL_TRIGGER_MS
           <= consecutiveProductiveMs (stateOf env w')).
Proof.
  intros s w'. unfold w', s.
  destruct i as [d| |focused|idle| | |authUserId|]; cbn [Background.handle].
  - now left.
  - left. rewrite bind_run. unfold getActiveDomain. cbn [fst snd].
    now rewrite updateDomain_run; destruct (strictEq _ _).
  - left. destruct focused; [|reflexivity].
    rewrite bind_run. cbn [fst snd].
    rewrite bind_run. unfold getActiveDomain. cbn [fst snd].
    now rewrite updateDomain_run; destruct (strictEq _ _).
  - now left.
  - rewrite tick_run. cbv zeta.
    destruct (_ || _); [now left|].
    set (a := Background.attributed _).
    set (w0 := mkWorld (storage w) (S (clockReads w)) (requests w)
                 (effects w) (isIdle w) (isWindowFocused w) (activeDomain w)).
    change (stateOf env w) with (stateOf env w0).
    change (requests w) with (requests w0).
    destruct (negb _).
    + set (w1 := snd (Background.updateDomain env (activeDomain w) w0)).
      assert (H1 : requests w1 = requests w0
                   /\ (classifyDomain (currentDomain (stateOf env w1))
                         = Some productive ->
                       consecutiveProductiveMs (stateOf env w1)
                       = consecutiveProductiveMs (stateOf env w0))).
      { unfold w1. rewrite updateDomain_run. cbn [snd].
        destruct (strictEq _ _); [now split|].
        split; [reflexivity|]. cbn. intros Hc.
        unfold isUnproductive. rewrite Hc. now rewrite andb_false_r. }
      destruct H1 as [R1 C1].
      destruct (processTime_requests env a w1) as [H | (H & Hc & Hlo & Hhi)];
        cbv zeta in *.
      * left. now rewrite H.
      * right. rewrite H, R1, <- (C1 Hc).
        split; [reflexivity | split; [reflexivity | now split]].
    + destruct (processTime_requests env a w0) as [H | (H & _ & Hlo & Hhi)];
        cbv zeta in *; [now left|].
      right. split; [reflexivity | split; [exact H | now split]].
  - left. rewrite checkAndUpdateLeaderboard_run. cbv zeta. cbn [snd].
    destruct (truthy (userId (stateOf env w))); [|reflexivity].
    now destruct (_ <=? _).
  - left. rewrite bind_run. unfold getProfileUserId.
    destruct (profiles env authUserId); cbn [fst snd ret]; [reflexivity|].
    destruct (truthy (Some authUserId)); reflexivity.
  - left. unfold setUserId. rewrite !bind_run, !updateTrackingState_run.
    reflexivity.
Qed.
